(** * synerity-ai/charts: export pipeline and scatter-plot analytics

    A shallow embedding of the parts of the charting library that its
    specification makes claims about:

    - [export-manager.ts]: [ExportManager.exportPNG], [exportSVG],
      [exportPDF], [exportCSV] and the private [downloadFile];
    - the enhanced [ScatterPlot] ([render], [renderTrendLine],
      [performClustering], [renderClusterBoundaries], [update]) and the
      older [ScatterPlot.calculateTrendLine] that ships beside it;
    - [pie-chart.ts]: [PieChart.render] and [PieChart.update].

    JavaScript numbers are IEEE 754 binary64 values, so they are embedded as
    Rocq's primitive floats: every arithmetic step of the sources is the same
    operation here, NaN and the infinities included, and the definitions run
    under [vm_compute].  What the browser or a third-party library decides
    (how a fractional number prints, what an SVG serialises to, whether a
    canvas context exists, what [Math.random] returns) is a parameter or a
    field of an explicit environment record. *)

From Stdlib Require Import ZArith Floats String Bool Lia.
From Stdlib Require Import Sorting.Sorted.
From stdpp Require Import base list strings pretty.

Open Scope string_scope.

(** ** ECMAScript values used by the sources *)

Module JS.

(** A JavaScript [number]. *)
Definition number : Type := float.

(** A value that may be [undefined]: an optional property of an object
    literal, or an optional parameter. *)
Definition optional (A : Type) : Type := option A.

(** The line feed of the template literals' [\n]. *)
Definition LF : string := String (Ascii.ascii_of_nat 10) EmptyString.

(** [n] as a JavaScript number (array lengths, loop counters). *)
Definition of_nat (n : nat) : number :=
  PrimFloat.of_uint63 (Uint63.of_Z (Z.of_nat n)).

(** The integer a finite number denotes, when it denotes one. *)
Definition integral_value (x : number) : option Z :=
  match Prim2SF x with
  | S754_zero _ => Some 0%Z
  | S754_finite s m e =>
      let signed (v : Z) : Z := if s then (- v)%Z else v in
      if (0 <=? e)%Z then Some (signed (Z.pos m * 2 ^ e)%Z)
      else if (Z.pos m mod 2 ^ (- e) =? 0)%Z
           then Some (signed (Z.pos m / 2 ^ (- e))%Z)
           else None
  | S754_infinity _ | S754_nan => None
  end.

Section NumberToString.
(** ECMAScript's Number::toString prints the shortest digit string that
    reads back as the same double.  For NaN, the infinities and integers
    below 10^21 that string is fixed by the standard and written out
    here; the digits of every other value are left to the engine. *)
Variable shortest_digits : number -> string.

Definition Number_toString (x : number) : string :=
  if PrimFloat.is_nan x then "NaN"
  else if PrimFloat.is_infinity x
       then (if PrimFloat.get_sign x then "-Infinity" else "Infinity")
       else match integral_value x with
            | Some z => if (Z.abs z <? 10 ^ 21)%Z then pretty z
                        else shortest_digits x
            | None => shortest_digits x
            end.

(** [`${v}`] for a numeric property that may be missing. *)
Definition template_number (v : optional number) : string :=
  match v with
  | Some x => Number_toString x
  | None => "undefined"
  end.
End NumberToString.

(** [`${s}`] for a string property that may be missing. *)
Definition template_string (s : optional string) : string :=
  match s with
  | Some v => v
  | None => "undefined"
  end.

(** [s || ''] for a string property: [undefined] and the empty string are
    both falsy. *)
Definition or_empty (s : optional string) : string :=
  match s with
  | Some v => v
  | None => EmptyString
  end.

(** Truthiness of an optional string ([if (filename)]). *)
Definition truthy_string (s : optional string) : bool :=
  match s with
  | Some (String _ _) => true
  | Some EmptyString | None => false
  end.

(** [Math.min(a, b)]: NaN if either argument is NaN, and -0 below +0. *)
Definition Math_min (a b : number) : number :=
  if PrimFloat.is_nan a || PrimFloat.is_nan b then PrimFloat.nan
  else if PrimFloat.ltb a b then a
  else if PrimFloat.ltb b a then b
  else if PrimFloat.get_sign a then a else b.

(** [Math.pow(v, 2)], taken to be the correctly rounded square. *)
Definition Math_pow2 (v : number) : number := PrimFloat.mul v v.

(** [Math.sqrt(v)], the correctly rounded square root. *)
Definition Math_sqrt (v : number) : number := PrimFloat.sqrt v.

(** [Math.floor(v)] used as an array index: the index when [v] is finite
    and at least 0, nothing when it is negative, NaN or infinite (no array
    element lives there). *)
Definition Math_floor_index (v : number) : option nat :=
  match Prim2SF v with
  | S754_zero _ => Some 0
  | S754_finite false m e =>
      Some (Z.to_nat (if (0 <=? e)%Z then Z.pos m * 2 ^ e
                      else Z.pos m / 2 ^ (- e)))
  | S754_finite true _ _ | S754_infinity _ | S754_nan => None
  end.

End JS.

(** ** Data records ([types.ts]) *)

Module Types.
Import JS.

(** One element of a [ChartData[] | ScatterData[]] argument as the code
    sees it at run time: an object whose properties may each be absent.
    A [ChartData] has [label] and [value]; a [ScatterData] has [x] and
    [y]; [color] (and a scatter point's [label]) are optional. *)
Record Datum : Type := mkDatum {
  x : optional number;
  y : optional number;
  label : optional string;
  value : optional number;
  color : optional string
}.

(** The object literal [{label, value, color?}]. *)
Definition chartData (l : string) (v : number) (c : optional string) : Datum :=
  {| x := None; y := None; label := Some l; value := Some v; color := c |}.

(** The object literal [{x, y, label?, color?}]. *)
Definition scatterData (px py : number) (l c : optional string) : Datum :=
  {| x := Some px; y := Some py; label := l; value := None; color := c |}.

(** ['x' in d]. *)
Definition has_x (d : Datum) : bool :=
  match d.(x) with Some _ => true | None => false end.

(** An object that is a [ChartData] and nothing more. *)
Definition isChartData (d : Datum) : Prop :=
  d.(x) = None /\ d.(y) = None /\ is_Some d.(label) /\ is_Some d.(value).

(** An object that is a [ScatterData]. *)
Definition isScatterData (d : Datum) : Prop :=
  is_Some d.(x) /\ is_Some d.(y) /\ d.(value) = None.

(** An array the signature [ChartData[] | ScatterData[]] admits. *)
Definition well_typed (data : list Datum) : Prop :=
  Forall isChartData data \/ Forall isScatterData data.
End Types.

(** ** The export manager ([export-manager.ts]) *)

Module ExportManager.
Import JS.

(** *** What the browser holds and what an export does to it *)

(** [new Blob([content], { type })]. *)
Record Blob : Type := mkBlob { content : string; mimeType : string }.

(** A child of the rendered vector root: something a chart drew, or the
    [<style>] element [exportSVG] adds to its clone. *)
Inductive Node : Type :=
| Drawn (markup : string)
| StyleElement (textContent : string).

(** The [<svg>] element a chart rendered into the container, with the size
    [getBoundingClientRect] reports for it. *)
Record SVGElement : Type := mkSVG {
  childNodes : list Node;
  rectWidth : number;
  rectHeight : number
}.

(** [window.jsPDF], the optional PDF collaborator: the page size of a
    landscape A4 document in millimetres, the blob [output('blob')] hands
    back, and the exception it raises inside the [try] block, if any. *)
Record JsPDF : Type := mkJsPDF {
  pageWidth : number;
  pageHeight : number;
  outputBlob : Blob;
  raises : option string
}.

(** Everything an export reads from its surroundings. *)
Record Browser : Type := mkBrowser {
  (** [this.container.querySelector('svg')] *)
  svgElement : option SVGElement;
  (** whether [canvas.getContext('2d')] is non-null *)
  context2d : bool;
  (** whether the serialised SVG decodes ([img.onload]) or not ([img.onerror]) *)
  svgImageLoads : bool;
  (** what [canvas.toBlob] passes to its callback ([null] is [None]) *)
  canvasBlob : option Blob;
  (** [window.jsPDF] ([undefined] is [None]) *)
  jsPDF : option JsPDF;
  (** [img.width] and [img.height] of the decoded PNG, [None] when
      [img.onerror] fires instead *)
  pngImage : option (number * number)
}.

(** The calls an export makes on the canvas, the URL registry, the PDF
    document and the page, in order. *)
Inductive Effect : Type :=
| CanvasSize (width height : number)
| FillStyle (colour : string)
| FillRect (x y w h : number)
| CreateObjectURL (b : Blob)
| RevokeObjectURL (b : Blob)
| DrawImage (dx dy dw dh : number)
| ToBlob (type : string) (quality : number)
| NewJsPDF (orientation unit format : string)
| SetProperties (title author subject creator : string)
| AddImage (format : string) (x y w h : number)
| Output (type : string)
| AppendLink (href : Blob) (download : string)
| ClickLink (href : Blob) (download : string)
| RemoveLink (href : Blob) (download : string).

(** How a call ends: a returned value (a fulfilled promise) or a thrown
    [Error] (a rejected promise) with its message. *)
Inductive Outcome (A : Type) : Type :=
| Fulfilled (a : A)
| Rejected (message : string).
Arguments Fulfilled {A} a.
Arguments Rejected {A} message.

(** A computation: the effects it performed, then its outcome. *)
Definition Run (A : Type) : Type := (list Effect * Outcome A)%type.

Definition ret {A} (a : A) : Run A := ([], Fulfilled a).
Definition throw {A} (message : string) : Run A := ([], Rejected message).
Definition perform (e : Effect) : Run unit := ([e], Fulfilled tt).
Definition bind {A B} (m : Run A) (k : A -> Run B) : Run B :=
  match m with
  | (t, Fulfilled a) => let '(t', o) := k a in (app t t', o)
  | (t, Rejected message) => (t, Rejected message)
  end.

#[global] Instance Run_ret : MRet Run := @ret.
#[global] Instance Run_bind : MBind Run := fun A B k m => bind m k.

Definition effects {A} (r : Run A) : list Effect := fst r.

(** The [drawImage] calls among some effects, and the [setProperties] calls. *)
Definition drawImages (t : list Effect) : list Effect :=
  List.filter (fun e => match e with DrawImage _ _ _ _ => true | _ => false end) t.

Definition setProperties (t : list Effect) : list Effect :=
  List.filter (fun e => match e with SetProperties _ _ _ _ => true | _ => false end) t.

Definition outcome {A} (r : Run A) : Outcome A := snd r.

(** *** Export configurations *)

Record PNGExportConfig : Type := mkPNG {
  png_filename : optional string;
  png_width : optional number;
  png_height : optional number;
  png_backgroundColor : optional string;
  png_quality : optional number
}.

Record SVGExportConfig : Type := mkSVGConfig {
  svg_filename : optional string;
  svg_width : optional number;
  svg_height : optional number;
  svg_backgroundColor : optional string;
  svg_quality : optional number;
  includeStyles : optional bool
}.

Record PDFExportConfig : Type := mkPDF {
  pdf_filename : optional string;
  pdf_width : optional number;
  pdf_height : optional number;
  pdf_backgroundColor : optional string;
  pdf_quality : optional number;
  title : optional string;
  author : optional string;
  subject : optional string
}.

(** A destructuring default: [const { field = d } = config]. *)
Definition defaulting {A} (d : A) (field : optional A) : A :=
  match field with
  | Some v => v
  | None => d
  end.

(** *** The exports *)

Section Exports.
(** [new XMLSerializer().serializeToString], the browser's. *)
Variable serializeToString : SVGElement -> string.
(** The engine's digits for numbers that are not integers below 10^21. *)
Variable shortest_digits : number -> string.

Local Open Scope float_scope.

(** [exportPNG(config)] *)
Definition exportPNG (config : PNGExportConfig) (env : Browser) : Run Blob :=
  let width := defaulting 800 config.(png_width) in
  let height := defaulting 600 config.(png_height) in
  let backgroundColor := defaulting "white"%string config.(png_backgroundColor) in
  let quality := defaulting 0x1.ccccccccccccdp-1 config.(png_quality) in
  if negb env.(context2d) then throw "Canvas context not available"
  else
    perform (CanvasSize width height);;
    perform (FillStyle backgroundColor);;
    perform (FillRect 0 0 width height);;
    match env.(svgElement) with
    | None => throw "No SVG element found in container"
    | Some svgElement =>
        let svgData := serializeToString svgElement in
        let svgBlob := mkBlob svgData "image/svg+xml;charset=utf-8" in
        perform (CreateObjectURL svgBlob);;
        if env.(svgImageLoads) then
          (* img.onload *)
          let scaleX := width / svgElement.(rectWidth) in
          let scaleY := height / svgElement.(rectHeight) in
          let scale := Math_min scaleX scaleY in
          let scaledWidth := svgElement.(rectWidth) * scale in
          let scaledHeight := svgElement.(rectHeight) * scale in
          let offsetX := (width - scaledWidth) / 2 in
          let offsetY := (height - scaledHeight) / 2 in
          perform (DrawImage offsetX offsetY scaledWidth scaledHeight);;
          perform (ToBlob "image/png" quality);;
          perform (RevokeObjectURL svgBlob);;
          match env.(canvasBlob) with
          | Some blob => mret blob
          | None => throw "Failed to create PNG blob"
          end
        else
          (* img.onerror *)
          perform (RevokeObjectURL svgBlob);;
          throw "Failed to load SVG as image"
    end.

(** [getComputedStyles()]: one static block, joined with itself. *)
Definition getComputedStyles : string :=
"
      .bar { fill: currentColor; }
      .line { fill: none; stroke: currentColor; }
      .point { fill: currentColor; }
      .slice { fill: currentColor; }
      .grid line { stroke: #E5E7EB; stroke-width: 1; stroke-dasharray: 3,3; }
      .x-axis line, .y-axis line { stroke: #D1D5DB; stroke-width: 1; }
      .x-axis path, .y-axis path { stroke: #D1D5DB; stroke-width: 1; }
      .text-sm { font-size: 0.875rem; }
      .font-medium { font-weight: 500; }
      .fill-gray-600 { fill: #4B5563; }
      .fill-gray-700 { fill: #374151; }
    ".

(** [exportSVG(config)] *)
Definition exportSVG (config : SVGExportConfig) (env : Browser) : Run string :=
  let includeStyles := defaulting true config.(includeStyles) in
  match env.(svgElement) with
  | None => throw "No SVG element found in container"
  | Some svgElement =>
      (* cloneNode(true): the live element is not touched *)
      let clonedSvg := svgElement in
      let clonedSvg :=
        if includeStyles then
          let styles := getComputedStyles in
          let styleElement := StyleElement styles in
          (* insertBefore(styleElement, clonedSvg.firstChild) *)
          mkSVG (styleElement :: clonedSvg.(childNodes))
                clonedSvg.(rectWidth) clonedSvg.(rectHeight)
        else clonedSvg in
      mret (serializeToString clonedSvg)
  end.

(** [exportPDF(config)] *)
Definition exportPDF (config : PDFExportConfig) (env : Browser) : Run Blob :=
  let width := defaulting 800 config.(pdf_width) in
  let height := defaulting 600 config.(pdf_height) in
  let title := defaulting "Chart Export"%string config.(title) in
  let author := defaulting "Synerity Charts"%string config.(author) in
  match env.(jsPDF) with
  | None =>
      throw "jsPDF library not found. Please include jsPDF in your project."
  | Some pdf =>
      pngBlob ← exportPNG (mkPNG None (Some width) (Some height) None None) env;
      let pngUrl := pngBlob in
      perform (CreateObjectURL pngUrl);;
      match env.(pngImage) with
      | Some (img_width, img_height) =>
          (* img.onload, inside try *)
          match pdf.(raises) with
          | Some error =>
              (* catch (error) *)
              perform (RevokeObjectURL pngUrl);;
              throw error
          | None =>
              perform (NewJsPDF "landscape" "mm" "a4");;
              perform (SetProperties title author "Chart Export" "Synerity Charts");;
              let pageWidth := pdf.(pageWidth) in
              let pageHeight := pdf.(pageHeight) in
              let imgAspectRatio := img_width / img_height in
              let pageAspectRatio := pageWidth / pageHeight in
              let '(imgWidth, imgHeight) :=
                if pageAspectRatio <? imgAspectRatio then
                  let imgWidth := pageWidth - 20 in
                  (imgWidth, imgWidth / imgAspectRatio)
                else
                  let imgHeight := pageHeight - 20 in
                  (imgHeight * imgAspectRatio, imgHeight) in
              let x := (pageWidth - imgWidth) / 2 in
              let y := (pageHeight - imgHeight) / 2 in
              perform (AddImage "PNG" x y imgWidth imgHeight);;
              perform (Output "blob");;
              perform (RevokeObjectURL pngUrl);;
              mret pdf.(outputBlob)
          end
      | None =>
          (* img.onerror *)
          perform (RevokeObjectURL pngUrl);;
          throw "Failed to load PNG image for PDF"
      end
  end.

(** [downloadFile(content, filename, mimeType)] *)
Definition downloadFile (content filename mimeType : string) : Run unit :=
  let blob := mkBlob content mimeType in
  let url := blob in
  perform (CreateObjectURL url);;
  perform (AppendLink url filename);;
  perform (ClickLink url filename);;
  perform (RemoveLink url filename);;
  perform (RevokeObjectURL url).

(** One line of the x/y shape:
    [`${d.x},${d.y},${d.label || ''},${d.color || ''}\n`]. *)
Definition scatterRow (d : Types.Datum) : string :=
  template_number shortest_digits d.(Types.x) +:+ "," +:+
  template_number shortest_digits d.(Types.y) +:+ "," +:+
  or_empty d.(Types.label) +:+ "," +:+
  or_empty d.(Types.color) +:+ LF.

(** One line of the label/value shape:
    [`${d.label},${d.value},${d.color || ''}\n`]. *)
Definition chartRow (d : Types.Datum) : string :=
  template_string d.(Types.label) +:+ "," +:+
  template_number shortest_digits d.(Types.value) +:+ "," +:+
  or_empty d.(Types.color) +:+ LF.

(** [data.forEach(d => { csvContent += row(d) })] *)
Definition forEach_append (row : Types.Datum -> string)
           (data : list Types.Datum) (csvContent : string) : string :=
  fold_left (fun csv d => csv +:+ row d) data csvContent.

(** [exportCSV(data, filename?)] *)
Definition exportCSV (data : list Types.Datum) (filename : optional string)
  : Run string :=
  let csvContent := EmptyString in
  match data with
  | [] => mret csvContent
  | data0 :: _ =>
      let isScatterData := Types.has_x data0 in
      let csvContent :=
        if isScatterData
        then forEach_append scatterRow data ("X,Y,Label,Color" +:+ LF)
        else forEach_append chartRow data ("Label,Value,Color" +:+ LF) in
      (if truthy_string filename
       then downloadFile csvContent (or_empty filename) "text/csv"
       else mret tt);;
      mret csvContent
  end.
End Exports.

(** The lines [row] makes of the records of [data], one after the other. *)
Definition rows (row : Types.Datum -> string) (data : list Types.Datum) : string :=
  foldr (fun d rest => row d +:+ rest) EmptyString data.

Section JSONExport.
(** [JSON.stringify(data, null, 2)], the engine's. *)
Variable JSON_stringify : list Types.Datum -> string.

(** [exportJSON(data, filename?)] *)
Definition exportJSON (data : list Types.Datum) (filename : optional string)
  : Run string :=
  let jsonContent := JSON_stringify data in
  (if truthy_string filename
   then downloadFile jsonContent (or_empty filename) "application/json"
   else mret tt);;
  mret jsonContent.
End JSONExport.

(** *** Vocabulary of the statements about object URLs and CSV text *)

Definition Blob_eqb (a b : Blob) : bool :=
  String.eqb a.(content) b.(content) && String.eqb a.(mimeType) b.(mimeType).

(** [live] without its first URL for [b], if it has one. *)
Fixpoint release (b : Blob) (live : list Blob) : option (list Blob) :=
  match live with
  | [] => None
  | b' :: rest =>
      if Blob_eqb b b' then Some rest
      else match release b rest with
           | Some rest' => Some (b' :: rest')
           | None => None
           end
  end.

(** Whether the effects [t], started with the object URLs [live] (each
    named by its blob), revoke only URLs that are live at that moment and
    leave none live at the end. *)
Fixpoint urls_released (live : list Blob) (t : list Effect) : bool :=
  match t with
  | [] => match live with [] => true | _ :: _ => false end
  | CreateObjectURL b :: t' => urls_released (b :: live) t'
  | RevokeObjectURL b :: t' =>
      match release b live with
      | Some live' => urls_released live' t'
      | None => false
      end
  | _ :: t' => urls_released live t'
  end.

(** How often the character [c] occurs in [s]. *)
Fixpoint count_char (c : Ascii.ascii) (s : string) : nat :=
  match s with
  | EmptyString => 0
  | String c' s' => (if Ascii.eqb c c' then 1 else 0) + count_char c s'
  end.

(** The two characters that structure the CSV text, and a printed field
    that holds neither. *)
Definition comma : Ascii.ascii := Ascii.ascii_of_nat 44.
Definition linefeed : Ascii.ascii := Ascii.ascii_of_nat 10.

Definition plain (field : string) : bool :=
  Nat.eqb (count_char comma field) 0 && Nat.eqb (count_char linefeed field) 0.

(** The fields [scatterRow] and [chartRow] print for a record, in order. *)
Definition scatterFields (shortest_digits : number -> string) (d : Types.Datum)
  : list string :=
  [template_number shortest_digits d.(Types.x);
   template_number shortest_digits d.(Types.y);
   or_empty d.(Types.label);
   or_empty d.(Types.color)].

Definition chartFields (shortest_digits : number -> string) (d : Types.Datum)
  : list string :=
  [template_string d.(Types.label);
   template_number shortest_digits d.(Types.value);
   or_empty d.(Types.color)].
End ExportManager.

(** ** The rendered document and the console *)

Module DOM.
Import JS.

Inductive AttrValue : Type :=
| Num (v : number)
| Str (s : string).

(** An element a chart appended to one of its groups, with its tag, its
    class and the position and stroke attributes the chart sets on it.  What
    d3 generates (axis ticks, path data, fills and radii that go through its
    colour and size scales), styles, transitions and event handlers are not
    part of the model. *)
Record Element : Type := mkElement {
  tagName : string;
  className : string;
  attrs : list (string * AttrValue)
}.

Inductive ConsoleMessage : Type :=
| Warn (message : string)
| Error (message : string).

(** How a synchronous call ends: normally, or with a thrown error. *)
Inductive Completion (A : Type) : Type :=
| Normal (a : A)
| Throw (error : string).
Arguments Normal {A} a.
Arguments Throw {A} error.

(** [for (let i = from; i < from + count; i++) body], threading the
    variables the body assigns and stopping at the first throw. *)
Fixpoint for_range {V : Type} (from count : nat)
         (body : nat -> V -> Completion V) (s : V) : Completion V :=
  match count with
  | 0 => Normal s
  | S count' =>
      match body from s with
      | Normal s' => for_range (S from) count' body s'
      | Throw error => Throw error
      end
  end.

(** [for (let i = 0; i < bound; i++) body]. *)
Definition for_upto {V : Type} (bound : nat)
           (body : nat -> V -> Completion V) (s : V) : Completion V :=
  for_range 0 bound body s.
End DOM.

(** ** What the sources use of d3 *)

Module D3.
Import JS.
Local Open Scope float_scope.

(** [d3.extent(values, accessor)] after the accessor is applied, as
    d3-array documents it: the smallest and the largest comparable value,
    NaN skipped.  With no comparable value d3 answers
    [[undefined, undefined]]; both uses the sources make of the pair (in
    arithmetic and as the argument of a scale) turn [undefined] into NaN,
    and NaN stands for it here. *)
Definition extent_step (acc : option (number * number)) (v : number)
  : option (number * number) :=
  match acc with
  | None => if v <=? v then Some (v, v) else None
  | Some (min, max) =>
      Some (if v <? min then v else min, if max <? v then v else max)
  end.

Definition extent (values : list number) : number * number :=
  match fold_left extent_step values None with
  | Some range => range
  | None => (nan, nan)
  end.
End D3.

(** ** The scatter plot *)

Module ScatterPlot.
Import JS DOM.
Local Open Scope float_scope.

Record ScatterData : Type := mkScatterData {
  x : number;
  y : number;
  label : optional string;
  color : optional string
}.

Record Margin : Type := mkMargin { top : number; right : number; bottom : number; left : number }.

(** [options.trendLine]: a caller may replace the whole object, so every
    property can be missing. *)
Record TrendLineOptions : Type := mkTrendLine {
  tl_enabled : optional bool;
  tl_type : optional string;
  tl_color : optional string;
  tl_strokeWidth : optional number;
  tl_opacity : optional number
}.

(** [options.clustering].  [maxClusters] is a count. *)
Record ClusteringOptions : Type := mkClustering {
  cl_enabled : optional bool;
  maxClusters : optional nat;
  showClusterBoundaries : optional bool;
  clusterColors : list string
}.

(** The options [render] reads to decide which elements it appends.
    [animate], [pointRadius], [pointOpacity], [colors], [mapping],
    [selection], [zoom], [tooltip] and [animation] only style elements or
    attach handlers and are left out. *)
Record ScatterPlotOptions : Type := mkOptions {
  width : number;
  height : number;
  margin : Margin;
  showGrid : bool;
  trendLine : optional TrendLineOptions;
  clustering : optional ClusteringOptions
}.

(** The options object a caller passes: any key may be missing. *)
Record UserOptions : Type := mkUserOptions {
  u_width : optional number;
  u_height : optional number;
  u_margin : optional Margin;
  u_showGrid : optional bool;
  u_trendLine : optional TrendLineOptions;
  u_clustering : optional ClusteringOptions
}.

Definition noOptions : UserOptions := mkUserOptions None None None None None None.

(** [getDefaultOptions(userOptions)]: the defaults, then [...userOptions]
    key by key. *)
Definition getDefaultOptions (userOptions : UserOptions) : ScatterPlotOptions :=
  let pick {A} (d : A) (u : optional A) : A :=
    match u with Some v => v | None => d end in
  {| width := pick 600 userOptions.(u_width);
     height := pick 400 userOptions.(u_height);
     margin := pick (mkMargin 20 20 60 60) userOptions.(u_margin);
     showGrid := pick true userOptions.(u_showGrid);
     trendLine :=
       Some (pick (mkTrendLine (Some false) (Some "linear"%string)
                               (Some "#EF4444"%string) (Some 2)
                               (Some 0x1.999999999999ap-1))
                  userOptions.(u_trendLine));
     clustering :=
       Some (pick (mkClustering (Some false) (Some 5%nat) (Some false)
                     ["#3B82F6"; "#10B981"; "#F59E0B"; "#EF4444"; "#8B5CF6"]%string)
                  userOptions.(u_clustering)) |}.

(** The chart instance: its data and options, the children of
    [this.chartGroup], [this.clusters], and what it wrote to the console. *)
Record State : Type := mkState {
  data : list ScatterData;
  options : ScatterPlotOptions;
  chartGroup : list Element;
  clusters : list (list nat);
  console : list ConsoleMessage
}.

(** [a || d] on an optional flag, string or number. *)
Definition truthy (b : optional bool) : bool :=
  match b with Some true => true | _ => false end.

Definition string_or (s : optional string) (d : string) : string :=
  match s with
  | Some (String c r) => String c r
  | Some EmptyString | None => d
  end.

Definition number_or (v : optional number) (d : number) : number :=
  match v with
  | Some n => if PrimFloat.is_nan n || PrimFloat.is_zero n then d else n
  | None => d
  end.

(** *** [performClustering] *)

(** A point or a centroid: the array [[x, y]]. *)
Definition Point : Type := (number * number)%type.

Section Clustering.
(** [random i] is what the [i]-th call of [Math.random()] returns,
    counted from 0 within one run of [performClustering]. *)
Variable random : nat -> number.

(** [Math.sqrt(Math.pow(point[0] - centroid[0], 2) +
               Math.pow(point[1] - centroid[1], 2))] *)
Definition distance (point centroid : Point) : number :=
  Math_sqrt (Math_pow2 (point.1 - centroid.1) + Math_pow2 (point.2 - centroid.2)).

(** The body of the initialisation loop:
    [centroids.push([...points[randomIndex]])].  Spreading [undefined]
    (no point at that index) throws. *)
Definition pushRandomCentroid (points : list Point) (i : nat)
           (centroids : list Point) : Completion (list Point) :=
  let randomIndex := Math_floor_index (random i * of_nat (length points)) in
  match randomIndex ≫= (fun index => points !! index) with
  | Some point => Normal (centroids ++ [point])%list
  | None => Throw "TypeError: points[randomIndex] is not iterable"
  end.

(** [centroids.forEach((centroid, i) => { ... })] for one point, started
    at index [i] with the current [minDistance] and [clusterIndex]. *)
Fixpoint centroids_forEach (point : Point) (i : nat) (centroids : list Point)
         (minDistance : number) (clusterIndex : nat) : number * nat :=
  match centroids with
  | [] => (minDistance, clusterIndex)
  | centroid :: rest =>
      let distance := distance point centroid in
      if distance <? minDistance
      then centroids_forEach point (S i) rest distance i
      else centroids_forEach point (S i) rest minDistance clusterIndex
  end.

(** The index of the centroid a point is assigned to. *)
Definition nearestCentroid (centroids : list Point) (point : Point) : nat :=
  (centroids_forEach point 0 centroids infinity 0).2.

(** [points.forEach((point, index) => { ...;
    clusters[clusterIndex].push(index) })], started at [index].
    [clusters[clusterIndex]] is [undefined] when there is no such
    cluster, and [push] on it throws. *)
Fixpoint points_forEach (centroids : list Point) (index : nat)
         (points : list Point) (clusters : list (list nat))
  : Completion (list (list nat)) :=
  match points with
  | [] => Normal clusters
  | point :: rest =>
      let clusterIndex := nearestCentroid centroids point in
      match clusters !! clusterIndex with
      | Some cluster =>
          points_forEach centroids (S index) rest
                         (<[clusterIndex := (cluster ++ [index])%list]> clusters)
      | None =>
          Throw "TypeError: Cannot read properties of undefined (reading 'push')"
      end
  end.

(** [points[index][0]] and [points[index][1]].  The indices of a cluster
    are positions of [points], so the lookup finds a point. *)
Definition coordinate (proj : Point -> number) (points : list Point)
           (index : nat) : number :=
  match points !! index with
  | Some point => proj point
  | None => nan
  end.

(** The new centroid of one cluster. *)
Definition centroidOf (points : list Point) (cluster : list nat) : Point :=
  if Nat.eqb (length cluster) 0 then (0, 0)
  else
    let sumX := fold_left (fun sum index => sum + coordinate fst points index) cluster 0 in
    let sumY := fold_left (fun sum index => sum + coordinate snd points index) cluster 0 in
    (sumX / of_nat (length cluster), sumY / of_nat (length cluster)).

(** The body of the k-means loop, on the loop's variables
    [(centroids, finalClusters)]. *)
Definition iteration (k : nat) (points : list Point)
           (vars : list Point * list (list nat))
  : Completion (list Point * list (list nat)) :=
  let '(centroids, _) := vars in
  let clusters := replicate k [] in
  match points_forEach centroids 0 points clusters with
  | Normal clusters =>
      let centroids := map (centroidOf points) clusters in
      let finalClusters := clusters in
      Normal (centroids, finalClusters)
  | Throw error => Throw error
  end.

(** [performClustering()], as a function of [this.data] and
    [maxClusters]; the result is what it stores in [this.clusters]. *)
Definition kmeans (k : nat) (data : list ScatterData) : Completion (list (list nat)) :=
  let points := map (fun d => (d.(x), d.(y))) data in
  match for_upto k (pushRandomCentroid points) [] with
  | Normal centroids =>
      match for_upto 10 (fun _ => iteration k points) (centroids, []) with
      | Normal (_, finalClusters) => Normal finalClusters
      | Throw error => Throw error
      end
  | Throw error => Throw error
  end.

Definition performClustering (this : State) : Completion State :=
  let k := match this.(options).(clustering) ≫= maxClusters with
           | Some k => k
           | None => 0%nat
           end in
  match kmeans k this.(data) with
  | Normal finalClusters =>
      Normal (mkState this.(data) this.(options) this.(chartGroup)
                      finalClusters this.(console))
  | Throw error => Throw error
  end.
End Clustering.
(** *** [render] and the public methods *)

Definition with_chartGroup (children : list Element) (this : State) : State :=
  mkState this.(data) this.(options) children this.(clusters) this.(console).

(** [this.chartGroup.append(...)] *)
Definition append (e : Element) (this : State) : State :=
  with_chartGroup (this.(chartGroup) ++ [e])%list this.

Definition log (m : ConsoleMessage) (this : State) : State :=
  mkState this.(data) this.(options) this.(chartGroup) this.(clusters)
          (this.(console) ++ [m])%list.

(** The least-squares line of [renderTrendLine]: slope and intercept. *)
Definition regression (data : list ScatterData) : number * number :=
  let n := of_nat (length data) in
  let sumX := fold_left (fun sum d => sum + d.(x)) data 0 in
  let sumY := fold_left (fun sum d => sum + d.(y)) data 0 in
  let sumXY := fold_left (fun sum d => sum + d.(x) * d.(y)) data 0 in
  let sumXX := fold_left (fun sum d => sum + d.(x) * d.(x)) data 0 in
  let slope := (n * sumXY - sumX * sumY) / (n * sumXX - sumX * sumX) in
  let intercept := (sumY - slope * sumX) / n in
  (slope, intercept).

(** [trendData]: the two end points of the line, in data coordinates. *)
Definition trendData (data : list ScatterData) : Point * Point :=
  let '(slope, intercept) := regression data in
  let xRange := D3.extent (map x data) in
  ((xRange.1, slope * xRange.1 + intercept),
   (xRange.2, slope * xRange.2 + intercept)).

(** [renderTrendLine(xScale, yScale)] *)
Definition renderTrendLine (xScale yScale : number -> number) (this : State) : State :=
  if bool_decide (this.(options).(trendLine) ≫= tl_type = Some "linear"%string) then
    let trendData := trendData this.(data) in
    let tl := this.(options).(trendLine) in
    append
      (mkElement "line" EmptyString
         [("x1", Num (xScale trendData.1.1));
          ("y1", Num (yScale trendData.1.2));
          ("x2", Num (xScale trendData.2.1));
          ("y2", Num (yScale trendData.2.2));
          ("stroke", Str (string_or (tl ≫= tl_color) "#EF4444"));
          ("stroke-width", Num (number_or (tl ≫= tl_strokeWidth) 2));
          ("opacity", Num (number_or (tl ≫= tl_opacity) 0x1.999999999999ap-1));
          ("stroke-dasharray", Str "5,5")]%string)
      this
  else this.

(** [renderClusterBoundaries(xScale, yScale)]: one dashed path per
    cluster of more than two points ([d3.polygonHull] answers [null] only
    below three points). *)
Definition renderClusterBoundaries (this : State) : State :=
  let colors := match this.(options).(clustering) with
                | Some c => c.(clusterColors)
                | None => []
                end in
  fold_left
    (fun this '(clusterIndex, cluster) =>
       if (2 <? length cluster)%nat then
         append
           (mkElement "path" EmptyString
              [("fill", Str "none");
               ("stroke", Str (string_or (colors !! (clusterIndex mod length colors)%nat)
                                         "#3B82F6"));
               ("stroke-width", Num 1);
               ("opacity", Num 0.5);
               ("stroke-dasharray", Str "3,3")]%string)
           this
       else this)
    (imap pair this.(clusters)) this.

Section Rendering.
Variable random : nat -> number.
(** [d3.scaleLinear().domain(domain).range(range).nice()] *)
Variable scaleLinear : number * number -> number * number -> number -> number.

(** [render()]: the instance afterwards, and how the call ended. *)
Definition render (this : State) : State * Completion unit :=
  if Nat.eqb (length this.(data)) 0 then
    (log (Warn "No data available for scatter plot rendering") this, Normal tt)
  else
    let o := this.(options) in
    let chartWidth := o.(width) - o.(margin).(left) - o.(margin).(right) in
    let chartHeight := o.(height) - o.(margin).(top) - o.(margin).(bottom) in
    (* this.chartGroup.selectAll('*').remove() *)
    let this := with_chartGroup [] this in
    let xScale := scaleLinear (D3.extent (map x this.(data))) (0, chartWidth) in
    let yScale := scaleLinear (D3.extent (map y this.(data))) (chartHeight, 0) in
    let this :=
      if o.(showGrid)
      then append (mkElement "g" "grid" []) (append (mkElement "g" "grid" []) this)
      else this in
    let this := append (mkElement "g" "x-axis" []) this in
    let this := append (mkElement "g" "y-axis" []) this in
    let clusteringEnabled := truthy (o.(clustering) ≫= cl_enabled) in
    match (if clusteringEnabled then performClustering random this else Normal this) with
    | Throw error => (this, Throw error)
    | Normal this =>
        let points :=
          map (fun d => mkElement "circle" "point"
                          [("cx", Num (xScale d.(x)));
                           ("cy", Num (yScale d.(y)));
                           ("stroke", Str "white");
                           ("stroke-width", Num 1)]%string)
              this.(data) in
        let this := with_chartGroup (this.(chartGroup) ++ points)%list this in
        let this :=
          if truthy (o.(trendLine) ≫= tl_enabled)
          then renderTrendLine xScale yScale this
          else this in
        let this :=
          if clusteringEnabled && truthy (o.(clustering) ≫= showClusterBoundaries)
          then renderClusterBoundaries this
          else this in
        (this, Normal tt)
    end.

(** [new ScatterPlot({ container, data, options })] for a container that
    was found and an array of [ScatterData]: the empty array is refused,
    then [init()] creates an empty chart group and renders. *)
Definition new (config_data : list ScatterData) (config_options : UserOptions)
  : Completion State :=
  if Nat.eqb (length config_data) 0
  then Throw "Scatter plot requires ScatterData[] format"
  else
    let this := mkState config_data (getDefaultOptions config_options) [] [] [] in
    match render this with
    | (this, Normal _) => Normal this
    | (_, Throw error) => Throw error
    end.

(** [update(newData)] *)
Definition update (newData : list ScatterData) (this : State) : State * Completion unit :=
  if Nat.eqb (length newData) 0 then
    (log (Warn "Invalid data provided to scatter plot update") this, Normal tt)
  else
    render (mkState newData this.(options) this.(chartGroup) [] this.(console)).

(** [enableTrendLine(enabled)] *)
Definition enableTrendLine (enabled : bool) (this : State) : State * Completion unit :=
  let o := this.(options) in
  let trendLine :=
    match o.(trendLine) with
    | Some tl => Some (mkTrendLine (Some enabled) tl.(tl_type) tl.(tl_color)
                                   tl.(tl_strokeWidth) tl.(tl_opacity))
    | None => None
    end in
  render (mkState this.(data)
                  (mkOptions o.(width) o.(height) o.(margin) o.(showGrid)
                             trendLine o.(clustering))
                  this.(chartGroup) this.(clusters) this.(console)).
End Rendering.

(** The elements of the chart group that are trend lines: the [<line>]
    children (grid and axis lines live inside their [<g>]). *)
Definition isLine (e : Element) : bool := String.eqb e.(tagName) "line".

Definition trendLines (this : State) : list Element :=
  List.filter isLine this.(chartGroup).

(** *** Vocabulary of the statements about the scatter plot *)

(** The sum of [f] over the points, added from 0 in array order. *)
Definition sigma (f : ScatterData -> number) (data : list ScatterData) : number :=
  fold_left PrimFloat.add (map f data) 0.

(** The positions, counted from [index], of the points whose assigned
    centroid is number [j]. *)
Fixpoint assigned_from (centroids : list Point) (index : nat)
         (points : list Point) (j : nat) : list nat :=
  match points with
  | [] => []
  | point :: rest =>
      if Nat.eqb (nearestCentroid centroids point) j
      then index :: assigned_from centroids (S index) rest j
      else assigned_from centroids (S index) rest j
  end.

(** [iterations k points n v v']: [n] runs of the k-means loop body, none of
    them throwing, take the loop variables from [v] to [v']. *)
Inductive iterations (k : nat) (points : list Point)
  : nat -> list Point * list (list nat) -> list Point * list (list nat) -> Prop :=
| iterations_done v : iterations k points 0 v v
| iterations_step n v v' v'' :
    iteration k points v = Normal v' ->
    iterations k points n v' v'' ->
    iterations k points (S n) v v''.

(** *** Cluster lookup, selection and [enableClustering] *)

(** The loop of [getClusterIndex(d)], started at cluster number [i];
    [dataIndex] is [this.data.indexOf(d)]. *)
Fixpoint getClusterIndex_from (i : nat) (clusters : list (list nat))
         (dataIndex : nat) : nat :=
  match clusters with
  | [] => 0%nat
  | cluster :: rest =>
      if existsb (Nat.eqb dataIndex) cluster then i
      else getClusterIndex_from (S i) rest dataIndex
  end.

(** [getClusterIndex(d)] *)
Definition getClusterIndex (this : State) (dataIndex : nat) : nat :=
  getClusterIndex_from 0 this.(clusters) dataIndex.

(** [this.selectedPoints], a [Set<number>]: its members in insertion
    order, none of them twice. *)
Definition Set_has (s : list nat) (v : nat) : bool := existsb (Nat.eqb v) s.

Definition Set_add (s : list nat) (v : nat) : list nat :=
  if Set_has s v then s else (s ++ [v])%list.

Definition Set_delete (s : list nat) (v : nat) : list nat :=
  List.filter (fun u => negb (Nat.eqb u v)) s.

(** The click handler [setupSelection] installs on the points when
    [selection.type] is ['point'], as a function of
    [options.selection?.multipleSelection], of [this.selectedPoints] and of
    [pointIndex = this.data.indexOf(d)]; the result is the new
    [this.selectedPoints]. *)
Definition clickPoint (multipleSelection : optional bool)
           (selectedPoints : list nat) (pointIndex : nat) : list nat :=
  if Set_has selectedPoints pointIndex then
    Set_delete selectedPoints pointIndex
  else
    let selectedPoints :=
      if negb (truthy multipleSelection) then [] else selectedPoints in
    Set_add selectedPoints pointIndex.

(** [getSelectedPoints()]: [this.data[index]] for every selected index,
    [undefined] where the data has no such index. *)
Definition getSelectedPoints (data : list ScatterData) (selectedPoints : list nat)
  : list (optional ScatterData) :=
  map (fun index => data !! index) selectedPoints.

Section Clusters.
Variable random : nat -> number.
Variable scaleLinear : number * number -> number * number -> number -> number.

(** [enableClustering(enabled)] *)
Definition enableClustering (enabled : bool) (this : State) : State * Completion unit :=
  let o := this.(options) in
  let clusteringOptions :=
    match o.(clustering) with
    | Some c => Some (mkClustering (Some enabled) c.(maxClusters)
                                   c.(showClusterBoundaries) c.(clusterColors))
    | None => None
    end in
  render random scaleLinear
         (mkState this.(data)
                  (mkOptions o.(width) o.(height) o.(margin) o.(showGrid)
                             o.(trendLine) clusteringOptions)
                  this.(chartGroup) this.(clusters) this.(console)).
End Clusters.


(** The [<circle>] children of the chart group: the points. *)
Definition circles (this : State) : list Element :=
  List.filter (fun e => String.eqb e.(tagName) "circle") this.(chartGroup).

(** *** Vocabulary for the stages of [render] *)

(** Everything of an instance but the children of its chart group. *)
Definition beside_children (this : State) :=
  (this.(data), this.(options), this.(clusters), this.(console)).

(** [options.clustering.maxClusters], 0 standing for a missing one. *)
Definition clusterCount (this : State) : nat :=
  match this.(options).(clustering) ≫= maxClusters with
  | Some k => k
  | None => 0
  end.

(** The circle [render] draws for a point. *)
Definition pointElement (xScale yScale : number -> number) (d : ScatterData) : Element :=
  mkElement "circle" "point"
    [("cx", Num (xScale d.(x))); ("cy", Num (yScale d.(y)));
     ("stroke", Str "white"); ("stroke-width", Num 1%float)].

Definition hasTag (tag : string) (e : Element) : bool := String.eqb e.(tagName) tag.

(** The groups [render] appends before the points. *)
Definition axesAndGrid (o : ScatterPlotOptions) : list Element :=
  ((if o.(showGrid) then [mkElement "g" "grid" []; mkElement "g" "grid" []] else [])
   ++ [mkElement "g" "x-axis" []; mkElement "g" "y-axis" []])%list.

Section Scales.
Variable scaleLinear : number * number -> number * number -> number -> number.

(** The scales [render] builds from the data and the inner size. *)
Definition xScaleOf (this : State) : number -> number :=
  let o := this.(options) in
  scaleLinear (D3.extent (map x this.(data)))
              (0, o.(width) - o.(margin).(left) - o.(margin).(right))%float.

Definition yScaleOf (this : State) : number -> number :=
  let o := this.(options) in
  scaleLinear (D3.extent (map y this.(data)))
              (o.(height) - o.(margin).(top) - o.(margin).(bottom), 0)%float.
End Scales.

(** The instance after [if (this.options.trendLine)
    this.options.trendLine.enabled = enabled]. *)
Definition withTrendLine (enabled : bool) (this : State) : State :=
  let o := this.(options) in
  mkState this.(data)
    (mkOptions o.(width) o.(height) o.(margin) o.(showGrid)
       (match o.(trendLine) with
        | Some tl => Some (mkTrendLine (Some enabled) tl.(tl_type) tl.(tl_color)
                                       tl.(tl_strokeWidth) tl.(tl_opacity))
        | None => None
        end)
       o.(clustering))
    this.(chartGroup) this.(clusters) this.(console).

(** The instance after [if (this.options.clustering)
    this.options.clustering.enabled = enabled]. *)
Definition withClustering (enabled : bool) (this : State) : State :=
  let o := this.(options) in
  mkState this.(data)
    (mkOptions o.(width) o.(height) o.(margin) o.(showGrid) o.(trendLine)
       (match o.(clustering) with
        | Some c => Some (mkClustering (Some enabled) c.(maxClusters)
                                       c.(showClusterBoundaries) c.(clusterColors))
        | None => None
        end))
    this.(chartGroup) this.(clusters) this.(console).
End ScatterPlot.

(** ** The older scatter plot that ships beside the enhanced one *)

Module LegacyScatterPlot.
Import JS.
Local Open Scope float_scope.

Record TrendLine : Type := mkTrendLine {
  x1 : number; y1 : number; x2 : number; y2 : number
}.

(** [value || 0] on a number that may be [undefined] (NaN here, see
    [D3.extent]). *)
Definition or_zero (v : number) : number :=
  if PrimFloat.is_nan v || PrimFloat.is_zero v then 0 else v.

(** [calculateTrendLine()]; [null] is [None]. *)
Definition calculateTrendLine (data : list ScatterPlot.ScatterData) : option TrendLine :=
  if (length data <? 2)%nat then None
  else
    let n := of_nat (length data) in
    let sumX := fold_left (fun sum d => sum + d.(ScatterPlot.x)) data 0 in
    let sumY := fold_left (fun sum d => sum + d.(ScatterPlot.y)) data 0 in
    let sumXY := fold_left (fun sum d => sum + d.(ScatterPlot.x) * d.(ScatterPlot.y)) data 0 in
    let sumXX := fold_left (fun sum d => sum + d.(ScatterPlot.x) * d.(ScatterPlot.x)) data 0 in
    let slope := (n * sumXY - sumX * sumY) / (n * sumXX - sumX * sumX) in
    let intercept := (sumY - slope * sumX) / n in
    let minX := or_zero (D3.extent (map ScatterPlot.x data)).1 in
    let maxX := or_zero (D3.extent (map ScatterPlot.x data)).2 in
    Some {| x1 := minX; y1 := slope * minX + intercept;
            x2 := maxX; y2 := slope * maxX + intercept |}.
End LegacyScatterPlot.

(** ** The pie chart ([pie-chart.ts]) *)

Module PieChart.
Import JS DOM.
Local Open Scope float_scope.

Record ChartData : Type := mkChartData {
  label : string;
  value : number;
  color : optional string
}.

(** The options that decide which elements [render] appends:
    [options.labels?.enabled] and whether [options.legend] is set. *)
Record PieChartOptions : Type := mkOptions {
  labelsEnabled : bool;
  legend : bool
}.

(** [getDefaultOptions()] with no user options: labels on, a legend. *)
Definition defaultOptions : PieChartOptions := mkOptions true true.

(** The chart instance: its data and options, the children of
    [this.chartGroup] and of [this.legendGroup], and the console. *)
Record State : Type := mkState {
  data : list ChartData;
  options : PieChartOptions;
  chartGroup : list Element;
  legendGroup : list Element;
  console : list ConsoleMessage
}.

Definition log (m : ConsoleMessage) (this : State) : State :=
  mkState this.(data) this.(options) this.(chartGroup) this.(legendGroup)
          (this.(console) ++ [m])%list.

(** [this.data.reduce((sum, d) => sum + d.value, 0)] *)
Definition totalValue (data : list ChartData) : number :=
  fold_left (fun sum d => sum + d.(value)) data 0.

(** One [<path class="slice">] per datum. *)
Definition slices (data : list ChartData) : list Element :=
  map (fun _ => mkElement "path" "slice"
                  [("stroke", Str "white"); ("stroke-width", Num 2)]%string)
      data.

(** [renderLabels]: one [<text class="label">] per datum. *)
Definition labelElements (data : list ChartData) : list Element :=
  map (fun _ => mkElement "text" "label"
                  [("text-anchor", Str "middle"); ("dy", Str "0.35em")]%string)
      data.

(** [renderLegend]: one [<g class="legend-item">] per datum. *)
Definition legendItems (data : list ChartData) : list Element :=
  map (fun _ => mkElement "g" "legend-item" []) data.

(** [render()] *)
Definition render (this : State) : State :=
  if Nat.eqb (length this.(data)) 0 then
    log (Warn "No data available for pie chart rendering") this
  else
    let totalValue := totalValue this.(data) in
    if totalValue <=? 0 then
      log (Error "Total value is zero or negative, cannot render pie chart") this
    else
      (* chartGroup.selectAll('*').remove(); legendGroup.selectAll('*').remove() *)
      let chartGroup := slices this.(data) in
      let chartGroup :=
        if this.(options).(labelsEnabled)
        then (chartGroup ++ labelElements this.(data))%list
        else chartGroup in
      let legendGroup :=
        if this.(options).(legend) then legendItems this.(data) else [] in
      mkState this.(data) this.(options) chartGroup legendGroup this.(console).

(** [new PieChart({ container, data, options })] for a container that was
    found and an array of [ChartData]: the empty array is refused, then
    [init()] creates empty groups and renders. *)
Definition new (config_data : list ChartData) (config_options : PieChartOptions)
  : Completion State :=
  if Nat.eqb (length config_data) 0
  then Throw "Pie chart requires ChartData[] format"
  else Normal (render (mkState config_data config_options [] [] [])).

(** [update(newData)] *)
Definition update (newData : list ChartData) (this : State) : State :=
  if Nat.eqb (length newData) 0 then
    log (Warn "Invalid data provided to pie chart update") this
  else
    render (mkState newData this.(options) this.(chartGroup) this.(legendGroup)
                    this.(console)).
End PieChart.

(** ** Concrete inputs *)

Module Examples.
Import JS.

(** [[{label:"Q1",value:120},{label:"Q2",value:180,color:"#10B981"}]] *)
Definition quarterly : list Types.Datum :=
  [Types.chartData "Q1" 120%float None;
   Types.chartData "Q2" 180%float (Some "#10B981")].

(** The CSV text the specification gives for [quarterly]. *)
Definition quarterly_csv : string :=
  "Label,Value,Color" +:+ LF +:+
  "Q1,120," +:+ LF +:+
  "Q2,180,#10B981" +:+ LF.

(** An array whose first record has [x] and whose second has not. *)
Definition mixed : list Types.Datum :=
  [Types.scatterData 1%float 2%float None None;
   Types.chartData "a" 3%float None].

(** An engine stand-in that prints no fractional number. *)
Definition no_digits : number -> string := fun _ => EmptyString.

(** A serialiser stand-in: the element's drawn markup, one child after the
    other, between the root's tags. *)
Definition serialize (svg : ExportManager.SVGElement) : string :=
  "<svg>" +:+
  foldr (fun n rest =>
           match n with
           | ExportManager.Drawn markup => markup +:+ rest
           | ExportManager.StyleElement css => "<style>" +:+ css +:+ "</style>" +:+ rest
           end) "</svg>" svg.(ExportManager.childNodes).

(** A rendered chart of 400 by 200 pixels. *)
Definition chart_400x200 : ExportManager.SVGElement :=
  ExportManager.mkSVG [ExportManager.Drawn "<g/>"] 400%float 200%float.

Definition png_blob : ExportManager.Blob := ExportManager.mkBlob "PNG" "image/png".
Definition pdf_blob : ExportManager.Blob := ExportManager.mkBlob "PDF" "application/pdf".

(** A browser in which every step of every export succeeds: a rendered
    chart, a canvas, and jsPDF with a landscape A4 page. *)
Definition working_browser : ExportManager.Browser :=
  ExportManager.mkBrowser (Some chart_400x200) true true (Some png_blob)
    (Some (ExportManager.mkJsPDF 297%float 210%float pdf_blob None))
    (Some (800%float, 600%float)).

(** A container with no chart in it, in a browser with neither a canvas
    context nor jsPDF. *)
Definition bare_browser : ExportManager.Browser :=
  ExportManager.mkBrowser None false true None None None.

(** An empty container in a browser that has a canvas but no jsPDF. *)
Definition empty_container : ExportManager.Browser :=
  ExportManager.mkBrowser None true true (Some png_blob) None None.

(** [{format: 'png'}] *)
Definition png_defaults : ExportManager.PNGExportConfig :=
  ExportManager.mkPNG None None None None None.

(** [{format: 'pdf', subject: 'Quarterly report'}] *)
Definition pdf_with_subject : ExportManager.PDFExportConfig :=
  ExportManager.mkPDF None None None None None None None (Some "Quarterly report").

(** [{format: 'pdf', title: 'Sales', author: 'Ada'}] *)
Definition pdf_titled : ExportManager.PDFExportConfig :=
  ExportManager.mkPDF None None None None None (Some "Sales") (Some "Ada") None.

(** [[{x:0,y:0},{x:1,y:1},{x:2,y:2}]] *)
Definition diagonal : list ScatterPlot.ScatterData :=
  [ScatterPlot.mkScatterData 0%float 0%float None None;
   ScatterPlot.mkScatterData 1%float 1%float None None;
   ScatterPlot.mkScatterData 2%float 2%float None None].

(** [[{x:1,y:2}]] *)
Definition single_point : list ScatterPlot.ScatterData :=
  [ScatterPlot.mkScatterData 1%float 2%float None None].

(** Two pairs of neighbouring points, far from each other. *)
Definition two_groups : list ScatterPlot.ScatterData :=
  [ScatterPlot.mkScatterData 0%float 0%float None None;
   ScatterPlot.mkScatterData 10%float 10%float None None;
   ScatterPlot.mkScatterData 0%float 1%float None None;
   ScatterPlot.mkScatterData 10%float 11%float None None].

(** A run of [Math.random()] that answers 0.3, 0.6, 0.3, 0.6, ... *)
Definition alternating : nat -> number :=
  fun i => if Nat.even i then 0x1.3333333333333p-2%float else 0x1.3333333333333p-1%float.

(** A scale stand-in: the affine map of the domain onto the range. *)
Definition affine (domain range : number * number) (v : number) : number :=
  (range.1 + (v - domain.1) / (domain.2 - domain.1) * (range.2 - range.1))%float.

(** [[{label:'a',value:3},{label:'b',value:1}]] and an all-zero array. *)
Definition two_slices : list PieChart.ChartData :=
  [PieChart.mkChartData "a" 3%float None; PieChart.mkChartData "b" 1%float None].

Definition zero_slices : list PieChart.ChartData :=
  [PieChart.mkChartData "a" 0%float None; PieChart.mkChartData "b" 0%float None].
(** A run of [Math.random()] that always answers 0. *)
Definition always_zero : nat -> number := fun _ => 0%float.

(** [{clustering: {enabled: true, maxClusters: 2, showClusterBoundaries: true}}]
    and a chart of the four points of [two_groups] with these options,
    before its first render. *)
Definition two_clusters : ScatterPlot.UserOptions :=
  ScatterPlot.mkUserOptions None None None None None
    (Some (ScatterPlot.mkClustering (Some true) (Some 2) (Some true) [])).

Definition clustered : ScatterPlot.State :=
  ScatterPlot.mkState two_groups (ScatterPlot.getDefaultOptions two_clusters) [] [] [].

(** [{clustering: {enabled: false, maxClusters: 0}}] *)
Definition no_clusters : ScatterPlot.UserOptions :=
  ScatterPlot.mkUserOptions None None None None None
    (Some (ScatterPlot.mkClustering (Some false) (Some 0) None [])).


Definition trend_untyped : ScatterPlot.UserOptions :=
  ScatterPlot.mkUserOptions None None None None
    (Some (ScatterPlot.mkTrendLine (Some true) None (Some "#000000") None None)) None.

(** [[{label:'a',value:NaN},{label:'b',value:1}]] *)
Definition nan_slices : list PieChart.ChartData :=
  [PieChart.mkChartData "a" nan None; PieChart.mkChartData "b" 1%float None].

(** [{format: 'pdf', filename: 'report.pdf', backgroundColor: 'black',
    title: 'Sales', author: 'Ada', subject: 'Quarterly report'}] *)
Definition pdf_titled_black : ExportManager.PDFExportConfig :=
  ExportManager.mkPDF (Some "report.pdf") None None (Some "black") None
    (Some "Sales") (Some "Ada") (Some "Quarterly report").
End Examples.

(** * Properties *)

(** ** CSV export *)

Section CSV.
Import JS ExportManager.
Variable shortest_digits : number -> string.

Lemma append_assoc (a b c : string) : (a +:+ b) +:+ c = a +:+ (b +:+ c).
Proof.
  induction a as [|ch a IH]; [reflexivity|].
  change (String ch ((a +:+ b) +:+ c) = String ch (a +:+ (b +:+ c))).
  now rewrite IH.
Qed.

Lemma append_empty_r (a : string) : a +:+ EmptyString = a.
Proof.
  induction a as [|ch a IH]; [reflexivity|].
  change (String ch (a +:+ EmptyString) = String ch a).
  now rewrite IH.
Qed.

Lemma forEach_append_rows row data csv :
  forEach_append row data csv = csv +:+ rows row data.
Proof.
  revert csv. induction data as [|d data IH]; intros csv.
  - cbn. now rewrite append_empty_r.
  - change (forEach_append row (d :: data) csv)
      with (forEach_append row data (csv +:+ row d)).
    rewrite IH. cbn [rows foldr]. apply append_assoc.
Qed.

(** What [exportCSV] returns for a non-empty array. *)
Lemma exportCSV_nonempty d0 rest filename :
  outcome (exportCSV shortest_digits (d0 :: rest) filename) =
  Fulfilled
    (if Types.has_x d0
     then ("X,Y,Label,Color" +:+ LF) +:+ rows (scatterRow shortest_digits) (d0 :: rest)
     else ("Label,Value,Color" +:+ LF) +:+ rows (chartRow shortest_digits) (d0 :: rest)).
Proof.
  unfold exportCSV.
  destruct (Types.has_x d0); rewrite forEach_append_rows;
    destruct (truthy_string filename); reflexivity.
Qed.
End CSV.

Lemma has_x_homogeneous (data : list Types.Datum) d0 rest :
  data = d0 :: rest -> Types.well_typed data ->
  Types.has_x d0 = forallb Types.has_x data.
Proof.
  intros -> [Hall | Hall].
  - inversion Hall as [|? ? H0 _]; subst.
    destruct H0 as (Hx & _). unfold Types.has_x at 1. rewrite Hx.
    simpl. unfold Types.has_x at 1. now rewrite Hx.
  - assert (forallb Types.has_x (d0 :: rest) = true) as ->.
    { apply forallb_forall. intros d Hd.
      rewrite Forall_forall in Hall. apply list_elem_of_In in Hd.
      destruct (Hall d Hd) as ([v Hv] & _). unfold Types.has_x. now rewrite Hv. }
    inversion Hall as [|? ? H0 _]; subst.
    destruct H0 as ([v Hv] & _). unfold Types.has_x. now rewrite Hv.
Qed.

(** C1. For the two quarterly records, [exportCSV] returns exactly the text
    of the specification: the header [Label,Value,Color], one line per record
    in input order, the missing colour as the empty string, and a line feed
    after every line.  The file name does not change the text returned, and
    without one nothing else happens. *)
Theorem exportCSV_quarterly :
  forall (shortest_digits : JS.number -> string),
    (forall filename,
        ExportManager.outcome
          (ExportManager.exportCSV shortest_digits Examples.quarterly filename)
        = ExportManager.Fulfilled Examples.quarterly_csv)
    /\ ExportManager.exportCSV shortest_digits Examples.quarterly None
       = ([], ExportManager.Fulfilled Examples.quarterly_csv).
Proof.
  intros sd. split.
  - intros filename. unfold Examples.quarterly.
    rewrite exportCSV_nonempty. vm_compute. reflexivity.
  - vm_compute. reflexivity.
Qed.

(** C10. On the empty array [exportCSV] returns the empty string, without a
    header line, and performs no effect at all: nothing is downloaded even
    when a file name is given. *)
Theorem exportCSV_empty :
  forall (shortest_digits : JS.number -> string) (filename : JS.optional string),
    ExportManager.exportCSV shortest_digits [] filename
    = ([], ExportManager.Fulfilled EmptyString).
Proof. intros sd filename. reflexivity. Qed.

(** C3, as the code has it.  On a non-empty array [exportCSV] looks at the
    first record only: when it has an [x] the text is the header
    [X,Y,Label,Color] followed by one x/y line per record, otherwise it is the
    header [Label,Value,Color] followed by one label/value line per record.
    For an array of one record type, which is what the signature admits, the
    first record has an [x] exactly when every record has one. *)
Theorem exportCSV_shape_by_first_record :
  forall (shortest_digits : JS.number -> string)
         (data : list Types.Datum) (d0 : Types.Datum) (rest : list Types.Datum)
         (filename : JS.optional string),
    data = d0 :: rest ->
    ExportManager.outcome (ExportManager.exportCSV shortest_digits data filename)
    = ExportManager.Fulfilled
        (if Types.has_x d0
         then ("X,Y,Label,Color" +:+ JS.LF)
              +:+ ExportManager.rows (ExportManager.scatterRow shortest_digits) data
         else ("Label,Value,Color" +:+ JS.LF)
              +:+ ExportManager.rows (ExportManager.chartRow shortest_digits) data)
    /\ (Types.well_typed data -> Types.has_x d0 = forallb Types.has_x data).
Proof.
  intros sd data d0 rest filename ->. split.
  - apply exportCSV_nonempty.
  - intros Hwt. now apply (has_x_homogeneous (d0 :: rest) d0 rest).
Qed.

(** The quarterly records are an array of [ChartData]. *)
Lemma quarterly_well_typed : Types.well_typed Examples.quarterly.
Proof.
  left. repeat constructor; simpl; eauto.
Qed.

(** The quarterly records: the first has no [x], no record has, and the text
    has the label/value shape. *)
Lemma exportCSV_shape_by_first_record_witness :
  ExportManager.outcome
    (ExportManager.exportCSV Examples.no_digits Examples.quarterly None)
  = ExportManager.Fulfilled
      (("Label,Value,Color" +:+ JS.LF)
       +:+ ExportManager.rows (ExportManager.chartRow Examples.no_digits) Examples.quarterly)
  /\ false = forallb Types.has_x Examples.quarterly.
Proof.
  destruct (exportCSV_shape_by_first_record Examples.no_digits Examples.quarterly
              (Types.chartData "Q1" 120%float None)
              [Types.chartData "Q2" 180%float (Some "#10B981")] None eq_refl)
    as [Htext Hall].
  split; [exact Htext | exact (Hall quarterly_well_typed)].
Defined.

(** C3 as stated fails twice.  Every record of the empty array carries [x]
    (there is none), yet the text is empty and has no [X,Y,Label,Color]
    header; and in [mixed] not every record carries [x], yet the header is
    [X,Y,Label,Color], with [undefined] printed for the missing numbers. *)
Lemma exportCSV_every_record_rule_fails :
  (forallb Types.has_x [] = true
   /\ ExportManager.outcome (ExportManager.exportCSV Examples.no_digits [] None)
      = ExportManager.Fulfilled EmptyString)
  /\ (forallb Types.has_x Examples.mixed = false
      /\ ExportManager.outcome
           (ExportManager.exportCSV Examples.no_digits Examples.mixed None)
         = ExportManager.Fulfilled
             ("X,Y,Label,Color" +:+ JS.LF +:+
              "1,2,," +:+ JS.LF +:+
              "undefined,undefined,a," +:+ JS.LF)).
Proof. vm_compute. repeat split. Qed.

(** ** The order of JavaScript numbers *)

Ltac order_cases :=
  repeat match goal with
         | |- context [Z.compare ?a ?b] => destruct (Z.compare_spec a b)
         | H : context [Z.compare ?a ?b] |- _ => destruct (Z.compare_spec a b)
         | |- context [PosDef.Pos.compare_cont Eq ?a ?b] =>
             change (PosDef.Pos.compare_cont Eq a b) with (Pos.compare a b);
             destruct (Pos.compare_spec a b)
         | H : context [PosDef.Pos.compare_cont Eq ?a ?b] |- _ =>
             change (PosDef.Pos.compare_cont Eq a b) with (Pos.compare a b) in H;
             destruct (Pos.compare_spec a b)
         end;
  cbn [CompOpp] in *; try discriminate; try reflexivity; try lia.

Lemma SFltb_irrefl x : SFltb x x = false.
Proof.
  unfold SFltb, SFcompare.
  destruct x as [s|s| |s m e]; try reflexivity; destruct s; try reflexivity;
    order_cases.
Qed.

Lemma SFltb_trans x y z : SFltb x y = true -> SFltb y z = true -> SFltb x z = true.
Proof.
  unfold SFltb, SFcompare.
  destruct x as [sx|sx| |sx mx ex], y as [sy|sy| |sy my ey], z as [sz|sz| |sz mz ez];
    try discriminate; try reflexivity;
    repeat match goal with s : bool |- _ => destruct s end;
    try discriminate; try reflexivity;
    intros H1 H2; order_cases.
Qed.

Lemma SFltb_not_below_infinity x y :
  SFltb x (S754_infinity false) = false ->
  SFltb y (S754_infinity false) = false ->
  SFltb y x = false.
Proof.
  unfold SFltb, SFcompare.
  destruct x as [sx|sx| |sx mx ex], y as [sy|sy| |sy my ey];
    repeat match goal with s : bool |- _ => destruct s end;
    try discriminate; try reflexivity.
Qed.

(** [<] on numbers is irreflexive and transitive, NaN included. *)
Lemma ltb_irrefl (a : JS.number) : PrimFloat.ltb a a = false.
Proof. rewrite ltb_spec. apply SFltb_irrefl. Qed.

Lemma ltb_trans (a b c : JS.number) :
  PrimFloat.ltb a b = true -> PrimFloat.ltb b c = true -> PrimFloat.ltb a c = true.
Proof. rewrite !ltb_spec. apply SFltb_trans. Qed.

Lemma ltb_asym (a b : JS.number) :
  PrimFloat.ltb a b = true -> PrimFloat.ltb b a = false.
Proof.
  intros H. destruct (PrimFloat.ltb b a) eqn:E; [|reflexivity].
  pose proof (ltb_trans _ _ _ H E) as C. now rewrite ltb_irrefl in C.
Qed.

(** A number that is not below [Infinity] is [Infinity] or NaN, and nothing
    that is itself not below [Infinity] is below it. *)
Lemma ltb_not_below_infinity (a b : JS.number) :
  PrimFloat.ltb a infinity = false -> PrimFloat.ltb b infinity = false ->
  PrimFloat.ltb b a = false.
Proof.
  rewrite !ltb_spec. change (Prim2SF infinity) with (S754_infinity false).
  apply SFltb_not_below_infinity.
Qed.

(** [Math.min] of two numbers that are not NaN is one of them, and neither
    is below it. *)
Lemma Math_min_is_least (a b : JS.number) :
  PrimFloat.is_nan a = false -> PrimFloat.is_nan b = false ->
  (JS.Math_min a b = a \/ JS.Math_min a b = b)
  /\ PrimFloat.ltb a (JS.Math_min a b) = false
  /\ PrimFloat.ltb b (JS.Math_min a b) = false.
Proof.
  intros Ha Hb. unfold JS.Math_min. rewrite Ha, Hb. cbn [orb].
  destruct (PrimFloat.ltb a b) eqn:Hab.
  - split; [now left|]. split; [apply ltb_irrefl | now apply ltb_asym].
  - destruct (PrimFloat.ltb b a) eqn:Hba.
    + split; [now right|]. split; [exact Hab | apply ltb_irrefl].
    + destruct (PrimFloat.get_sign a).
      * split; [now left|]. split; [apply ltb_irrefl | exact Hba].
      * split; [now right|]. split; [exact Hab | apply ltb_irrefl].
Qed.

(** ** PNG, SVG and PDF export *)

Section ExportProperties.
Import JS ExportManager.
Variable serializeToString : SVGElement -> string.

(** The effects of a PNG export that gets as far as drawing: the canvas is
    sized and filled, the serialised SVG becomes an object URL, the image is
    drawn once, [toBlob] is asked for a PNG, and the URL is revoked. *)
Lemma exportPNG_draws config env svg :
  env.(context2d) = true -> env.(svgElement) = Some svg ->
  env.(svgImageLoads) = true ->
  let W := defaulting 800%float config.(png_width) in
  let H := defaulting 600%float config.(png_height) in
  let scale := Math_min (W / svg.(rectWidth))%float (H / svg.(rectHeight))%float in
  let svgBlob := mkBlob (serializeToString svg) "image/svg+xml;charset=utf-8" in
  effects (exportPNG serializeToString config env) =
  [CanvasSize W H;
   FillStyle (defaulting "white" config.(png_backgroundColor));
   FillRect 0%float 0%float W H;
   CreateObjectURL svgBlob;
   DrawImage ((W - svg.(rectWidth) * scale) / 2)%float
             ((H - svg.(rectHeight) * scale) / 2)%float
             (svg.(rectWidth) * scale)%float (svg.(rectHeight) * scale)%float;
   ToBlob "image/png" (defaulting 0x1.ccccccccccccdp-1%float config.(png_quality));
   RevokeObjectURL svgBlob].
Proof.
  intros Hctx Hsvg Hload. unfold exportPNG. rewrite Hctx, Hsvg, Hload.
  cbn [negb]. destruct (canvasBlob env); reflexivity.
Qed.
End ExportProperties.

(** C6. A PNG export of a vector root of W0 by H0 pixels onto a canvas of
    W by H draws the image once, scaled by [Math.min(W / W0, H / H0)] on both
    axes, at offsets [(W - W0 * scale) / 2] and [(H - H0 * scale) / 2]; W and
    H are the requested size or 800 and 600, and the canvas is first filled
    with the requested colour or white.  When the size ratios are numbers the
    scale is the smaller of the two. *)
Theorem exportPNG_scale_and_offsets :
  forall (serializeToString : ExportManager.SVGElement -> string)
         (config : ExportManager.PNGExportConfig) (env : ExportManager.Browser)
         (svg : ExportManager.SVGElement),
    env.(ExportManager.context2d) = true ->
    env.(ExportManager.svgElement) = Some svg ->
    env.(ExportManager.svgImageLoads) = true ->
    let W := ExportManager.defaulting 800%float config.(ExportManager.png_width) in
    let H := ExportManager.defaulting 600%float config.(ExportManager.png_height) in
    let W0 := svg.(ExportManager.rectWidth) in
    let H0 := svg.(ExportManager.rectHeight) in
    let scale := JS.Math_min (W / W0)%float (H / H0)%float in
    let drawn := ExportManager.effects
                   (ExportManager.exportPNG serializeToString config env) in
    ExportManager.drawImages drawn
    = [ExportManager.DrawImage ((W - W0 * scale) / 2)%float ((H - H0 * scale) / 2)%float
                               (W0 * scale)%float (H0 * scale)%float]
    /\ take 3 drawn
       = [ExportManager.CanvasSize W H;
          ExportManager.FillStyle
            (ExportManager.defaulting "white" config.(ExportManager.png_backgroundColor));
          ExportManager.FillRect 0%float 0%float W H]
    /\ (PrimFloat.is_nan (W / W0)%float = false ->
        PrimFloat.is_nan (H / H0)%float = false ->
        (scale = (W / W0)%float \/ scale = (H / H0)%float)
        /\ PrimFloat.ltb (W / W0)%float scale = false
        /\ PrimFloat.ltb (H / H0)%float scale = false).
Proof.
  intros ser config env svg Hctx Hsvg Hload W H W0 H0 scale drawn.
  subst drawn. rewrite (exportPNG_draws ser config env svg Hctx Hsvg Hload).
  split; [reflexivity|]. split; [reflexivity|].
  intros Hx Hy. now apply Math_min_is_least.
Qed.

(** A chart of 400 by 200 on the default canvas of 800 by 600: the scale is
    2, the image is drawn 800 by 400 at (0, 100) on a white canvas. *)
Lemma exportPNG_scale_and_offsets_witness :
  ExportManager.drawImages
    (ExportManager.effects
       (ExportManager.exportPNG Examples.serialize Examples.png_defaults
                                Examples.working_browser))
  = [ExportManager.DrawImage 0%float 100%float 800%float 400%float]
  /\ take 3 (ExportManager.effects
               (ExportManager.exportPNG Examples.serialize Examples.png_defaults
                                        Examples.working_browser))
     = [ExportManager.CanvasSize 800%float 600%float;
        ExportManager.FillStyle "white";
        ExportManager.FillRect 0%float 0%float 800%float 600%float]
  /\ JS.Math_min (800 / 400)%float (600 / 200)%float = 2%float.
Proof.
  destruct (exportPNG_scale_and_offsets Examples.serialize Examples.png_defaults
              Examples.working_browser Examples.chart_400x200
              eq_refl eq_refl eq_refl) as (Hdraw & Hfill & Hscale).
  split; [exact Hdraw|]. split; [exact Hfill|].
  destruct (Hscale eq_refl eq_refl) as ([Hl | Hr] & _ & _); vm_compute; reflexivity.
Defined.

Section MissingRoot.
Import JS ExportManager.
Variable serializeToString : SVGElement -> string.
Variable env : Browser.
Hypothesis no_svg : env.(svgElement) = None.

Lemma exportSVG_without_root config :
  exportSVG serializeToString config env = ([], Rejected "No SVG element found in container").
Proof. unfold exportSVG. now rewrite no_svg. Qed.

Lemma exportPNG_without_root config :
  outcome (exportPNG serializeToString config env)
  = Rejected (if env.(context2d) then "No SVG element found in container"
              else "Canvas context not available").
Proof.
  unfold exportPNG. rewrite no_svg. destruct (context2d env); reflexivity.
Qed.

Lemma exportPDF_without_root config :
  outcome (exportPDF serializeToString config env)
  = Rejected (match env.(jsPDF) with
              | None => "jsPDF library not found. Please include jsPDF in your project."
              | Some _ => if env.(context2d) then "No SVG element found in container"
                          else "Canvas context not available"
              end).
Proof.
  unfold exportPDF. destruct (jsPDF env) as [pdf|]; [|reflexivity].
  pose proof (exportPNG_without_root
                (mkPNG None (Some (defaulting 800%float (pdf_width config)))
                       (Some (defaulting 600%float (pdf_height config))) None None)) as Hpng.
  destruct (exportPNG _ _ env) as [t [b|msg]]; simpl in Hpng; [discriminate|].
  inversion Hpng; subst. reflexivity.
Qed.
End MissingRoot.

(** C7, as the code has it.  An export from a container with no SVG element
    never returns a serialisation or a blob: it is always rejected.
    [exportSVG] is rejected with [No SVG element found in container] and has
    done nothing before.  [exportPNG] asks for the canvas context first, so
    it is rejected with that message only when the context exists and with
    [Canvas context not available] otherwise.  [exportPDF] asks for jsPDF
    before it calls [exportPNG], so without jsPDF its message is the one
    about the missing library. *)
Theorem export_without_svg_is_rejected :
  forall (serializeToString : ExportManager.SVGElement -> string)
         (env : ExportManager.Browser),
    env.(ExportManager.svgElement) = None ->
    (forall config,
        ExportManager.exportSVG serializeToString config env
        = ([], ExportManager.Rejected "No SVG element found in container"))
    /\ (forall config,
           ExportManager.outcome (ExportManager.exportPNG serializeToString config env)
           = ExportManager.Rejected
               (if env.(ExportManager.context2d)
                then "No SVG element found in container"
                else "Canvas context not available"))
    /\ (forall config,
           ExportManager.outcome (ExportManager.exportPDF serializeToString config env)
           = ExportManager.Rejected
               (match env.(ExportManager.jsPDF) with
                | None => "jsPDF library not found. Please include jsPDF in your project."
                | Some _ =>
                    if env.(ExportManager.context2d)
                    then "No SVG element found in container"
                    else "Canvas context not available"
                end)).
Proof.
  intros ser env Hnone. split; [|split]; intros config.
  - now apply exportSVG_without_root.
  - now apply exportPNG_without_root.
  - now apply exportPDF_without_root.
Qed.

(** An empty container in a browser with a canvas and without jsPDF. *)
Lemma export_without_svg_is_rejected_witness :
  ExportManager.exportSVG Examples.serialize
    (ExportManager.mkSVGConfig None None None None None None) Examples.empty_container
  = ([], ExportManager.Rejected "No SVG element found in container")
  /\ ExportManager.outcome
       (ExportManager.exportPNG Examples.serialize Examples.png_defaults
                                Examples.empty_container)
     = ExportManager.Rejected "No SVG element found in container"
  /\ ExportManager.outcome
       (ExportManager.exportPDF Examples.serialize Examples.pdf_titled
                                Examples.empty_container)
     = ExportManager.Rejected
         "jsPDF library not found. Please include jsPDF in your project.".
Proof.
  destruct (export_without_svg_is_rejected Examples.serialize Examples.empty_container
              eq_refl) as (Hsvg & Hpng & Hpdf).
  split; [apply Hsvg|]. split; [apply Hpng | apply Hpdf].
Defined.

(** C7 as stated fails where an earlier guard speaks first: with no canvas
    context [exportPNG] is rejected with [Canvas context not available], and
    with no jsPDF [exportPDF] is rejected with the missing-library message,
    although the container has no SVG element in either case. *)
Lemma export_without_svg_other_errors :
  Examples.bare_browser.(ExportManager.svgElement) = None
  /\ ExportManager.outcome
       (ExportManager.exportPNG Examples.serialize Examples.png_defaults
                                Examples.bare_browser)
     = ExportManager.Rejected "Canvas context not available"
  /\ ExportManager.outcome
       (ExportManager.exportPDF Examples.serialize Examples.pdf_titled
                                Examples.bare_browser)
     = ExportManager.Rejected
         "jsPDF library not found. Please include jsPDF in your project."
  /\ "Canvas context not available" <> "No SVG element found in container"
  /\ "jsPDF library not found. Please include jsPDF in your project."
     <> "No SVG element found in container".
Proof. repeat split; discriminate. Qed.

Section Metadata.
Import JS ExportManager.
Variable serializeToString : SVGElement -> string.

Lemma exportPNG_sets_no_properties config env :
  setProperties (effects (exportPNG serializeToString config env)) = [].
Proof.
  unfold exportPNG.
  destruct (context2d env), (svgElement env), (svgImageLoads env), (canvasBlob env);
    reflexivity.
Qed.

Lemma setProperties_app t1 t2 :
  setProperties (t1 ++ t2)%list = (setProperties t1 ++ setProperties t2)%list.
Proof. apply List.filter_app. Qed.

(** The one [setProperties] call of a PDF export that succeeds. *)
Lemma exportPDF_properties config env blob :
  outcome (exportPDF serializeToString config env) = Fulfilled blob ->
  setProperties (effects (exportPDF serializeToString config env))
  = [SetProperties (defaulting "Chart Export" config.(title))
                   (defaulting "Synerity Charts" config.(author))
                   "Chart Export" "Synerity Charts"].
Proof.
  unfold exportPDF. destruct (jsPDF env) as [pdf|]; [|discriminate].
  pose proof (exportPNG_sets_no_properties
                (mkPNG None (Some (defaulting 800%float (pdf_width config)))
                       (Some (defaulting 600%float (pdf_height config))) None None)
                env) as Hpng.
  destruct (exportPNG _ _ env) as [t [png|msg]]; [|discriminate].
  cbn [effects fst] in Hpng.
  destruct (pngImage env) as [[img_width img_height]|]; [|discriminate].
  destruct (raises pdf) as [error|]; [discriminate|].
  intros _.
  destruct (PrimFloat.ltb (pageWidth pdf / pageHeight pdf) (img_width / img_height));
    cbn; rewrite setProperties_app, Hpng; reflexivity.
Qed.
End Metadata.

(** C8, as the code has it.  A PDF export that succeeds sets the document
    properties exactly once; the title is the request's title, or
    [Chart Export] when the request has none, and the author is the request's
    author, or [Synerity Charts] when it has none. *)
Theorem exportPDF_title_and_author :
  forall (serializeToString : ExportManager.SVGElement -> string)
         (config : ExportManager.PDFExportConfig) (env : ExportManager.Browser)
         (blob : ExportManager.Blob),
    ExportManager.outcome (ExportManager.exportPDF serializeToString config env)
    = ExportManager.Fulfilled blob ->
    exists subject creator,
      ExportManager.setProperties
        (ExportManager.effects (ExportManager.exportPDF serializeToString config env))
      = [ExportManager.SetProperties
           (ExportManager.defaulting "Chart Export" config.(ExportManager.title))
           (ExportManager.defaulting "Synerity Charts" config.(ExportManager.author))
           subject creator].
Proof.
  intros ser config env blob Hok.
  exists "Chart Export", "Synerity Charts".
  now apply exportPDF_properties with (blob := blob).
Qed.

(** A request with title [Sales] and author [Ada] in a browser where the
    export succeeds. *)
Lemma exportPDF_title_and_author_witness :
  exists subject creator,
    ExportManager.setProperties
      (ExportManager.effects
         (ExportManager.exportPDF Examples.serialize Examples.pdf_titled
                                  Examples.working_browser))
    = [ExportManager.SetProperties "Sales" "Ada" subject creator].
Proof.
  exact (exportPDF_title_and_author Examples.serialize Examples.pdf_titled
           Examples.working_browser Examples.pdf_blob eq_refl).
Defined.

(** C8 as stated fails on a request that gives a subject and no title: the
    export succeeds, the subject written is [Chart Export] and not the one
    requested, and the title written is [Chart Export] and not the product
    name the author defaults to. *)
Lemma exportPDF_subject_and_default_title :
  ExportManager.outcome
    (ExportManager.exportPDF Examples.serialize Examples.pdf_with_subject
                             Examples.working_browser)
  = ExportManager.Fulfilled Examples.pdf_blob
  /\ ExportManager.setProperties
       (ExportManager.effects
          (ExportManager.exportPDF Examples.serialize Examples.pdf_with_subject
                                   Examples.working_browser))
     = [ExportManager.SetProperties "Chart Export" "Synerity Charts"
                                    "Chart Export" "Synerity Charts"]
  /\ Examples.pdf_with_subject.(ExportManager.subject) = Some "Quarterly report"
  /\ "Chart Export" <> "Quarterly report"
  /\ "Chart Export" <> "Synerity Charts".
Proof. repeat split; discriminate. Qed.

(** ** The trend line of the scatter plot *)

Section TrendLine.
Import JS DOM ScatterPlot.

(** A [reduce] that adds [f d] to the running sum is the sum of the [f d]. *)
Lemma reduce_sigma (f : ScatterData -> number) (data : list ScatterData) (sum : number) :
  fold_left (fun sum d => PrimFloat.add sum (f d)) data sum
  = fold_left PrimFloat.add (map f data) sum.
Proof.
  revert sum. induction data as [|d data IH]; intros sum; [reflexivity|].
  cbn [fold_left map]. apply IH.
Qed.

Lemma regression_formula (data : list ScatterData) :
  let n := of_nat (length data) in
  let Sx := sigma x data in
  let Sy := sigma y data in
  let Sxy := sigma (fun d => d.(x) * d.(y))%float data in
  let Sxx := sigma (fun d => d.(x) * d.(x))%float data in
  let slope := ((n * Sxy - Sx * Sy) / (n * Sxx - Sx * Sx))%float in
  regression data = (slope, ((Sy - slope * Sx) / n)%float).
Proof.
  unfold regression, sigma. now rewrite !reduce_sigma.
Qed.

Variable random : nat -> number.
Variable scaleLinear : number * number -> number * number -> number -> number.

Lemma points_are_no_lines (f : ScatterData -> list (string * AttrValue))
      (points : list ScatterData) :
  List.filter isLine (map (fun d => mkElement "circle" "point" (f d)) points) = [].
Proof. induction points as [|p points IH]; [reflexivity | exact IH]. Qed.

(** Rendering fresh data with the default options draws the grid, the axes
    and the points, and no trend line, since it is off by default. *)
Lemma new_default_state (data : list ScatterData) :
  data <> [] ->
  exists group,
    new random scaleLinear data noOptions
    = Normal (mkState data (getDefaultOptions noOptions) group [] [])
    /\ List.filter isLine group = [].
Proof.
  intros Hne. unfold new, render.
  destruct data as [|d data]; [contradiction|]. cbn [length Nat.eqb].
  eexists. split; [reflexivity|].
  cbn -[map PrimFloat.sub D3.extent].
  apply points_are_no_lines.
Qed.

(** With the default options, enabling the trend line on data that is not
    empty appends exactly one [<line>]: the segment between the two points
    of [trendData], taken through the scales. *)
Lemma enableTrendLine_draws (data : list ScatterData) group cl log :
  data <> [] ->
  let this := mkState data (getDefaultOptions noOptions) group cl log in
  let xScale := scaleLinear (D3.extent (map x data)) (0, 600 - 60 - 20)%float in
  let yScale := scaleLinear (D3.extent (map y data)) (400 - 20 - 60, 0)%float in
  trendLines (enableTrendLine random scaleLinear true this).1
  = [mkElement "line" EmptyString
       [("x1", Num (xScale (trendData data).1.1));
        ("y1", Num (yScale (trendData data).1.2));
        ("x2", Num (xScale (trendData data).2.1));
        ("y2", Num (yScale (trendData data).2.2));
        ("stroke", Str "#EF4444");
        ("stroke-width", Num 2%float);
        ("opacity", Num 0x1.999999999999ap-1%float);
        ("stroke-dasharray", Str "5,5")]].
Proof.
  intros Hne this xScale yScale. subst this xScale yScale.
  unfold enableTrendLine, render.
  destruct data as [|d data]; [contradiction|].
  cbn [length Nat.eqb ScatterPlot.data options getDefaultOptions noOptions trendLine
       clustering u_trendLine u_clustering u_width u_height u_margin u_showGrid
       showGrid width height margin].
  unfold trendLines, renderTrendLine.
  cbn -[trendData D3.extent List.filter map PrimFloat.sub bool_decide].
  rewrite bool_decide_eq_true_2 by reflexivity.
  cbn -[trendData D3.extent map PrimFloat.sub].
  rewrite List.filter_app, points_are_no_lines. reflexivity.
Qed.
End TrendLine.

(** C4. For two points or more the slope and the intercept of the trend
    line are the least-squares quotients of the sums over all points, the
    sums running in array order, and the line drawn goes through the scaled
    end points [slope * x + intercept] at the smallest and the largest [x].
    On [[(0,0), (1,1), (2,2)]] the slope is 1, the intercept 0, and the end
    points are (0,0) and (2,2). *)
Theorem trend_line_least_squares :
  forall (data : list ScatterPlot.ScatterData),
    2 <= length data ->
    let n := JS.of_nat (length data) in
    let Sx := ScatterPlot.sigma ScatterPlot.x data in
    let Sy := ScatterPlot.sigma ScatterPlot.y data in
    let Sxy := ScatterPlot.sigma (fun d => d.(ScatterPlot.x) * d.(ScatterPlot.y))%float data in
    let Sxx := ScatterPlot.sigma (fun d => d.(ScatterPlot.x) * d.(ScatterPlot.x))%float data in
    let slope := ((n * Sxy - Sx * Sy) / (n * Sxx - Sx * Sx))%float in
    let intercept := ((Sy - slope * Sx) / n)%float in
    let xRange := D3.extent (map ScatterPlot.x data) in
    ScatterPlot.regression data = (slope, intercept)
    /\ ScatterPlot.trendData data
       = ((xRange.1, (slope * xRange.1 + intercept)%float),
          (xRange.2, (slope * xRange.2 + intercept)%float))
    /\ (forall random scaleLinear group cl log,
          let xScale := scaleLinear xRange (0, 600 - 60 - 20)%float in
          let yScale := scaleLinear (D3.extent (map ScatterPlot.y data))
                                    (400 - 20 - 60, 0)%float in
          exists style,
            ScatterPlot.trendLines
              (ScatterPlot.enableTrendLine random scaleLinear true
                 (ScatterPlot.mkState data
                    (ScatterPlot.getDefaultOptions ScatterPlot.noOptions) group cl log)).1
            = [DOM.mkElement "line" EmptyString
                 ([("x1", DOM.Num (xScale xRange.1));
                   ("y1", DOM.Num (yScale (slope * xRange.1 + intercept)%float));
                   ("x2", DOM.Num (xScale xRange.2));
                   ("y2", DOM.Num (yScale (slope * xRange.2 + intercept)%float))]
                  ++ style)%list])
    /\ ScatterPlot.regression Examples.diagonal = (1, 0)%float
    /\ ScatterPlot.trendData Examples.diagonal = ((0, 0), (2, 2))%float.
Proof.
  intros data Hlen n Sx Sy Sxy Sxx slope intercept xRange.
  assert (ScatterPlot.regression data = (slope, intercept)) as Hreg
      by apply regression_formula.
  assert (ScatterPlot.trendData data
          = ((xRange.1, (slope * xRange.1 + intercept)%float),
             (xRange.2, (slope * xRange.2 + intercept)%float))) as Htrend.
  { unfold ScatterPlot.trendData. now rewrite Hreg. }
  split; [exact Hreg|]. split; [exact Htrend|]. split; [|split].
  - intros random scaleLinear group cl log xScale yScale.
    eexists. rewrite enableTrendLine_draws.
    + rewrite Htrend. cbn [fst snd]. reflexivity.
    + intros ->. cbn in Hlen. lia.
  - vm_compute. reflexivity.
  - vm_compute. reflexivity.
Qed.

(** The three diagonal points: sums 3 and 5, slope 1, intercept 0. *)
Lemma trend_line_least_squares_witness :
  ScatterPlot.regression Examples.diagonal = (1, 0)%float
  /\ ScatterPlot.trendData Examples.diagonal = ((0, 0), (2, 2))%float
  /\ ScatterPlot.sigma ScatterPlot.x Examples.diagonal = 3%float
  /\ ScatterPlot.sigma (fun d => d.(ScatterPlot.x) * d.(ScatterPlot.y))%float
                       Examples.diagonal = 5%float.
Proof.
  assert (2 <= length Examples.diagonal) as Hlen by (cbn; lia).
  destruct (trend_line_least_squares Examples.diagonal Hlen)
    as (_ & _ & _ & Hreg & Htrend).
  split; [exact Hreg|]. split; [exact Htrend|]. split; vm_compute; reflexivity.
Defined.

(** C2, where the code departs from it.  With no data [render] only warns:
    the chart group is left as it was and nothing is thrown.  With one point
    the enhanced scatter plot does draw a trend line: the chart is
    constructed without one, and enabling the trend line appends a [<line>]
    whose slope is 0/0, so both of its [y] coordinates are the scale's image
    of NaN; every one-point data set gets such a line.  The older
    [calculateTrendLine] answers [null] for every one-point data set. *)
Theorem trend_line_on_a_single_point :
  forall (random : nat -> JS.number)
         (scaleLinear : JS.number * JS.number -> JS.number * JS.number ->
                        JS.number -> JS.number),
    (forall this,
        this.(ScatterPlot.data) = [] ->
        ScatterPlot.render random scaleLinear this
        = (ScatterPlot.log (DOM.Warn "No data available for scatter plot rendering") this,
           DOM.Normal tt))
    /\ (exists this,
          ScatterPlot.new random scaleLinear Examples.single_point ScatterPlot.noOptions
          = DOM.Normal this
          /\ ScatterPlot.trendLines this = []
          /\ ScatterPlot.trendLines
               (ScatterPlot.enableTrendLine random scaleLinear true this).1
             = [DOM.mkElement "line" EmptyString
                  [("x1", DOM.Num (scaleLinear (1, 1) (0, 520) 1)%float);
                   ("y1", DOM.Num (scaleLinear (2, 2) (320, 0) nan)%float);
                   ("x2", DOM.Num (scaleLinear (1, 1) (0, 520) 1)%float);
                   ("y2", DOM.Num (scaleLinear (2, 2) (320, 0) nan)%float);
                   ("stroke", DOM.Str "#EF4444");
                   ("stroke-width", DOM.Num 2%float);
                   ("opacity", DOM.Num 0x1.999999999999ap-1%float);
                   ("stroke-dasharray", DOM.Str "5,5")]])
    /\ (forall point,
          exists this line,
            ScatterPlot.new random scaleLinear [point] ScatterPlot.noOptions
            = DOM.Normal this
            /\ ScatterPlot.trendLines
                 (ScatterPlot.enableTrendLine random scaleLinear true this).1
               = [line])
    /\ ScatterPlot.regression Examples.single_point = (nan, nan)
    /\ (forall point, LegacyScatterPlot.calculateTrendLine [point] = None).
Proof.
  intros random scaleLinear. split; [|split; [|split; [|split]]].
  - intros this Hdata. unfold ScatterPlot.render. now rewrite Hdata.
  - destruct (new_default_state random scaleLinear Examples.single_point)
      as (group & Hnew & Hlines); [discriminate|].
    eexists. split; [exact Hnew|]. split; [exact Hlines|].
    rewrite enableTrendLine_draws by discriminate. reflexivity.
  - intros point.
    destruct (new_default_state random scaleLinear [point])
      as (group & Hnew & _); [discriminate|].
    eexists _, _. split; [exact Hnew|].
    now rewrite enableTrendLine_draws by discriminate.
  - vm_compute. reflexivity.
  - reflexivity.
Qed.

(** ** The pie chart *)

(** C9, as the code has it.  When the data is not empty and its values sum
    to 0 or less, [render] returns normally after one console error and
    touches nothing else: the chart group and the legend group are what they
    were before the call.  On construction that is the empty group; after an
    [update] it is whatever was drawn before. *)
Theorem pie_render_nonpositive_total :
  forall (this : PieChart.State),
    this.(PieChart.data) <> [] ->
    PrimFloat.leb (PieChart.totalValue this.(PieChart.data)) 0 = true ->
    PieChart.render this
    = PieChart.log
        (DOM.Error "Total value is zero or negative, cannot render pie chart") this
    /\ (PieChart.render this).(PieChart.chartGroup) = this.(PieChart.chartGroup)
    /\ (PieChart.render this).(PieChart.legendGroup) = this.(PieChart.legendGroup)
    /\ (forall options,
          exists fresh,
            PieChart.new this.(PieChart.data) options = DOM.Normal fresh
            /\ fresh.(PieChart.chartGroup) = []
            /\ fresh.(PieChart.console)
               = [DOM.Error "Total value is zero or negative, cannot render pie chart"]).
Proof.
  intros this Hne Htotal.
  assert (forall st, PieChart.data st = PieChart.data this ->
                     PieChart.render st
                     = PieChart.log
                         (DOM.Error "Total value is zero or negative, cannot render pie chart")
                         st) as Hrender.
  { intros st Hst. unfold PieChart.render. rewrite Hst.
    destruct (PieChart.data this) as [|d rest]; [contradiction|].
    cbn [length Nat.eqb]. now rewrite Htotal. }
  split; [now apply Hrender|].
  rewrite (Hrender this eq_refl). split; [reflexivity|]. split; [reflexivity|].
  intros options. unfold PieChart.new.
  destruct (PieChart.data this) as [|d rest] eqn:Hdata; [contradiction|].
  cbn [length Nat.eqb]. eexists. split; [reflexivity|].
  rewrite Hrender by reflexivity. split; reflexivity.
Qed.

(** A pie chart constructed on two zero values: one console error and an
    empty chart group. *)
Lemma pie_render_nonpositive_total_witness :
  exists fresh,
    PieChart.new Examples.zero_slices PieChart.defaultOptions = DOM.Normal fresh
    /\ fresh.(PieChart.chartGroup) = []
    /\ fresh.(PieChart.console)
       = [DOM.Error "Total value is zero or negative, cannot render pie chart"].
Proof.
  assert (Examples.zero_slices <> []) as Hne by discriminate.
  assert (PrimFloat.leb (PieChart.totalValue Examples.zero_slices) 0 = true) as Htotal
      by reflexivity.
  destruct (pie_render_nonpositive_total
              (PieChart.mkState Examples.zero_slices PieChart.defaultOptions [] [] [])
              Hne Htotal) as (_ & _ & _ & Hnew).
  exact (Hnew PieChart.defaultOptions).
Defined.

(** C9 as stated fails on a chart that was drawn before: after an [update]
    with data that sums to 0 the chart group is not empty, it still holds
    the two slices and two labels of the earlier data. *)
Lemma pie_update_keeps_old_slices :
  exists drawn,
    PieChart.new Examples.two_slices PieChart.defaultOptions = DOM.Normal drawn
    /\ PrimFloat.leb (PieChart.totalValue Examples.zero_slices) 0 = true
    /\ (PieChart.update Examples.zero_slices drawn).(PieChart.chartGroup)
       = drawn.(PieChart.chartGroup)
    /\ length (PieChart.update Examples.zero_slices drawn).(PieChart.chartGroup) = 4
    /\ (PieChart.update Examples.zero_slices drawn).(PieChart.chartGroup) <> [].
Proof.
  eexists. split; [reflexivity|]. repeat split. discriminate.
Qed.

(** ** k-means clustering *)

Section KMeans.
Import JS DOM ScatterPlot.
Variable random : nat -> number.

(** *** One point against the centroids *)

Lemma centroids_forEach_spec point centroids i minDistance clusterIndex :
  let r := centroids_forEach point i centroids minDistance clusterIndex in
  (forall d, PrimFloat.ltb d minDistance = false -> PrimFloat.ltb d r.1 = false)
  /\ (forall j c, centroids !! j = Some c ->
                  PrimFloat.ltb (distance point c) r.1 = false)
  /\ (r = (minDistance, clusterIndex)
      \/ exists j c, centroids !! j = Some c /\ r = (distance point c, i + j)).
Proof.
  revert i minDistance clusterIndex.
  induction centroids as [|c0 rest IH]; intros i m ci; cbn zeta.
  - cbn. split; [auto|]. split; [intros j c H; discriminate | now left].
  - cbn [centroids_forEach].
    destruct (PrimFloat.ltb (distance point c0) m) eqn:Hlt.
    + destruct (IH (S i) (distance point c0) i) as (Hle & Hall & Hsel).
      assert (forall d, PrimFloat.ltb d m = false ->
                        PrimFloat.ltb d (distance point c0) = false) as Hstep.
      { intros d Hd. destruct (PrimFloat.ltb d (distance point c0)) eqn:E; [|reflexivity].
        now rewrite (ltb_trans _ _ _ E Hlt) in Hd. }
      split; [auto|]. split.
      * intros [|j] c Hc; cbn in Hc.
        -- inversion Hc; subst. apply Hle, ltb_irrefl.
        -- eauto.
      * right. destruct Hsel as [-> | (j & c & Hc & ->)].
        -- exists 0, c0. split; [reflexivity|]. now rewrite Nat.add_0_r.
        -- exists (S j), c. split; [exact Hc|]. f_equal. lia.
    + destruct (IH (S i) m ci) as (Hle & Hall & Hsel).
      split; [auto|]. split.
      * intros [|j] c Hc; cbn in Hc.
        -- inversion Hc; subst. now apply Hle.
        -- eauto.
      * destruct Hsel as [-> | (j & c & Hc & ->)]; [now left|].
        right. exists (S j), c. split; [exact Hc|]. f_equal. lia.
Qed.

(** The centroid a point is assigned to exists, and no centroid is nearer. *)
Lemma nearestCentroid_is_nearest point centroids :
  centroids <> [] ->
  exists c, centroids !! nearestCentroid centroids point = Some c
            /\ forall j c', centroids !! j = Some c' ->
                            PrimFloat.ltb (distance point c') (distance point c) = false.
Proof.
  intros Hne. unfold nearestCentroid.
  destruct (centroids_forEach_spec point centroids 0 infinity 0) as (_ & Hall & Hsel).
  destruct Hsel as [Heq | (j & c & Hc & Heq)]; rewrite Heq in *; cbn [fst snd] in *.
  - destruct centroids as [|c0 rest]; [contradiction|].
    exists c0. split; [reflexivity|]. intros j c' Hc'.
    apply ltb_not_below_infinity; [apply (Hall 0); reflexivity | now apply (Hall j)].
  - exists c. split; [exact Hc|]. exact Hall.
Qed.

Lemma nearestCentroid_in_range point centroids :
  centroids <> [] -> nearestCentroid centroids point < length centroids.
Proof.
  intros Hne. destruct (nearestCentroid_is_nearest point centroids Hne) as (c & Hc & _).
  now apply lookup_lt_Some in Hc.
Qed.

(** *** All points against the centroids *)

Lemma points_forEach_spec centroids points index clusters result :
  points_forEach centroids index points clusters = Normal result ->
  length result = length clusters
  /\ forall j cluster, clusters !! j = Some cluster ->
       result !! j = Some (cluster ++ assigned_from centroids index points j)%list.
Proof.
  revert index clusters.
  induction points as [|point rest IH]; intros index clusters Hrun; cbn in Hrun.
  - inversion Hrun; subst. split; [reflexivity|].
    intros j cluster Hj. cbn. now rewrite app_nil_r.
  - destruct (clusters !! nearestCentroid centroids point) as [cluster0|] eqn:Hci;
      [|discriminate].
    apply IH in Hrun as [Hlen Hall].
    rewrite length_insert in Hlen. split; [exact Hlen|].
    intros j cluster Hj. cbn [assigned_from].
    destruct (Nat.eqb_spec (nearestCentroid centroids point) j) as [Heq | Hneq].
    + subst j. rewrite Hci in Hj. inversion Hj; subst.
      rewrite (Hall _ (cluster ++ [index])%list).
      * now rewrite <- app_assoc.
      * apply list_lookup_insert_eq. now apply lookup_lt_Some in Hci.
    + apply Hall. now rewrite list_lookup_insert_ne.
Qed.

Lemma points_forEach_total centroids points index clusters :
  centroids <> [] -> length clusters = length centroids ->
  exists result, points_forEach centroids index points clusters = Normal result.
Proof.
  intros Hne. revert index clusters.
  induction points as [|point rest IH]; intros index clusters Hlen; cbn.
  - eauto.
  - pose proof (nearestCentroid_in_range point centroids Hne) as Hlt.
    destruct (lookup_lt_is_Some_2 clusters (nearestCentroid centroids point))
      as [cluster Hc]; [lia|].
    rewrite Hc. apply IH. now rewrite length_insert.
Qed.

(** *** One iteration *)

Lemma iteration_spec k points centroids old centroids' clusters :
  iteration k points (centroids, old) = Normal (centroids', clusters) ->
  length clusters = k
  /\ (forall j, j < k ->
        clusters !! j = Some (assigned_from centroids 0 points j))
  /\ centroids' = map (centroidOf points) clusters.
Proof.
  unfold iteration.
  destruct (points_forEach centroids 0 points (replicate k [])) as [result|] eqn:Hrun;
    [|discriminate].
  intros H. inversion H; subst. clear H.
  apply points_forEach_spec in Hrun as [Hlen Hall].
  rewrite length_replicate in Hlen. split; [exact Hlen|]. split; [|reflexivity].
  intros j Hj. rewrite (Hall j []); [reflexivity|].
  now apply lookup_replicate_2.
Qed.

Lemma iteration_total k points centroids old :
  0 < k -> length centroids = k ->
  exists centroids' clusters,
    iteration k points (centroids, old) = Normal (centroids', clusters)
    /\ length centroids' = k.
Proof.
  intros Hk Hlen. unfold iteration.
  destruct (points_forEach_total centroids points 0 (replicate k [])) as [result Hrun].
  - intros ->. cbn in Hlen. lia.
  - now rewrite length_replicate.
  - rewrite Hrun. eexists _, _. split; [reflexivity|].
    rewrite length_map. apply points_forEach_spec in Hrun as [Hl _].
    now rewrite length_replicate in Hl.
Qed.

(** *** The loops *)

Lemma for_range_iterations k points from n v v' :
  for_range from n (fun _ => iteration k points) v = Normal v'
  <-> iterations k points n v v'.
Proof.
  revert from v. induction n as [|n IH]; intros from v; cbn.
  - split.
    + intros H. inversion H; subst. constructor.
    + intros H. inversion H; subst. reflexivity.
  - split.
    + destruct (iteration k points v) as [v1|] eqn:Hstep; [|discriminate].
      intros H. apply IH in H. econstructor; eauto.
    + intros H. inversion H as [|? ? v1 ? Hstep Hrest]; subst.
      rewrite Hstep. now apply IH.
Qed.

Lemma iterations_total k points n centroids old :
  0 < k -> length centroids = k ->
  exists v', iterations k points n (centroids, old) v'.
Proof.
  intros Hk. revert centroids old.
  induction n as [|n IH]; intros centroids old Hlen.
  - eexists. constructor.
  - destruct (iteration_total k points centroids old Hk Hlen)
      as (centroids' & clusters & Hstep & Hlen').
    destruct (IH centroids' clusters Hlen') as [v' Hrest].
    exists v'. econstructor; eauto.
Qed.

(** The initialisation loop: what it pushes, and when it goes through. *)
Lemma pushRandomCentroid_loop points from count acc centroids :
  for_range from count (pushRandomCentroid random points) acc = Normal centroids ->
  exists chosen,
    centroids = (acc ++ chosen)%list /\ length chosen = count
    /\ forall i c, chosen !! i = Some c ->
         exists index,
           Math_floor_index (PrimFloat.mul (random (from + i)) (of_nat (length points)))
           = Some index
           /\ points !! index = Some c.
Proof.
  revert from acc. induction count as [|count IH]; intros from acc Hrun; cbn in Hrun.
  - inversion Hrun; subst. exists []. rewrite app_nil_r. repeat split.
    intros i c H. discriminate.
  - unfold pushRandomCentroid at 1 in Hrun.
    destruct (Math_floor_index _) as [index|] eqn:Hfloor; cbn in Hrun; [|discriminate].
    destruct (points !! index) as [point|] eqn:Hpoint; [|discriminate].
    apply IH in Hrun as (chosen & -> & Hlen & Hall).
    exists (point :: chosen). split; [now rewrite <- app_assoc|].
    split; [cbn; now rewrite Hlen|].
    intros [|i] c Hc; cbn in Hc.
    + inversion Hc; subst. exists index. now rewrite Nat.add_0_r.
    + destruct (Hall i c Hc) as (index' & H1 & H2). exists index'.
      split; [|exact H2]. now replace (from + S i) with (S from + i) by lia.
Qed.

Lemma pushRandomCentroid_total points from count acc :
  (forall i, from <= i < from + count ->
     exists index point,
       Math_floor_index (PrimFloat.mul (random i) (of_nat (length points))) = Some index
       /\ points !! index = Some point) ->
  exists centroids,
    for_range from count (pushRandomCentroid random points) acc = Normal centroids.
Proof.
  revert from acc. induction count as [|count IH]; intros from acc Hdraws; cbn.
  - eauto.
  - destruct (Hdraws from) as (index & point & Hfloor & Hpoint); [lia|].
    unfold pushRandomCentroid at 1. rewrite Hfloor. cbn. rewrite Hpoint.
    apply IH. intros i Hi. apply Hdraws. lia.
Qed.
End KMeans.

(** C5. [performClustering] draws [k] centroids, each a copy of the data
    point at index [Math.floor(Math.random() * points.length)], and then
    runs the loop body exactly 10 times, whatever the clusters look like; its
    result is the clustering of the tenth run.  One run puts every point, in
    array order, into the cluster of a centroid that no other centroid is
    nearer to in Euclidean distance, and then replaces every centroid by the
    mean of its cluster, or by (0, 0) when the cluster is empty.  The call
    returns whenever [k] is above 0 and the initial draws fall inside the
    array. *)
Theorem kmeans_ten_fixed_iterations :
  forall (random : nat -> JS.number) (k : nat) (data : list ScatterPlot.ScatterData),
    let points := map (fun d => (d.(ScatterPlot.x), d.(ScatterPlot.y))) data in
    let drawn (i : nat) (c : ScatterPlot.Point) :=
      exists index,
        JS.Math_floor_index (PrimFloat.mul (random i) (JS.of_nat (length points)))
        = Some index
        /\ points !! index = Some c in
    (0 < k ->
     (forall i, i < k -> exists c, drawn i c) ->
     exists clusters, ScatterPlot.kmeans random k data = DOM.Normal clusters)
    /\ (forall clusters,
          ScatterPlot.kmeans random k data = DOM.Normal clusters ->
          exists centroids0 centroids10,
            length centroids0 = k
            /\ (forall i c, centroids0 !! i = Some c -> drawn i c)
            /\ ScatterPlot.iterations k points 10 (centroids0, [])
                                      (centroids10, clusters))
    /\ (forall centroids old centroids' clusters,
          ScatterPlot.iteration k points (centroids, old)
          = DOM.Normal (centroids', clusters) ->
          length clusters = k
          /\ (forall j, j < k ->
                clusters !! j
                = Some (ScatterPlot.assigned_from centroids 0 points j))
          /\ (forall point,
                centroids <> [] ->
                exists c,
                  centroids !! ScatterPlot.nearestCentroid centroids point = Some c
                  /\ forall j c',
                       centroids !! j = Some c' ->
                       PrimFloat.ltb (ScatterPlot.distance point c')
                                     (ScatterPlot.distance point c) = false)
          /\ centroids' = map (ScatterPlot.centroidOf points) clusters)
    /\ (forall point centroid,
          ScatterPlot.distance point centroid
          = PrimFloat.sqrt ((point.1 - centroid.1) * (point.1 - centroid.1)
                            + (point.2 - centroid.2) * (point.2 - centroid.2))%float)
    /\ ScatterPlot.centroidOf points [] = (0, 0)%float
    /\ (forall index rest,
          let cluster := index :: rest in
          let sum proj :=
            fold_left PrimFloat.add (map (ScatterPlot.coordinate proj points) cluster)
                      0%float in
          ScatterPlot.centroidOf points cluster
          = ((sum fst / JS.of_nat (length cluster))%float,
             (sum snd / JS.of_nat (length cluster))%float))
    /\ (forall this,
          this.(ScatterPlot.data) = data ->
          this.(ScatterPlot.options).(ScatterPlot.clustering) ≫= ScatterPlot.maxClusters
          = Some k ->
          ScatterPlot.performClustering random this
          = match ScatterPlot.kmeans random k data with
            | DOM.Normal finalClusters =>
                DOM.Normal
                  (ScatterPlot.mkState data this.(ScatterPlot.options)
                     this.(ScatterPlot.chartGroup) finalClusters
                     this.(ScatterPlot.console))
            | DOM.Throw error => DOM.Throw error
            end).
Proof.
  intros random k data points drawn.
  split; [|split; [|split; [|split; [|split; [|split]]]]].
  - intros Hk Hdraws. unfold ScatterPlot.kmeans. fold points.
    destruct (pushRandomCentroid_total random points 0 k []) as [centroids0 Hinit].
    { intros i Hi. destruct (Hdraws i) as (c & index & Hfloor & Hc); [lia|]. eauto. }
    unfold DOM.for_upto. rewrite Hinit.
    apply pushRandomCentroid_loop in Hinit as (chosen & -> & Hlen & _).
    destruct (iterations_total k points 10 chosen [] Hk Hlen) as [[c10 clusters] Hrun].
    apply for_range_iterations with (from := 0) in Hrun.
    cbn [app]. rewrite Hrun. eauto.
  - intros clusters. unfold ScatterPlot.kmeans, DOM.for_upto. fold points.
    destruct (DOM.for_range 0 k _ []) as [centroids0|] eqn:Hinit; [|discriminate].
    destruct (DOM.for_range 0 10 _ _) as [[c10 final]|] eqn:Hrun; [|discriminate].
    intros H. inversion H; subst. clear H.
    apply pushRandomCentroid_loop in Hinit as (chosen & -> & Hlen & Hdrawn).
    exists chosen, c10. split; [exact Hlen|]. split.
    + intros i c Hc. exact (Hdrawn i c Hc).
    + now apply for_range_iterations in Hrun.
  - intros centroids old centroids' clusters Hstep.
    apply iteration_spec in Hstep as (Hlen & Hassigned & Hmeans).
    split; [exact Hlen|]. split; [exact Hassigned|]. split; [|exact Hmeans].
    intros point Hne. now apply nearestCentroid_is_nearest.
  - reflexivity.
  - reflexivity.
  - intros index rest cluster sum. subst cluster sum.
    unfold ScatterPlot.centroidOf. cbn [length Nat.eqb].
    assert (forall proj (l : list nat) acc,
               fold_left (fun sum index => PrimFloat.add sum
                                             (ScatterPlot.coordinate proj points index))
                         l acc
               = fold_left PrimFloat.add (map (ScatterPlot.coordinate proj points) l) acc)
      as Hfold.
    { intros proj l. induction l as [|a l IH]; intros acc; [reflexivity|].
      cbn [fold_left map]. apply IH. }
    now rewrite !Hfold.
  - intros this Hdata Hk. unfold ScatterPlot.performClustering.
    now rewrite Hk, Hdata.
Qed.

(** Four points in two groups, two clusters, draws 0.3 and 0.6: the
    centroids start at points 1 and 2, and ten runs end with the groups
    [[1, 3]] and [[0, 2]]. *)
Lemma kmeans_ten_fixed_iterations_witness :
  (exists clusters,
      ScatterPlot.kmeans Examples.alternating 2 Examples.two_groups
      = DOM.Normal clusters)
  /\ ScatterPlot.kmeans Examples.alternating 2 Examples.two_groups
     = DOM.Normal [[1; 3]; [0; 2]]
  /\ exists centroids0 centroids10,
       length centroids0 = 2
       /\ ScatterPlot.iterations 2
            (map (fun d => (d.(ScatterPlot.x), d.(ScatterPlot.y))) Examples.two_groups)
            10 (centroids0, []) (centroids10, [[1; 3]; [0; 2]]).
Proof.
  destruct (kmeans_ten_fixed_iterations Examples.alternating 2 Examples.two_groups)
    as (Hruns & Hresult & _).
  assert (ScatterPlot.kmeans Examples.alternating 2 Examples.two_groups
          = DOM.Normal [[1; 3]; [0; 2]]) as Hrun by (vm_compute; reflexivity).
  split; [|split; [exact Hrun|]].
  - apply Hruns; [lia|].
    intros i Hi. destruct i as [|[|i]]; [| |lia].
    + exists (10, 10)%float, 1. split; vm_compute; reflexivity.
    + exists (0, 1)%float, 2. split; vm_compute; reflexivity.
  - destruct (Hresult _ Hrun) as (c0 & c10 & Hlen & _ & Hiter).
    exists c0, c10. split; [exact Hlen | exact Hiter].
Defined.

(** * Further properties of the export manager *)

Section ExportExtras.
Import JS ExportManager.
Variable serializeToString : SVGElement -> string.
Variable shortest_digits : number -> string.
Variable JSON_stringify : list Types.Datum -> string.

Lemma Blob_eqb_refl b : Blob_eqb b b = true.
Proof. unfold Blob_eqb. now rewrite !String.eqb_refl. Qed.

Lemma release_head b live : release b (b :: live) = Some live.
Proof. cbn [release]. now rewrite Blob_eqb_refl. Qed.

Lemma urls_released_app live t1 t2 :
  urls_released live t1 = true -> urls_released [] t2 = true ->
  urls_released live (t1 ++ t2)%list = true.
Proof.
  intros H1 H2. revert live H1.
  induction t1 as [|e t1 IH]; intros live H1.
  - cbn in H1. destruct live; [exact H2 | discriminate].
  - destruct e; cbn [urls_released app] in *; auto.
    destruct (release b live); [auto | discriminate].
Qed.

Lemma exportPNG_urls config env :
  urls_released [] (effects (exportPNG serializeToString config env)) = true.
Proof.
  unfold exportPNG.
  destruct (context2d env), (svgElement env), (svgImageLoads env), (canvasBlob env);
    cbn [negb mbind Run_bind bind perform throw mret Run_ret ret effects fst app
         urls_released];
    rewrite ?release_head; reflexivity.
Qed.

Lemma downloadFile_urls c f m : urls_released [] (effects (downloadFile c f m)) = true.
Proof.
  unfold downloadFile.
  cbn [mbind Run_bind bind perform effects fst app urls_released].
  now rewrite release_head.
Qed.

Lemma bind_effects_fulfilled {A B} (m : Run A) (k : A -> Run B) a :
  outcome m = Fulfilled a ->
  effects (m ≫= k) = (effects m ++ effects (k a))%list
  /\ outcome (m ≫= k) = outcome (k a).
Proof.
  destruct m as [t [a'|msg]]; cbn; intros H; inversion H; subst.
  unfold mbind, Run_bind, bind. now destruct (k a).
Qed.

Lemma bind_rejected {A B} (m : Run A) (k : A -> Run B) msg :
  outcome m = Rejected msg ->
  m ≫= k = (effects m, Rejected msg).
Proof.
  destruct m as [t [a'|msg']]; cbn; intros H; inversion H; subst. reflexivity.
Qed.

Lemma exportPDF_urls config env :
  urls_released [] (effects (exportPDF serializeToString config env)) = true.
Proof.
  unfold exportPDF. destruct (jsPDF env) as [pdf|]; [|reflexivity].
  set (png := exportPNG serializeToString _ env).
  pose proof (exportPNG_urls
                (mkPNG None (Some (defaulting 800%float (pdf_width config)))
                       (Some (defaulting 600%float (pdf_height config))) None None)
                env) as Hpng.
  fold png in Hpng.
  destruct png as [t [pngBlob|msg]]; [|exact Hpng].
  cbn [effects fst] in Hpng.
  destruct (pngImage env) as [[img_width img_height]|];
    [destruct (raises pdf) as [error|];
     [|destruct (PrimFloat.ltb (pageWidth pdf / pageHeight pdf) (img_width / img_height))]|];
    cbn [mbind Run_bind bind perform throw mret Run_ret ret effects fst app];
    (apply urls_released_app; [exact Hpng|]);
    cbn [urls_released]; rewrite ?release_head; reflexivity.
Qed.

Lemma exportCSV_urls data filename :
  urls_released [] (effects (exportCSV shortest_digits data filename)) = true.
Proof.
  unfold exportCSV. destruct data as [|d0 rest]; [reflexivity|].
  destruct (truthy_string filename); [|reflexivity].
  set (csv := if Types.has_x d0 then _ else _).
  pose proof (downloadFile_urls csv (or_empty filename) "text/csv") as H.
  destruct (downloadFile csv (or_empty filename) "text/csv") as [t [[]|msg]] eqn:E;
    cbn in *; [now rewrite app_nil_r | exact H].
Qed.

Lemma exportJSON_urls data filename :
  urls_released [] (effects (exportJSON JSON_stringify data filename)) = true.
Proof.
  unfold exportJSON.
  destruct (truthy_string filename); [|reflexivity].
  pose proof (downloadFile_urls (JSON_stringify data) (or_empty filename)
                                "application/json") as H.
  destruct (downloadFile _ _ _) as [t [[]|msg]] eqn:E;
    cbn in *; [now rewrite app_nil_r | exact H].
Qed.



Lemma exportPDF_same_request c1 c2 env :
  pdf_width c1 = pdf_width c2 -> pdf_height c1 = pdf_height c2 ->
  title c1 = title c2 -> author c1 = author c2 ->
  exportPDF serializeToString c1 env = exportPDF serializeToString c2 env.
Proof.
  intros Hw Hh Ht Ha. unfold exportPDF. now rewrite Hw, Hh, Ht, Ha.
Qed.
End ExportExtras.

(** * Further properties of the clustering and of [render] *)

Section ClusterExtras.
Import JS DOM ScatterPlot.
Variable random : nat -> number.

Lemma for_range_last {V} (body : nat -> V -> Completion V) from n v v'' :
  for_range from (S n) body v = Normal v'' <->
  exists v', for_range from n body v = Normal v' /\ body (from + n) v' = Normal v''.
Proof.
  revert from v. induction n as [|n IH]; intros from v.
  - cbn. rewrite Nat.add_0_r. split.
    + destruct (body from v) as [v1|] eqn:E; [|discriminate].
      intros H. inversion H; subst. eauto.
    + intros (v' & H & Hb). inversion H; subst. now rewrite Hb.
  - change (for_range from (S (S n)) body v)
      with (match body from v with
            | Normal s' => for_range (S from) (S n) body s'
            | Throw e => Throw e
            end).
    change (for_range from (S n) body v)
      with (match body from v with
            | Normal s' => for_range (S from) n body s'
            | Throw e => Throw e
            end).
    destruct (body from v) as [v1|] eqn:E.
    + rewrite IH. replace (S from + n) with (from + S n) by lia. reflexivity.
    + split; [discriminate | intros (v' & H & _); discriminate].
Qed.

Lemma concat_insert_perm (clusters : list (list nat)) i c l :
  clusters !! i = Some c ->
  concat (<[i := (c ++ l)%list]> clusters) ≡ₚ (concat clusters ++ l)%list.
Proof.
  revert i. induction clusters as [|c0 rest IH]; intros [|i] H; cbn in H; try discriminate.
  - inversion H; subst. cbn. rewrite <- !app_assoc.
    apply Permutation_app_head, Permutation_app_comm.
  - cbn. rewrite (IH i H). now rewrite app_assoc.
Qed.

Lemma points_forEach_perm centroids points index clusters result :
  points_forEach centroids index points clusters = Normal result ->
  concat result ≡ₚ (concat clusters ++ seq index (length points))%list.
Proof.
  revert index clusters.
  induction points as [|point rest IH]; intros index clusters Hrun; cbn in Hrun.
  - inversion Hrun; subst. cbn. now rewrite app_nil_r.
  - destruct (clusters !! nearestCentroid centroids point) as [cluster0|] eqn:Hci;
      [|discriminate].
    apply IH in Hrun. rewrite Hrun.
    rewrite (concat_insert_perm _ _ _ [index] Hci).
    cbn [length seq]. now rewrite <- app_assoc.
Qed.

Lemma concat_replicate_nil {A} k : concat (replicate k (@nil A)) = [].
Proof. induction k; [reflexivity | exact IHk]. Qed.

Lemma assigned_from_bounds centroids index points j i :
  i ∈ assigned_from centroids index points j -> index <= i.
Proof.
  revert index. induction points as [|p rest IH]; intros index; cbn.
  - intros H. inversion H.
  - destruct (Nat.eqb _ j).
    + intros [->|H]%elem_of_cons; [lia|]. apply IH in H. lia.
    + intros H. apply IH in H. lia.
Qed.

Lemma assigned_from_sorted centroids index points j :
  StronglySorted lt (assigned_from centroids index points j).
Proof.
  revert index. induction points as [|p rest IH]; intros index; cbn.
  - constructor.
  - destruct (Nat.eqb _ j); [|apply IH].
    constructor; [apply IH|].
    apply Forall_forall. intros i Hi. apply assigned_from_bounds in Hi. lia.
Qed.

Lemma kmeans_last_run k data clusters :
  kmeans random k data = Normal clusters ->
  let points := map (fun d => (d.(x), d.(y))) data in
  exists centroids0 centroids9 clusters9 centroids10,
    iterations k points 9 (centroids0, []) (centroids9, clusters9)
    /\ iteration k points (centroids9, clusters9) = Normal (centroids10, clusters).
Proof.
  intros Hrun points. unfold kmeans, for_upto in Hrun. fold points in Hrun.
  destruct (for_range 0 k _ []) as [centroids0|] eqn:Hinit; [|discriminate].
  destruct (for_range 0 10 _ _) as [[c10 final]|] eqn:Hloop; [|discriminate].
  inversion Hrun; subst. clear Hrun.
  apply for_range_last in Hloop as ([c9 cl9] & H9 & Hlast).
  apply for_range_iterations in H9.
  eauto 10.
Qed.

(** X: partition *)
Lemma kmeans_partition k data clusters :
  kmeans random k data = Normal clusters ->
  length clusters = k
  /\ concat clusters ≡ₚ seq 0 (length data)
  /\ Forall (StronglySorted lt) clusters.
Proof.
  intros Hrun.
  destruct (kmeans_last_run k data clusters Hrun) as (c0 & c9 & cl9 & c10 & _ & Hlast).
  pose proof (iteration_spec _ _ _ _ _ _ Hlast) as (Hlen & Hassigned & _).
  split; [exact Hlen|]. split.
  - unfold iteration in Hlast.
    destruct (points_forEach c9 0 _ (replicate k [])) as [result|] eqn:Hfe; [|discriminate].
    inversion Hlast; subst. apply points_forEach_perm in Hfe.
    rewrite Hfe, concat_replicate_nil. cbn. now rewrite length_map.
  - apply Forall_forall. intros cluster [j Hj]%list_elem_of_lookup.
    pose proof (lookup_lt_Some _ _ _ Hj) as Hlt. rewrite Hlen in Hlt.
    rewrite (Hassigned j Hlt) in Hj. inversion Hj. apply assigned_from_sorted.
Qed.

(** membership in assigned_from *)
Lemma assigned_from_member centroids index points j i :
  existsb (Nat.eqb i) (assigned_from centroids index points j) = true <->
  exists p, index <= i /\ points !! (i - index) = Some p
            /\ nearestCentroid centroids p = j.
Proof.
  revert index. induction points as [|p rest IH]; intros index; cbn [assigned_from].
  - cbn. split; [discriminate | intros (p & _ & H & _); discriminate].
  - assert (existsb (Nat.eqb i) (assigned_from centroids (S index) rest j) = true <->
            exists p', S index <= i /\ (p :: rest) !! (i - index) = Some p'
                       /\ nearestCentroid centroids p' = j) as Htail.
    { rewrite IH. split; intros (p' & Hle & Hl & Hn); exists p'; (split; [lia|]); split; auto.
      - replace (i - index) with (S (i - S index)) by lia. exact Hl.
      - replace (i - index) with (S (i - S index)) in Hl by lia. exact Hl. }
    destruct (Nat.eqb_spec (nearestCentroid centroids p) j) as [Heq|Hne].
    + cbn [existsb]. rewrite orb_true_iff, Htail. split.
      * intros [Hi | (p' & Hle & Hl & Hn)].
        -- apply Nat.eqb_eq in Hi. subst i. exists p. rewrite Nat.sub_diag. auto.
        -- exists p'. split; [lia|]. auto.
      * intros (p' & Hle & Hl & Hn).
        destruct (Nat.eq_dec i index) as [->|Hd]; [left; apply Nat.eqb_refl|].
        right. exists p'. split; [lia|]. auto.
    + rewrite Htail. split.
      * intros (p' & Hle & Hl & Hn). exists p'. split; [lia|]. auto.
      * intros (p' & Hle & Hl & Hn).
        destruct (Nat.eq_dec i index) as [->|Hd].
        -- rewrite Nat.sub_diag in Hl. cbn in Hl. inversion Hl; subst. contradiction.
        -- exists p'. split; [lia|]. auto.
Qed.

Lemma getClusterIndex_from_found i0 clusters dataIndex j cluster :
  clusters !! j = Some cluster ->
  existsb (Nat.eqb dataIndex) cluster = true ->
  (forall j' c', j' < j -> clusters !! j' = Some c' ->
                 existsb (Nat.eqb dataIndex) c' = false) ->
  getClusterIndex_from i0 clusters dataIndex = i0 + j.
Proof.
  revert i0 j. induction clusters as [|c0 rest IH]; intros i0 [|j] Hj Hin Hbefore;
    cbn in Hj; try discriminate.
  - inversion Hj; subst. cbn. rewrite Hin. lia.
  - cbn. rewrite (Hbefore 0 c0); [|lia|reflexivity].
    rewrite (IH (S i0) j Hj Hin); [lia|].
    intros j' c' Hlt Hc'. apply (Hbefore (S j') c'); [lia | exact Hc'].
Qed.

Lemma points_forEach_in_range centroids points index clusters result :
  points_forEach centroids index points clusters = Normal result ->
  forall p, p ∈ points -> nearestCentroid centroids p < length clusters.
Proof.
  revert index clusters.
  induction points as [|point rest IH]; intros index clusters Hrun p Hp; cbn in Hrun.
  - inversion Hp.
  - destruct (clusters !! nearestCentroid centroids point) as [cluster0|] eqn:Hci;
      [|discriminate].
    apply elem_of_cons in Hp as [->|Hp].
    + now apply lookup_lt_Some in Hci.
    + pose proof (IH _ _ Hrun p Hp) as H. now rewrite length_insert in H.
Qed.

Lemma kmeans_cluster_lookup k data clusters :
  kmeans random k data = Normal clusters ->
  let points := map (fun d => (d.(x), d.(y))) data in
  exists centroids0 centroids9 clusters9,
    iterations k points 9 (centroids0, []) (centroids9, clusters9)
    /\ forall dataIndex p,
         points !! dataIndex = Some p ->
         getClusterIndex_from 0 clusters dataIndex = nearestCentroid centroids9 p
         /\ nearestCentroid centroids9 p < k.
Proof.
  intros Hrun points.
  destruct (kmeans_last_run k data clusters Hrun) as (c0 & c9 & cl9 & c10 & H9 & Hlast).
  exists c0, c9, cl9. split; [exact H9|].
  intros dataIndex p Hp.
  pose proof (iteration_spec _ _ _ _ _ _ Hlast) as (Hlen & Hassigned & _).
  assert (nearestCentroid c9 p < k) as Hrange.
  { unfold iteration in Hlast.
    destruct (points_forEach c9 0 _ (replicate k [])) as [result|] eqn:Hfe; [|discriminate].
    eapply points_forEach_in_range in Hfe.
    - rewrite length_replicate in Hfe. exact Hfe.
    - apply list_elem_of_lookup. eauto. }
  split; [|exact Hrange].
  rewrite (getClusterIndex_from_found 0 clusters dataIndex (nearestCentroid c9 p)
             (assigned_from c9 0 points (nearestCentroid c9 p))).
  - reflexivity.
  - now apply Hassigned.
  - apply assigned_from_member. exists p. rewrite Nat.sub_0_r. split; [lia|]. auto.
  - intros j' c' Hlt Hc'. rewrite Hassigned in Hc' by lia. inversion Hc'; subst.
    destruct (existsb _ _) eqn:E; [|reflexivity].
    apply assigned_from_member in E as (p' & _ & Hp' & Hn).
    rewrite Nat.sub_0_r in Hp'.
    pose proof (eq_trans (eq_sym Hp) Hp') as Heq. inversion Heq; subst. lia.
Qed.

(** X: k = 0 *)
Lemma kmeans_zero_clusters d rest :
  kmeans random 0 (d :: rest)
  = Throw "TypeError: Cannot read properties of undefined (reading 'push')".
Proof. reflexivity. Qed.
End ClusterExtras.

Section RenderExtras.
Import JS DOM ScatterPlot.
Variable random : nat -> number.
Variable scaleLinear : number * number -> number * number -> number -> number.

Lemma append_beside e this : beside_children (append e this) = beside_children this.
Proof. reflexivity. Qed.

Lemma renderTrendLine_beside xs ys this :
  beside_children (renderTrendLine xs ys this) = beside_children this.
Proof. unfold renderTrendLine. now destruct (bool_decide _). Qed.

Lemma renderClusterBoundaries_beside this :
  beside_children (renderClusterBoundaries this) = beside_children this.
Proof.
  unfold renderClusterBoundaries.
  generalize (match clustering (options this) with
              | Some c => clusterColors c
              | None => []
              end) as colors.
  intros colors. generalize (imap pair (clusters this)) as l. intros l.
  revert this. induction l as [|[i c] l IH]; intros this; [reflexivity|].
  cbn [fold_left]. rewrite IH. now destruct (2 <? length c)%nat.
Qed.

Lemma render_reads_no_children s1 s2 :
  beside_children s1 = beside_children s2 -> s1.(data) <> [] ->
  render random scaleLinear s1 = render random scaleLinear s2.
Proof.
  destruct s1 as [d1 o1 g1 c1 l1], s2 as [d2 o2 g2 c2 l2].
  unfold beside_children. cbn. intros H Hne. inversion H; subst.
  destruct d2 as [|d rest]; [contradiction|]. reflexivity.
Qed.

Lemma render_recomputes_clusters s1 s2 final :
  s1.(data) = s2.(data) -> s1.(options) = s2.(options) -> s1.(console) = s2.(console) ->
  s1.(data) <> [] ->
  truthy (s1.(options).(clustering) ≫= cl_enabled) = true ->
  kmeans random (clusterCount s1) s1.(data) = Normal final ->
  render random scaleLinear s1 = render random scaleLinear s2.
Proof.
  destruct s1 as [d1 o1 g1 c1 l1], s2 as [d2 o2 g2 c2 l2].
  unfold clusterCount. cbn. intros -> -> -> Hne Hen Hk.
  destruct d2 as [|d rest]; [contradiction|].
  destruct o2 as [w h m sg tl clo]. cbn [options clustering] in Hen, Hk.
  unfold render. cbn [data length Nat.eqb options with_chartGroup clustering showGrid].
  rewrite Hen. unfold performClustering.
  destruct sg;
  cbn [data options append with_chartGroup chartGroup clusters console clustering];
  rewrite Hk; reflexivity.
Qed.

Lemma render_beside this :
  this.(data) <> [] ->
  let after := (render random scaleLinear this).1 in
  after.(data) = this.(data) /\ after.(options) = this.(options)
  /\ after.(console) = this.(console)
  /\ (after.(clusters) = this.(clusters)
      \/ truthy (this.(options).(clustering) ≫= cl_enabled) = true
         /\ kmeans random (clusterCount this) this.(data) = Normal after.(clusters)).
Proof.
  destruct this as [d o g c l]. unfold clusterCount. cbn [data options]. intros Hne.
  destruct d as [|d0 rest]; [contradiction|].
  destruct o as [w h m sg tl clo].
  unfold render. cbn [data length Nat.eqb options with_chartGroup clustering showGrid
                      trendLine].
  set (xs := scaleLinear _ _). set (ys := scaleLinear _ _).
  destruct (truthy (clo ≫= cl_enabled)) eqn:Hen.
  - unfold performClustering.
    destruct sg;
      cbn [data options append with_chartGroup chartGroup clusters console clustering];
      (destruct (kmeans random _ (d0 :: rest)) as [final|error] eqn:Hk;
       [|cbn; repeat split; now left]);
      cbn [fst andb];
      match goal with |- context [if ?b then renderClusterBoundaries ?s else _] =>
        set (s1 := s); set (bb := b) end;
      (assert (beside_children s1
               = (d0 :: rest, mkOptions w h m _ tl clo, final, l)) as Hs1
          by (subst s1; destruct (truthy (tl ≫= tl_enabled));
              [rewrite renderTrendLine_beside|]; reflexivity));
      (assert (beside_children (if bb then renderClusterBoundaries s1 else s1)
               = (d0 :: rest, mkOptions w h m _ tl clo, final, l)) as Hfin
          by (destruct bb; [rewrite renderClusterBoundaries_beside|]; exact Hs1));
      unfold beside_children in Hfin; inversion Hfin as [[H1 H2 H3 H4]];
      rewrite H1, H2, H4; repeat split; right; (split; [reflexivity|]);
      rewrite H3; reflexivity.
  - cbn [andb fst].
    match goal with |- context [if ?b then renderTrendLine ?a1 ?a2 ?s else _] =>
      set (s0 := s); set (tt' := b) end.
    assert (beside_children s0 = (d0 :: rest, mkOptions w h m sg tl clo, c, l)) as Hs0
        by (subst s0; now destruct sg).
    assert (beside_children (if tt' then renderTrendLine xs ys s0 else s0)
            = (d0 :: rest, mkOptions w h m sg tl clo, c, l)) as Hfin
        by (destruct tt'; [rewrite renderTrendLine_beside|]; exact Hs0).
    unfold beside_children in Hfin. inversion Hfin as [[H1 H2 H3 H4]].
    rewrite H1, H2, H3, H4. repeat split. now left.
Qed.

Lemma renderClusterBoundaries_children this :
  exists paths,
    chartGroup (renderClusterBoundaries this) = (chartGroup this ++ paths)%list
    /\ forallb (hasTag "path") paths = true
    /\ 3 * length paths <= length (concat this.(clusters)).
Proof.
  unfold renderClusterBoundaries.
  generalize (match clustering (options this) with
              | Some c => clusterColors c
              | None => []
              end) as colors.
  intros colors.
  assert (forall (l : list (nat * list nat)) this,
             exists paths,
               chartGroup
                 (fold_left
                    (fun this '(clusterIndex, cluster) =>
                       if (2 <? length cluster)%nat then
                         append
                           (mkElement "path" EmptyString
                              [("fill", Str "none");
                               ("stroke", Str (string_or (colors !! (clusterIndex mod length colors)%nat)
                                                         "#3B82F6"));
                               ("stroke-width", Num 1%float);
                               ("opacity", Num 0.5%float);
                               ("stroke-dasharray", Str "3,3")]%string)
                           this
                       else this) l this)
               = (chartGroup this ++ paths)%list
               /\ forallb (hasTag "path") paths = true
               /\ 3 * length paths <= length (concat (map snd l))) as Hfold.
  { induction l as [|[i c] l IH]; intros s.
    - exists []. cbn. now rewrite app_nil_r.
    - cbn [fold_left map snd concat]. rewrite length_app.
      destruct (2 <? length c)%nat eqn:Hc.
      + match goal with
        | |- context [fold_left _ l ?s'] =>
            destruct (IH s') as (paths & Hg & Hp & Hn)
        end.
        eexists (_ :: paths). split; [|split].
        * rewrite Hg. cbn. now rewrite <- app_assoc.
        * cbn. exact Hp.
        * apply Nat.ltb_lt in Hc. cbn [length]. lia.
      + destruct (IH s) as (paths & Hg & Hp & Hn).
        exists paths. split; [exact Hg|]. split; [exact Hp|]. lia. }
  destruct (Hfold (imap pair (clusters this)) this) as (paths & Hg & Hp & Hn).
  exists paths. split; [exact Hg|]. split; [exact Hp|].
  assert (forall (l : list (list nat)) (f : nat -> nat),
             map snd (imap (fun i c => (f i, c)) l) = l) as Himap.
  { induction l as [|c l IH]; intros f; [reflexivity|].
    cbn. f_equal. apply (IH (f ∘ S)). }
  now rewrite (Himap _ id) in Hn.
Qed.


Lemma render_stages this :
  this.(data) <> [] ->
  let o := this.(options) in
  let drawn clusters :=
    mkState this.(data) o
            (axesAndGrid o ++ map (pointElement (xScaleOf scaleLinear this) (yScaleOf scaleLinear this)) this.(data))%list
            clusters this.(console) in
  let withTrend s :=
    if truthy (o.(trendLine) ≫= tl_enabled)
    then renderTrendLine (xScaleOf scaleLinear this) (yScaleOf scaleLinear this) s else s in
  render random scaleLinear this
  = if truthy (o.(clustering) ≫= cl_enabled) then
      match kmeans random (clusterCount this) this.(data) with
      | Throw error => (with_chartGroup (axesAndGrid o) this, Throw error)
      | Normal final =>
          (if truthy (o.(clustering) ≫= showClusterBoundaries)
           then renderClusterBoundaries (withTrend (drawn final))
           else withTrend (drawn final),
           Normal tt)
      end
    else (withTrend (drawn this.(clusters)), Normal tt).
Proof.
  destruct this as [d o g c l]. cbn [data options]. intros Hne.
  destruct d as [|d0 rest]; [contradiction|].
  destruct o as [w h m sg tl clo].
  unfold render, xScaleOf, yScaleOf, clusterCount, axesAndGrid, performClustering.
  cbn [data length Nat.eqb options with_chartGroup clustering showGrid
       trendLine width height margin console clusters].
  destruct (truthy (clo ≫= cl_enabled)) eqn:Hen.
  - destruct sg;
      cbn [data options append with_chartGroup chartGroup clusters console clustering app];
      (destruct (kmeans random _ (d0 :: rest)) as [final|error]; [|reflexivity]);
      cbn [andb]; reflexivity.
  - destruct sg; reflexivity.
Qed.

Lemma filter_other_tag t1 t2 (l : list Element) :
  forallb (hasTag t1) l = true -> t1 <> t2 -> List.filter (hasTag t2) l = [].
Proof.
  intros Hall Hne. induction l as [|e l IH]; [reflexivity|].
  cbn in Hall. apply andb_true_iff in Hall as [He Hl]. cbn.
  unfold hasTag in He |- *. apply String.eqb_eq in He.
  destruct (String.eqb_spec (tagName e) t2) as [Heq|_]; [congruence | auto].
Qed.

Lemma filter_same_tag t (l : list Element) :
  forallb (hasTag t) l = true -> List.filter (hasTag t) l = l.
Proof.
  intros Hall. induction l as [|e l IH]; [reflexivity|].
  cbn in Hall. apply andb_true_iff in Hall as [He Hl]. cbn. rewrite He.
  now rewrite IH.
Qed.

Lemma points_are_circles xs ys (data : list ScatterData) :
  forallb (hasTag "circle") (map (pointElement xs ys) data) = true.
Proof. induction data as [|d data IH]; [reflexivity | exact IH]. Qed.

Lemma axesAndGrid_are_groups o : forallb (hasTag "g") (axesAndGrid o) = true.
Proof. unfold axesAndGrid. now destruct (showGrid o). Qed.

Lemma tagged_drawn t o xs ys (data : list ScatterData) :
  List.filter (hasTag t) (axesAndGrid o ++ map (pointElement xs ys) data)%list
  = if String.eqb t "circle" then map (pointElement xs ys) data else
      if String.eqb t "g" then axesAndGrid o else [].
Proof.
  rewrite List.filter_app.
  destruct (String.eqb_spec t "circle") as [->|Hc].
  - rewrite (filter_other_tag "g" "circle" (axesAndGrid o))
      by (apply axesAndGrid_are_groups || discriminate).
    now rewrite filter_same_tag by apply points_are_circles.
  - rewrite (filter_other_tag "circle" t (map (pointElement xs ys) data));
      [|apply points_are_circles | intros Heq; now apply Hc].
    rewrite app_nil_r.
    destruct (String.eqb_spec t "g") as [->|Hg].
    + apply filter_same_tag, axesAndGrid_are_groups.
    + apply (filter_other_tag "g");
        [apply axesAndGrid_are_groups | intros Heq; now apply Hg].
Qed.


Lemma tagged_renderClusterBoundaries t this :
  t <> "path" ->
  List.filter (hasTag t) (chartGroup (renderClusterBoundaries this))
  = List.filter (hasTag t) (chartGroup this).
Proof.
  intros Hne. destruct (renderClusterBoundaries_children this) as (paths & -> & Htag & _).
  rewrite List.filter_app, (filter_other_tag "path" t paths);
    [apply app_nil_r | assumption | intros Heq; now apply Hne].
Qed.



Lemma trendLines_hasTag this :
  trendLines this = List.filter (hasTag "line") (chartGroup this).
Proof. reflexivity. Qed.

Lemma renderTrendLine_lines xs ys this :
  length (trendLines (renderTrendLine xs ys this))
  = length (trendLines this)
    + (if bool_decide (this.(options).(trendLine) ≫= tl_type = Some "linear")
       then 1 else 0).
Proof.
  unfold renderTrendLine. destruct (bool_decide _); [|lia].
  unfold trendLines, append. cbn [chartGroup with_chartGroup].
  rewrite List.filter_app, length_app. reflexivity.
Qed.

(** How many trend lines [render] leaves in the chart group. *)
Lemma render_trendLines this :
  this.(data) <> [] ->
  length (trendLines (render random scaleLinear this).1)
  = match (render random scaleLinear this).2 with
    | Normal _ =>
        if truthy (this.(options).(trendLine) ≫= tl_enabled)
           && bool_decide (this.(options).(trendLine) ≫= tl_type = Some "linear")
        then 1 else 0
    | Throw _ => 0
    end.
Proof.
  intros Hne. rewrite (render_stages this Hne).
  assert (forall cl,
             length (trendLines
                       (if truthy (trendLine (options this) ≫= tl_enabled)
                        then renderTrendLine (xScaleOf scaleLinear this) (yScaleOf scaleLinear this)
                               (mkState (data this) (options this)
                                  (axesAndGrid (options this)
                                   ++ map (pointElement (xScaleOf scaleLinear this) (yScaleOf scaleLinear this))
                                        (data this))%list cl (console this))
                        else mkState (data this) (options this)
                               (axesAndGrid (options this)
                                ++ map (pointElement (xScaleOf scaleLinear this) (yScaleOf scaleLinear this))
                                     (data this))%list cl (console this)))
             = if truthy (trendLine (options this) ≫= tl_enabled)
                  && bool_decide (trendLine (options this) ≫= tl_type = Some "linear")
               then 1 else 0) as Htrend.
  { intros cl. destruct (truthy _); cbn [andb].
    - rewrite renderTrendLine_lines. cbn [options].
      rewrite trendLines_hasTag. cbn [chartGroup]. rewrite tagged_drawn. reflexivity.
    - rewrite trendLines_hasTag. cbn [chartGroup]. now rewrite tagged_drawn. }
  destruct (truthy (_ ≫= cl_enabled)).
  - destruct (kmeans random _ _) as [final|error]; cbn [fst snd].
    + destruct (truthy (_ ≫= showClusterBoundaries)); [|apply Htrend].
      rewrite trendLines_hasTag, tagged_renderClusterBoundaries by discriminate.
      rewrite <- trendLines_hasTag. apply Htrend.
    + rewrite trendLines_hasTag. cbn [with_chartGroup chartGroup].
      rewrite (filter_other_tag "g"); [reflexivity | apply axesAndGrid_are_groups | discriminate].
  - cbn [fst snd]. apply Htrend.
Qed.

Lemma enableTrendLine_render enabled this :
  enableTrendLine random scaleLinear enabled this
  = render random scaleLinear (withTrendLine enabled this).
Proof. reflexivity. Qed.

Lemma enableClustering_render enabled this :
  enableClustering random scaleLinear enabled this
  = render random scaleLinear (withClustering enabled this).
Proof. reflexivity. Qed.

Lemma enableClustering_without_clusters this c :
  this.(data) <> [] ->
  this.(options).(clustering) = Some c ->
  (c.(maxClusters) = Some 0 \/ c.(maxClusters) = None) ->
  enableClustering random scaleLinear true this
  = (with_chartGroup (axesAndGrid this.(options)) (withClustering true this),
     Throw "TypeError: Cannot read properties of undefined (reading 'push')").
Proof.
  intros Hne Hc Hk. rewrite enableClustering_render.
  rewrite render_stages by exact Hne.
  unfold clusterCount, withClustering. cbn [options clustering data]. rewrite Hc.
  cbn [mbind option_bind cl_enabled maxClusters truthy].
  assert (match maxClusters c with Some k => k | None => 0 end = 0) as ->
      by (destruct Hk as [-> | ->]; reflexivity).
  destruct (data this) as [|d rest]; [contradiction|].
  reflexivity.
Qed.
End RenderExtras.

(** * Selection and the pie chart *)

Section SelectionExtras.
Import JS DOM ScatterPlot.

Lemma Set_has_In s v : Set_has s v = true <-> In v s.
Proof.
  unfold Set_has. rewrite existsb_exists. split.
  - intros (u & Hu & He). apply Nat.eqb_eq in He. now subst.
  - intros H. exists v. split; [exact H | apply Nat.eqb_refl].
Qed.

Lemma Set_has_delete s v u :
  Set_has (Set_delete s v) u = Set_has s u && negb (Nat.eqb u v).
Proof.
  apply eq_true_iff_eq. rewrite andb_true_iff, !Set_has_In. unfold Set_delete.
  rewrite List.filter_In. reflexivity.
Qed.

Lemma Set_has_add s v u :
  Set_has (Set_add s v) u = Set_has s u || Nat.eqb u v.
Proof.
  apply eq_true_iff_eq. rewrite orb_true_iff, Nat.eqb_eq. unfold Set_add.
  destruct (Set_has s v) eqn:Hv.
  - rewrite !Set_has_In. apply Set_has_In in Hv. split; [auto|].
    intros [H| ->]; auto.
  - rewrite !Set_has_In, in_app_iff. cbn. intuition congruence.
Qed.

Lemma Set_delete_NoDup s v : List.NoDup s -> List.NoDup (Set_delete s v).
Proof. apply List.NoDup_filter. Qed.

Lemma Set_add_NoDup s v : List.NoDup s -> List.NoDup (Set_add s v).
Proof.
  intros Hs. unfold Set_add. destruct (Set_has s v) eqn:Hv; [exact Hs|].
  apply NoDup_ListNoDup, NoDup_app. split; [now apply NoDup_ListNoDup|]. split.
  - intros u Hu [->|H]%elem_of_cons; [|inversion H].
    apply list_elem_of_In, Set_has_In in Hu. congruence.
  - apply NoDup_singleton.
Qed.

Lemma clickPoint_NoDup m s i : List.NoDup s -> List.NoDup (clickPoint m s i).
Proof.
  intros Hs. unfold clickPoint. destruct (Set_has s i).
  - now apply Set_delete_NoDup.
  - apply Set_add_NoDup. destruct (negb (truthy m)); [constructor | exact Hs].
Qed.

Lemma clickPoint_toggles m s i :
  Set_has (clickPoint m s i) i = negb (Set_has s i).
Proof.
  unfold clickPoint. destruct (Set_has s i) eqn:Hi.
  - rewrite Set_has_delete, Nat.eqb_refl. now rewrite andb_false_r.
  - rewrite Set_has_add, Nat.eqb_refl. now rewrite orb_true_r.
Qed.

Lemma clickPoint_others_multi m s i j :
  truthy m = true -> j <> i -> Set_has (clickPoint m s i) j = Set_has s j.
Proof.
  intros Hm Hne. unfold clickPoint. rewrite Hm. cbn [negb].
  apply Nat.eqb_neq in Hne.
  destruct (Set_has s i).
  - rewrite Set_has_delete, Hne. now rewrite andb_true_r.
  - rewrite Set_has_add, Hne. now rewrite orb_false_r.
Qed.

Lemma clickPoint_single m s i :
  truthy m = false ->
  clickPoint m s i = if Set_has s i then Set_delete s i else [i].
Proof. intros Hm. unfold clickPoint. rewrite Hm. now destruct (Set_has s i). Qed.

Lemma Set_delete_length s v : length (Set_delete s v) <= length s.
Proof. apply List.filter_length_le. Qed.

Lemma clickPoint_single_size m s i :
  truthy m = false -> length s <= 1 -> length (clickPoint m s i) <= 1.
Proof.
  intros Hm Hs. rewrite clickPoint_single by exact Hm.
  destruct (Set_has s i); [|cbn; lia].
  pose proof (Set_delete_length s i). lia.
Qed.

Lemma Set_delete_absent s v : Set_has s v = false -> Set_delete s v = s.
Proof.
  intros Hv. unfold Set_delete. induction s as [|u s IH]; [reflexivity|].
  cbn in Hv. apply orb_false_iff in Hv as [Hu Hs]. cbn.
  rewrite Nat.eqb_sym, Hu. cbn. now rewrite IH.
Qed.

Lemma Set_delete_add_perm s v :
  List.NoDup s -> Set_has s v = true -> (Set_delete s v ++ [v])%list ≡ₚ s.
Proof.
  intros Hs Hv. induction s as [|u s IH]; [discriminate|].
  inversion Hs as [|? ? Hu Hs']; subst. cbn in Hv. unfold Set_delete. cbn.
  destruct (Nat.eqb_spec u v) as [->|Hne].
  - cbn. fold (Set_delete s v). rewrite Set_delete_absent.
    + symmetry. apply Permutation_cons_append.
    + destruct (Set_has s v) eqn:E; [|reflexivity]. apply Set_has_In in E. contradiction.
  - cbn. fold (Set_delete s v). constructor. apply IH; [exact Hs'|].
    apply orb_true_iff in Hv as [Hv|Hv]; [|exact Hv].
    apply Nat.eqb_eq in Hv. congruence.
Qed.

Lemma clickPoint_twice m s i :
  truthy m = true -> List.NoDup s ->
  clickPoint m (clickPoint m s i) i ≡ₚ s.
Proof.
  intros Hm Hs. unfold clickPoint at 1. rewrite clickPoint_toggles.
  unfold clickPoint. rewrite Hm. cbn [negb].
  destruct (Set_has s i) eqn:Hi; cbn [negb].
  - unfold Set_add. rewrite Set_has_delete, Nat.eqb_refl, andb_false_r.
    now apply Set_delete_add_perm.
  - unfold Set_add. rewrite Hi.
    unfold Set_delete. rewrite List.filter_app. cbn. rewrite Nat.eqb_refl. cbn.
    rewrite app_nil_r. fold (Set_delete s i). now rewrite Set_delete_absent.
Qed.

Lemma clickPoint_in_range m s i n :
  Forall (fun u => u < n) s -> i < n -> Forall (fun u => u < n) (clickPoint m s i).
Proof.
  intros Hs Hi. apply Forall_forall. intros u Hu.
  apply list_elem_of_In, Set_has_In in Hu.
  destruct (Nat.eq_dec u i) as [->|Hne]; [exact Hi|].
  unfold clickPoint in Hu. destruct (Set_has s i).
  - rewrite Set_has_delete in Hu. apply andb_true_iff in Hu as [Hu _].
    apply Set_has_In, list_elem_of_In in Hu. rewrite Forall_forall in Hs. auto.
  - rewrite Set_has_add in Hu. apply orb_true_iff in Hu as [Hu|Hu].
    + destruct (negb (truthy m)); [discriminate|].
      apply Set_has_In, list_elem_of_In in Hu. rewrite Forall_forall in Hs. auto.
    + apply Nat.eqb_eq in Hu. contradiction.
Qed.

Lemma getSelectedPoints_defined (data : list ScatterData) s :
  Forall (fun u => u < length data) s ->
  Forall (fun p => is_Some p) (getSelectedPoints data s)
  /\ length (getSelectedPoints data s) = length s.
Proof.
  intros Hs. unfold getSelectedPoints. split; [|apply length_map].
  apply Forall_map. eapply Forall_impl; [exact Hs|].
  intros u Hu. now apply lookup_lt_is_Some_2.
Qed.
End SelectionExtras.

Section PieExtras.
Import JS DOM PieChart.

Lemma nan_not_below_zero (v : number) :
  PrimFloat.is_nan v = true -> PrimFloat.leb v 0 = false.
Proof.
  intros Hn. rewrite leb_spec. unfold Prim2SF at 1. now rewrite Hn.
Qed.

Lemma pie_render_drawn this :
  this.(data) <> [] ->
  PrimFloat.leb (totalValue this.(data)) 0 = false ->
  render this
  = mkState this.(data) this.(options)
      (slices this.(data)
       ++ (if this.(options).(labelsEnabled) then labelElements this.(data) else []))%list
      (if this.(options).(legend) then legendItems this.(data) else [])
      this.(console).
Proof.
  intros Hne Htotal. unfold render. destruct (data this) as [|d rest] eqn:Hd; [contradiction|].
  cbn [length Nat.eqb]. rewrite Htotal.
  destruct (labelsEnabled (options this)); [reflexivity|]. now rewrite app_nil_r.
Qed.
End PieExtras.

(** ** The export manager: object URLs, outcomes, and the shape of the CSV text *)

Section ExportManagerProperties.
Import JS ExportManager.
Variable serializeToString : SVGElement -> string.
Variable shortest_digits : number -> string.
Variable JSON_stringify : list Types.Datum -> string.

Lemma count_char_append c (a b : string) :
  count_char c (a +:+ b) = count_char c a + count_char c b.
Proof.
  induction a as [|ch a IH]; [reflexivity|].
  change (count_char c (String ch (a +:+ b))
          = count_char c (String ch a) + count_char c b).
  cbn [count_char]. rewrite IH. lia.
Qed.

Lemma list_sum_cons n l : list_sum (n :: l) = n + list_sum l.
Proof. reflexivity. Qed.

Lemma rows_count c row data :
  count_char c (rows row data)
  = list_sum (map (fun d => count_char c (row d)) data).
Proof.
  induction data as [|d data IH]; [reflexivity|].
  cbn [rows foldr map]. rewrite list_sum_cons, count_char_append.
  now rewrite <- IH.
Qed.

Lemma scatterRow_count c d :
  count_char c (scatterRow shortest_digits d)
  = list_sum (map (count_char c) (scatterFields shortest_digits d))
    + 3 * count_char c "," + count_char c LF.
Proof.
  unfold scatterRow, scatterFields. rewrite !count_char_append.
  cbn [map]. rewrite !list_sum_cons. cbn [list_sum fold_right]. lia.
Qed.

Lemma chartRow_count c d :
  count_char c (chartRow shortest_digits d)
  = list_sum (map (count_char c) (chartFields shortest_digits d))
    + 2 * count_char c "," + count_char c LF.
Proof.
  unfold chartRow, chartFields. rewrite !count_char_append.
  cbn [map]. rewrite !list_sum_cons. cbn [list_sum fold_right]. lia.
Qed.

Lemma list_sum_rows (f : Types.Datum -> nat) a data :
  list_sum (map (fun d => f d + a) data) = list_sum (map f data) + a * length data.
Proof.
  induction data as [|d data IH]; cbn [map length]; [cbn; lia|].
  rewrite !list_sum_cons, IH. lia.
Qed.

Lemma plain_fields_count (fields : Types.Datum -> list string) data :
  Forall (fun d => forallb plain (fields d) = true) data ->
  list_sum (map (fun d => list_sum (map (count_char comma) (fields d))) data) = 0
  /\ list_sum (map (fun d => list_sum (map (count_char linefeed) (fields d))) data) = 0.
Proof.
  assert (forall l, forallb plain l = true ->
                    list_sum (map (count_char comma) l) = 0
                    /\ list_sum (map (count_char linefeed) l) = 0) as Hrow.
  { induction l as [|f l IH]; [now split|].
    cbn [forallb map]. rewrite !list_sum_cons. intros H.
    apply andb_prop in H as [Hf Hl]. unfold plain in Hf.
    apply andb_prop in Hf as [Hc Hn].
    apply Nat.eqb_eq in Hc, Hn. destruct (IH Hl) as [IHc IHn].
    rewrite Hc, Hn, IHc, IHn. now split. }
  induction 1 as [|d data Hd _ [IHc IHn]]; [now split|].
  cbn [map]. rewrite !list_sum_cons.
  destruct (Hrow _ Hd) as [Hc Hn]. rewrite Hc, Hn, IHc, IHn. now split.
Qed.

(** X1. Every export releases the object URLs it creates: in the calls of
    [exportPNG], [exportPDF], [exportCSV] and [exportJSON], whatever the
    browser answers and however the call ends, [URL.revokeObjectURL] is only
    called on a URL that is live and no URL is left live at the end;
    [exportSVG] creates none (it makes no call at all). *)
Theorem exports_release_their_object_urls
        (pngConfig : PNGExportConfig) (svgConfig : SVGExportConfig)
        (pdfConfig : PDFExportConfig) (env : Browser)
        (data : list Types.Datum) (filename : optional string) :
  urls_released [] (effects (exportPNG serializeToString pngConfig env)) = true
  /\ urls_released [] (effects (exportPDF serializeToString pdfConfig env)) = true
  /\ urls_released [] (effects (exportCSV shortest_digits data filename)) = true
  /\ urls_released [] (effects (exportJSON JSON_stringify data filename)) = true
  /\ effects (exportSVG serializeToString svgConfig env) = [].
Proof.
  repeat split.
  - apply exportPNG_urls.
  - apply exportPDF_urls.
  - apply exportCSV_urls.
  - apply exportJSON_urls.
  - unfold exportSVG. now destruct (svgElement env).
Qed.



(** X4. [exportPDF] reads four fields of its request and no other: two
    requests with the same [width], [height], [title] and [author] make the
    same calls with the same arguments and end the same way, whatever their
    [filename], [backgroundColor], [quality] and [subject] are.  In
    particular the PNG that goes into the PDF is always drawn on white. *)
Theorem exportPDF_reads_size_title_author (c1 c2 : PDFExportConfig) (env : Browser) :
  pdf_width c1 = pdf_width c2 -> pdf_height c1 = pdf_height c2 ->
  title c1 = title c2 -> author c1 = author c2 ->
  exportPDF serializeToString c1 env = exportPDF serializeToString c2 env
  /\ forall colour,
       In (FillStyle colour) (effects (exportPDF serializeToString c1 env)) ->
       colour = "white".
Proof.
  intros Hw Hh Ht Ha. split; [now apply exportPDF_same_request|].
  intros colour. unfold exportPDF.
  destruct (jsPDF env) as [pdf|]; [|intros []].
  unfold exportPNG. cbn [png_backgroundColor png_width png_height png_quality defaulting].
  destruct (context2d env), (svgElement env) as [svg|], (svgImageLoads env),
    (canvasBlob env) as [b|], (pngImage env) as [[w h]|], (raises pdf) as [e|];
    cbn [negb mbind Run_bind bind perform throw mret Run_ret ret effects fst app];
    try (destruct (PrimFloat.ltb _ _));
    cbn [negb mbind Run_bind bind perform throw mret Run_ret ret effects fst app In];
    intros H; repeat (destruct H as [H|H]; [try discriminate; inversion H; reflexivity|]);
    try contradiction.
Qed.

(** X5. [exportCSV] writes its fields as they are, with no quoting.  For a
    non-empty array the text has one line feed per line (the header and one
    line per record) plus those inside the printed fields, and per line two
    commas (label/value shape) or three (x/y shape) plus those inside the
    printed fields.  So when no printed field holds a comma or a line feed
    the text is a table of [length data + 1] lines of 3 or 4 columns, and
    every comma inside a label or colour adds a column to its line. *)
Theorem exportCSV_separator_counts (d0 : Types.Datum) (rest : list Types.Datum)
        (filename : optional string) :
  exists text fields,
    outcome (exportCSV shortest_digits (d0 :: rest) filename) = Fulfilled text
    /\ fields = (if Types.has_x d0 then scatterFields shortest_digits
                 else chartFields shortest_digits)
    /\ count_char linefeed text
       = S (length (d0 :: rest))
         + list_sum (map (fun d => list_sum (map (count_char linefeed) (fields d)))
                         (d0 :: rest))
    /\ count_char comma text
       = (if Types.has_x d0 then 3 else 2) * S (length (d0 :: rest))
         + list_sum (map (fun d => list_sum (map (count_char comma) (fields d)))
                         (d0 :: rest))
    /\ (Forall (fun d => forallb plain (fields d) = true) (d0 :: rest) ->
        count_char linefeed text = S (length (d0 :: rest))
        /\ count_char comma text = (if Types.has_x d0 then 3 else 2) * S (length (d0 :: rest))).
Proof.
  eexists. eexists. split; [apply exportCSV_nonempty|]. split; [reflexivity|].
  assert (count_char linefeed "," = 0 /\ count_char linefeed LF = 1
          /\ count_char comma "," = 1 /\ count_char comma LF = 0) as (Ha & Hb & Hc & Hd)
      by (repeat split; reflexivity).
  destruct (Types.has_x d0).
  - assert (forall c, count_char c (("X,Y,Label,Color" +:+ LF)
                                   +:+ rows (scatterRow shortest_digits) (d0 :: rest))
                      = count_char c ("X,Y,Label,Color" +:+ LF)
                        + (list_sum (map (fun d => list_sum
                                            (map (count_char c)
                                                 (scatterFields shortest_digits d)))
                                         (d0 :: rest))
                           + (3 * count_char c "," + count_char c LF)
                             * length (d0 :: rest))) as Hcount.
    { intros c. rewrite count_char_append, rows_count. f_equal.
      rewrite <- list_sum_rows. f_equal. apply map_ext. intros d.
      rewrite scatterRow_count. lia. }
    assert (count_char linefeed ("X,Y,Label,Color" +:+ LF) = 1) as Hh1 by reflexivity.
    assert (count_char comma ("X,Y,Label,Color" +:+ LF) = 3) as Hh2 by reflexivity.
    pose proof (Hcount linefeed) as Hl. pose proof (Hcount comma) as Hk.
    rewrite Ha, Hb, Hh1 in Hl. rewrite Hc, Hd, Hh2 in Hk. cbn [length] in Hl, Hk.
    cbv iota. cbn [length].
    split; [rewrite Hl; lia|]. split; [rewrite Hk; lia|].
    intros Hplain. destruct (plain_fields_count _ _ Hplain) as [H0c H0l].
    rewrite Hl, Hk, H0c, H0l. lia.
  - assert (forall c, count_char c (("Label,Value,Color" +:+ LF)
                                   +:+ rows (chartRow shortest_digits) (d0 :: rest))
                      = count_char c ("Label,Value,Color" +:+ LF)
                        + (list_sum (map (fun d => list_sum
                                            (map (count_char c)
                                                 (chartFields shortest_digits d)))
                                         (d0 :: rest))
                           + (2 * count_char c "," + count_char c LF)
                             * length (d0 :: rest))) as Hcount.
    { intros c. rewrite count_char_append, rows_count. f_equal.
      rewrite <- list_sum_rows. f_equal. apply map_ext. intros d.
      rewrite chartRow_count. lia. }
    assert (count_char linefeed ("Label,Value,Color" +:+ LF) = 1) as Hh1 by reflexivity.
    assert (count_char comma ("Label,Value,Color" +:+ LF) = 2) as Hh2 by reflexivity.
    pose proof (Hcount linefeed) as Hl. pose proof (Hcount comma) as Hk.
    rewrite Ha, Hb, Hh1 in Hl. rewrite Hc, Hd, Hh2 in Hk. cbn [length] in Hl, Hk.
    cbv iota. cbn [length].
    split; [rewrite Hl; lia|]. split; [rewrite Hk; lia|].
    intros Hplain. destruct (plain_fields_count _ _ Hplain) as [H0c H0l].
    rewrite Hl, Hk, H0c, H0l. lia.
Qed.
End ExportManagerProperties.

(** ** The clusters of the scatter plot *)

Section ClusterProperties.
Import JS DOM ScatterPlot.
Variable random : nat -> number.

Lemma getClusterIndex_from_member i0 (clusters : list (list nat)) dataIndex :
  dataIndex ∈ concat clusters ->
  exists j cluster,
    getClusterIndex_from i0 clusters dataIndex = i0 + j
    /\ clusters !! j = Some cluster /\ dataIndex ∈ cluster.
Proof.
  revert i0. induction clusters as [|c clusters IH]; intros i0 Hin.
  - cbn in Hin. now apply elem_of_nil in Hin.
  - cbn [getClusterIndex_from].
    destruct (existsb (Nat.eqb dataIndex) c) eqn:Hex.
    + exists 0, c. split; [lia|]. split; [reflexivity|].
      apply existsb_exists in Hex as (u & Hu & Heq).
      apply Nat.eqb_eq in Heq. subst u. now apply list_elem_of_In.
    + cbn [concat] in Hin. apply elem_of_app in Hin as [Hin|Hin].
      * assert (existsb (Nat.eqb dataIndex) c = true) as Hyes.
        { apply existsb_exists. exists dataIndex.
          split; [now apply list_elem_of_In | apply Nat.eqb_refl]. }
        congruence.
      * destruct (IH (S i0) Hin) as (j & cluster & Hj & Hl & Hm).
        exists (S j), cluster. split; [lia|]. split; assumption.
Qed.

(** X6. What [performClustering] stores in [this.clusters] is a partition
    of the point indices: whenever the k-means run returns, it returns
    exactly [k] clusters, every index [0 .. data.length - 1] occurs in
    exactly one place of them (the clusters laid end to end are a
    rearrangement of the indices), and inside a cluster the indices
    ascend. *)
Theorem kmeans_partitions_the_points (k : nat) (data : list ScatterData)
        (clusters : list (list nat)) :
  kmeans random k data = Normal clusters ->
  length clusters = k
  /\ concat clusters ≡ₚ seq 0 (length data)
  /\ Forall (StronglySorted lt) clusters
  /\ (data <> [] -> 0 < k).
Proof.
  intros Hrun. destruct (kmeans_partition random k data clusters Hrun) as (Hk & Hperm & Hs).
  repeat split; try assumption.
  intros Hne. destruct k as [|k]; [|lia].
  destruct clusters; [|discriminate]. cbn in Hperm.
  apply Permutation_nil_l in Hperm.
  destruct data; [contradiction | discriminate].
Qed.

(** X7. After [performClustering], [getClusterIndex] finds every point:
    for the point at index [dataIndex] (the [this.data.indexOf(d)] of the
    source) it answers the number of the centroid nearest to the point in
    the tenth and last run of the loop, which is below [maxClusters]; the
    fallback [return 0] is never reached for a point of the data. *)
Theorem getClusterIndex_is_last_assignment (this after : State) :
  performClustering random this = Normal after ->
  exists centroids0 centroids9 clusters9,
    iterations (clusterCount this) (map (fun d => (d.(x), d.(y))) this.(data)) 9
               (centroids0, []) (centroids9, clusters9)
    /\ forall dataIndex d,
         this.(data) !! dataIndex = Some d ->
         getClusterIndex after dataIndex = nearestCentroid centroids9 (d.(x), d.(y))
         /\ getClusterIndex after dataIndex < clusterCount this
         /\ exists cluster, after.(clusters) !! getClusterIndex after dataIndex = Some cluster
                            /\ dataIndex ∈ cluster.
Proof.
  unfold performClustering. fold (clusterCount this).
  destruct (kmeans random (clusterCount this) (data this)) as [final|error] eqn:Hrun;
    [|discriminate].
  intros H. inversion H; subst. clear H.
  destruct (kmeans_cluster_lookup random _ _ _ Hrun) as (c0 & c9 & cl9 & Hiter & Hlookup).
  exists c0, c9, cl9. split; [exact Hiter|].
  intros dataIndex d Hd. unfold getClusterIndex. cbn [clusters].
  assert (map (fun d => (x d, y d)) (data this) !! dataIndex = Some (x d, y d)) as Hp
      by (rewrite list_lookup_fmap, Hd; reflexivity).
  destruct (Hlookup dataIndex _ Hp) as [Hidx Hlt].
  split; [exact Hidx|]. split; [rewrite Hidx; exact Hlt|].
  destruct (kmeans_partition random _ _ _ Hrun) as (Hlen & Hperm & _).
  assert (dataIndex ∈ concat final) as Hin.
  { rewrite Hperm. apply elem_of_seq. apply lookup_lt_Some in Hd. lia. }
  destruct (getClusterIndex_from_member 0 final dataIndex Hin)
    as (j & cluster & Hj & Hl & Hm).
  exists cluster. rewrite Hj. split; assumption.
Qed.
End ClusterProperties.

(** ** What [render] draws *)

Section RenderProperties.
Import JS DOM ScatterPlot.
Variable random : nat -> number.
Variable scaleLinear : number * number -> number * number -> number -> number.

Lemma render_same_drawing s1 s2 :
  s1.(data) = s2.(data) -> s1.(options) = s2.(options) -> s1.(console) = s2.(console) ->
  s1.(data) <> [] ->
  (truthy (s1.(options).(clustering) ≫= cl_enabled) = false ->
   s1.(clusters) = s2.(clusters)) ->
  (render random scaleLinear s1).2 = (render random scaleLinear s2).2
  /\ chartGroup (render random scaleLinear s1).1 = chartGroup (render random scaleLinear s2).1
  /\ ((render random scaleLinear s2).2 = Normal tt ->
      render random scaleLinear s1 = render random scaleLinear s2).
Proof.
  destruct s1 as [d o g1 c1 l], s2 as [d2 o2 g2 c2 l2].
  cbn [data options console clusters]. intros <- <- <- Hne Hc.
  rewrite (render_stages random scaleLinear (mkState d o g1 c1 l) Hne).
  rewrite (render_stages random scaleLinear (mkState d o g2 c2 l) Hne).
  unfold xScaleOf, yScaleOf, clusterCount. cbn [data options console clusters].
  destruct (truthy (clustering o ≫= cl_enabled)).
  - destruct (kmeans random _ d) as [final|error]; cbn [fst snd].
    + repeat split.
    + split; [reflexivity|]. split; [reflexivity | discriminate].
  - rewrite (Hc eq_refl). repeat split.
Qed.




End RenderProperties.

Section RenderSequences.
Import JS DOM ScatterPlot.
(** The draws of [Math.random] in a first and in a later call. *)
Variable random1 random2 : nat -> number.
Variable scaleLinear : number * number -> number * number -> number -> number.

Lemma render_keeps_clusters_unless_enabled this :
  this.(data) <> [] ->
  truthy (this.(options).(clustering) ≫= cl_enabled) = false ->
  clusters (render random1 scaleLinear this).1 = clusters this.
Proof.
  intros Hne Hoff.
  destruct (render_beside random1 scaleLinear this Hne) as (_ & _ & _ & [H | [H _]]);
    [exact H | congruence].
Qed.

(** X11. [render] starts from an empty chart group every time: what the
    group held before does not matter, and rendering again (with other
    random draws) after a render gives the drawing a single render with
    those draws gives: the same completion and the same children, and the
    same instance altogether when the call returns. *)
Theorem render_forgets_previous_drawing (this : State) (children : list Element) :
  this.(data) <> [] ->
  render random2 scaleLinear (with_chartGroup children this)
  = render random2 scaleLinear this
  /\ (render random2 scaleLinear (render random1 scaleLinear this).1).2
     = (render random2 scaleLinear this).2
  /\ chartGroup (render random2 scaleLinear (render random1 scaleLinear this).1).1
     = chartGroup (render random2 scaleLinear this).1
  /\ ((render random2 scaleLinear this).2 = Normal tt ->
      render random2 scaleLinear (render random1 scaleLinear this).1
      = render random2 scaleLinear this).
Proof.
  intros Hne. split; [now apply render_reads_no_children|].
  destruct (render_beside random1 scaleLinear this Hne) as (Hd & Ho & Hl & _).
  apply render_same_drawing; try assumption.
  - now rewrite Hd.
  - rewrite Ho. now apply render_keeps_clusters_unless_enabled.
Qed.

(** X12. Clustering with no cluster to assign to throws: when
    [maxClusters] is 0 (or missing) [enableClustering(true)] on a chart
    with data ends in a TypeError for every run of [Math.random], raised
    by [clusters[clusterIndex].push] on the empty [clusters] array, and
    leaves a chart group with the grid and the axes but without any
    point. *)
Theorem enableClustering_without_clusters_throws (this : State) (c : ClusteringOptions) :
  this.(data) <> [] ->
  this.(options).(clustering) = Some c ->
  (c.(maxClusters) = Some 0 \/ c.(maxClusters) = None) ->
  (enableClustering random1 scaleLinear true this).2
  = Throw "TypeError: Cannot read properties of undefined (reading 'push')"
  /\ chartGroup (enableClustering random1 scaleLinear true this).1
     = axesAndGrid this.(options)
  /\ circles (enableClustering random1 scaleLinear true this).1 = [].
Proof.
  intros Hne Hc Hk.
  rewrite (enableClustering_without_clusters random1 scaleLinear this c Hne Hc Hk).
  cbn [fst snd with_chartGroup chartGroup]. split; [reflexivity|]. split; [reflexivity|].
  unfold circles. cbn [chartGroup].
  apply (filter_other_tag "g" "circle" (axesAndGrid (options this)));
    [apply axesAndGrid_are_groups | discriminate].
Qed.

(** X13. Of two calls of [enableTrendLine] only the last counts: the
    drawing after [enableTrendLine(b1)] followed by [enableTrendLine(b2)]
    is the drawing [enableTrendLine(b2)] alone gives with the same random
    draws; the completion and the children of the chart group agree, and
    so does the whole instance when the call returns.  Switching the
    trend line off leaves no trend line behind. *)
Theorem enableTrendLine_last_call_wins (b1 b2 : bool) (this : State) :
  this.(data) <> [] ->
  let twice := enableTrendLine random2 scaleLinear b2
                 (enableTrendLine random1 scaleLinear b1 this).1 in
  let once := enableTrendLine random2 scaleLinear b2 this in
  twice.2 = once.2
  /\ chartGroup twice.1 = chartGroup once.1
  /\ (once.2 = Normal tt -> twice = once)
  /\ (b2 = false -> trendLines twice.1 = []).
Proof.
  intros Hne twice once. subst twice once. rewrite !enableTrendLine_render.
  assert (data (withTrendLine b1 this) <> []) as Hne1 by exact Hne.
  destruct (render_beside random1 scaleLinear (withTrendLine b1 this) Hne1)
    as (Hd & Ho & Hl & Hc).
  set (s1 := (render random1 scaleLinear (withTrendLine b1 this)).1) in *.
  assert (options (withTrendLine b2 s1) = options (withTrendLine b2 this)) as Hopts.
  { unfold withTrendLine at 1. cbn [options]. rewrite Ho.
    unfold withTrendLine. cbn [options width height margin showGrid trendLine clustering].
    now destruct (trendLine (options this)). }
  assert (data (withTrendLine b2 s1) <> []) as Hne2 by (cbn; now rewrite Hd).
  destruct (render_same_drawing random2 scaleLinear
              (withTrendLine b2 s1) (withTrendLine b2 this)) as (H2 & Hg & Hall).
  - cbn. now rewrite Hd.
  - exact Hopts.
  - cbn. now rewrite Hl.
  - exact Hne2.
  - rewrite Hopts. cbn [withTrendLine options clustering clusters]. intros Hoff.
    destruct Hc as [Hc | [Hen _]]; [exact Hc|].
    cbn [withTrendLine options clustering] in Hen. congruence.
  - split; [exact H2|]. split; [exact Hg|]. split; [exact Hall|].
    intros ->.
    pose proof (render_trendLines random2 scaleLinear (withTrendLine false s1) Hne2) as Hn.
    assert (truthy (trendLine (options (withTrendLine false s1)) ≫= tl_enabled) = false)
      as Hoff.
    { unfold withTrendLine. cbn [options trendLine].
      now destruct (trendLine (options s1)). }
    rewrite Hoff in Hn. cbn [andb] in Hn.
    apply length_zero_iff_nil. rewrite Hn.
    now destruct ((render random2 scaleLinear (withTrendLine false s1)).2).
Qed.

(** X14. The options are merged key by key, not property by property: a
    caller who passes a [trendLine] object replaces the default one
    altogether, so unless that object carries [type: 'linear'] itself the
    chart never shows a trend line, neither after construction (even with
    [enabled: true]) nor after [enableTrendLine], whatever its argument. *)
Theorem trend_line_needs_linear_type (config_data : list ScatterData)
        (userOptions : UserOptions) (tl : TrendLineOptions) (this : State)
        (enabled : bool) :
  userOptions.(u_trendLine) = Some tl ->
  tl.(tl_type) <> Some "linear" ->
  new random1 scaleLinear config_data userOptions = Normal this ->
  trendLines this = []
  /\ trendLines (enableTrendLine random2 scaleLinear enabled this).1 = [].
Proof.
  intros Hu Htype. unfold new.
  destruct config_data as [|d rest] eqn:Hdata; [discriminate|]. cbn [length Nat.eqb].
  set (init := mkState (d :: rest) (getDefaultOptions userOptions) [] [] []).
  assert (data init <> []) as Hne by discriminate.
  pose proof (render_trendLines random1 scaleLinear init Hne) as Hn.
  destruct (render_beside random1 scaleLinear init Hne) as (Hd & Ho & _ & _).
  destruct (render random1 scaleLinear init) as [after [[]|error]]; [|discriminate].
  intros H. inversion H; subst after. clear H. cbn [fst snd] in *.
  assert (trendLine (options this) ≫= tl_type = tl_type tl) as Htl.
  { rewrite Ho. unfold init, getDefaultOptions. cbn [options trendLine]. now rewrite Hu. }
  assert (bool_decide (trendLine (options init) ≫= tl_type = Some "linear") = false)
    as Hno.
  { apply bool_decide_eq_false. rewrite <- Ho, Htl. exact Htype. }
  split.
  - rewrite Hno, andb_false_r in Hn. now apply length_zero_iff_nil.
  - rewrite enableTrendLine_render.
    assert (data (withTrendLine enabled this) <> []) as Hne' by (cbn; now rewrite Hd).
    pose proof (render_trendLines random2 scaleLinear (withTrendLine enabled this) Hne')
      as Hn'.
    assert (bool_decide (trendLine (options (withTrendLine enabled this)) ≫= tl_type
                         = Some "linear") = false) as Hno'.
    { apply bool_decide_eq_false. unfold withTrendLine. cbn [options trendLine].
      destruct (trendLine (options this)) as [tl'|]; [|discriminate].
      cbn in Htl |- *. now rewrite Htl. }
    rewrite Hno', andb_false_r in Hn'.
    apply length_zero_iff_nil. rewrite Hn'.
    now destruct ((render random2 scaleLinear (withTrendLine enabled this)).2).
Qed.

(** X15. [update] makes the chart a fresh one: on a chart built by the
    constructor, [update(newData)] with a non-empty array ends as
    constructing a chart from [newData] with the same options would (with
    the same random draws), and when that returns the two instances are
    the same; nothing of the old data, clusters or drawing is kept. *)
Theorem update_is_a_fresh_chart (config_data newData : list ScatterData)
        (userOptions : UserOptions) (this : State) :
  new random1 scaleLinear config_data userOptions = Normal this ->
  newData <> [] ->
  match new random2 scaleLinear newData userOptions with
  | Normal fresh => update random2 scaleLinear newData this = (fresh, Normal tt)
  | Throw error => (update random2 scaleLinear newData this).2 = Throw error
  end.
Proof.
  unfold new at 1.
  destruct config_data as [|d rest]; [discriminate|]. cbn [length Nat.eqb].
  set (init := mkState (d :: rest) (getDefaultOptions userOptions) [] [] []).
  assert (data init <> []) as Hne by discriminate.
  destruct (render_beside random1 scaleLinear init Hne) as (_ & Ho & Hl & _).
  destruct (render random1 scaleLinear init) as [after [[]|error]]; [|discriminate].
  intros H Hnew. inversion H; subst after. clear H. cbn [fst] in *.
  unfold new, update. destruct newData as [|d' rest']; [contradiction|].
  cbn [length Nat.eqb].
  rewrite (render_reads_no_children random2 scaleLinear
             (mkState (d' :: rest') (options this) (chartGroup this) [] (console this))
             (mkState (d' :: rest') (getDefaultOptions userOptions) [] [] []));
    [|unfold beside_children; cbn; now rewrite Ho, Hl | discriminate].
  destruct (render random2 scaleLinear _) as [fresh [[]|error]]; reflexivity.
Qed.
End RenderSequences.

(** ** Selecting points by click *)

Section SelectionProperties.
Import JS DOM ScatterPlot.

(** X16. A click toggles the clicked point and, with [multipleSelection],
    nothing else; without it a click that selects a point drops every
    other selected point, while a click that deselects one keeps the
    others.  So [j] is selected after a click on [i] exactly when: [j] is
    [i] and [i] was not selected, or [j] is another point that was
    selected and either [multipleSelection] is on or the click deselected
    [i]. *)
Theorem clickPoint_membership (multipleSelection : optional bool)
        (selectedPoints : list nat) (i j : nat) :
  Set_has (clickPoint multipleSelection selectedPoints i) j
  = if Nat.eqb j i then negb (Set_has selectedPoints i)
    else Set_has selectedPoints j
         && (truthy multipleSelection || Set_has selectedPoints i).
Proof.
  unfold clickPoint. destruct (Set_has selectedPoints i) eqn:Hi.
  - rewrite Set_has_delete. destruct (Nat.eqb j i) eqn:Hji.
    + apply Nat.eqb_eq in Hji. subst j. rewrite Hi. reflexivity.
    + cbn [negb]. now rewrite orb_true_r.
  - destruct (truthy multipleSelection); cbn [negb orb].
    + rewrite Set_has_add. destruct (Nat.eqb j i) eqn:Hji.
      * apply orb_true_r.
      * now rewrite orb_false_r, andb_true_r.
    + rewrite Set_has_add. cbn [Set_has existsb orb].
      destruct (Nat.eqb j i); [reflexivity | now rewrite andb_false_r].
Qed.

(** X17. Clicks keep the selection a set of valid indices: from a
    selection without repetition whose members index the data, a click on
    a point of the data gives such a selection again, so
    [getSelectedPoints] returns one record per selected index and never
    [undefined]; and without [multipleSelection] a selection of at most
    one point stays one of at most one point. *)
Theorem clickPoint_keeps_selection_valid (multipleSelection : optional bool)
        (data : list ScatterData) (selectedPoints : list nat) (pointIndex : nat) :
  List.NoDup selectedPoints ->
  Forall (fun u => u < length data) selectedPoints ->
  pointIndex < length data ->
  let selected := clickPoint multipleSelection selectedPoints pointIndex in
  List.NoDup selected
  /\ Forall (fun u => u < length data) selected
  /\ Forall (fun p => is_Some p) (getSelectedPoints data selected)
  /\ length (getSelectedPoints data selected) = length selected
  /\ (truthy multipleSelection = false -> length selectedPoints <= 1 ->
      length selected <= 1).
Proof.
  intros Hnd Hin Hi selected.
  assert (Forall (fun u => u < length data) selected) as Hin'
      by now apply clickPoint_in_range.
  split; [now apply clickPoint_NoDup|]. split; [exact Hin'|].
  destruct (getSelectedPoints_defined data selected Hin') as [Hsome Hlen].
  split; [exact Hsome|]. split; [exact Hlen|].
  intros Hm Hsmall. now apply clickPoint_single_size.
Qed.

(** X18. Clicking the same point twice: with [multipleSelection] the
    selection is the one before the two clicks (as a set); without it,
    the two clicks leave the point alone selected if it was selected
    before, and nothing selected otherwise, so every other point of the
    selection is lost. *)
Theorem clickPoint_twice_on_a_point (multipleSelection : optional bool)
        (selectedPoints : list nat) (i : nat) :
  List.NoDup selectedPoints ->
  clickPoint multipleSelection (clickPoint multipleSelection selectedPoints i) i
  ≡ₚ (if truthy multipleSelection then selectedPoints
      else if Set_has selectedPoints i then [i] else []).
Proof.
  intros Hnd. assert (Nat.eqb i i = true) as Hii by now apply Nat.eqb_eq.
  destruct (truthy multipleSelection) eqn:Hm.
  - now apply clickPoint_twice.
  - rewrite !(clickPoint_single _ _ _ Hm).
    destruct (Set_has selectedPoints i) eqn:Hi.
    + destruct (Set_has (Set_delete selectedPoints i) i) eqn:Hgone; [|reflexivity].
      rewrite Set_has_delete, Hi, Hii in Hgone. discriminate.
    + assert (Set_has [i] i = true) as Hhas
          by (unfold Set_has; cbn [existsb]; now rewrite Hii).
      assert (Set_delete [i] i = []) as Hdel
          by (unfold Set_delete; cbn [List.filter]; now rewrite Hii).
      destruct (Set_has [i] i); [|discriminate]. now rewrite Hdel.
Qed.
End SelectionProperties.

(** ** The pie chart beyond its guard *)

Section PieProperties.
Import JS DOM PieChart.
Local Open Scope float_scope.

Lemma is_nan_Prim2SF (v : number) : PrimFloat.is_nan v = true -> Prim2SF v = S754_nan.
Proof. intros Hn. unfold Prim2SF. now rewrite Hn. Qed.

Lemma Prim2SF_is_nan (v : number) : Prim2SF v = S754_nan -> PrimFloat.is_nan v = true.
Proof.
  intros Hn. unfold PrimFloat.is_nan. rewrite FloatAxioms.eqb_spec, Hn. reflexivity.
Qed.

Lemma add_nan_l (a b : number) : PrimFloat.is_nan a = true -> PrimFloat.is_nan (a + b) = true.
Proof.
  intros Hn. apply Prim2SF_is_nan. rewrite FloatAxioms.add_spec, (is_nan_Prim2SF a Hn). reflexivity.
Qed.

Lemma add_nan_r (a b : number) : PrimFloat.is_nan b = true -> PrimFloat.is_nan (a + b) = true.
Proof.
  intros Hn. apply Prim2SF_is_nan. rewrite FloatAxioms.add_spec, (is_nan_Prim2SF b Hn).
  now destruct (Prim2SF a).
Qed.

Lemma totalValue_nan (data : list ChartData) d :
  In d data -> PrimFloat.is_nan d.(value) = true ->
  PrimFloat.is_nan (totalValue data) = true.
Proof.
  unfold totalValue. generalize 0 as sum.
  assert (forall l sum, PrimFloat.is_nan sum = true ->
            PrimFloat.is_nan (fold_left (fun sum d => sum + value d) l sum) = true)
    as Hstays.
  { induction l as [|d' l IH]; intros sum Hs; [exact Hs|].
    cbn [fold_left]. apply IH. now apply add_nan_l. }
  induction data as [|d' data IH]; intros sum Hin Hn; [destruct Hin|].
  cbn [fold_left]. destruct Hin as [-> | Hin].
  - apply Hstays. now apply add_nan_r.
  - now apply IH.
Qed.

(** X19. A drawable array replaces the whole drawing: when the values of a
    non-empty [newData] do not sum to a total [<= 0], [update(newData)]
    leaves exactly one slice per record of [newData] (and one label per
    record when labels are on) in the chart group and one legend item per
    record in the legend group when there is a legend, whatever the groups
    held before, and writes nothing to the console; updating with the same
    array a second time changes nothing. *)
Theorem pie_update_replaces_drawing (newData : list ChartData) (this : State) :
  newData <> [] ->
  PrimFloat.leb (totalValue newData) 0 = false ->
  update newData this
  = mkState newData this.(options)
      (slices newData
       ++ (if this.(options).(labelsEnabled) then labelElements newData else []))%list
      (if this.(options).(legend) then legendItems newData else [])
      this.(console)
  /\ update newData (update newData this) = update newData this.
Proof.
  intros Hne Htotal.
  assert (forall s, update newData s
                    = mkState newData s.(options)
                        (slices newData
                         ++ (if s.(options).(labelsEnabled)
                             then labelElements newData else []))%list
                        (if s.(options).(legend) then legendItems newData else [])
                        s.(console)) as Hupdate.
  { intros s. unfold update. destruct newData as [|d rest] eqn:Hd; [contradiction|].
    cbn [length Nat.eqb]. rewrite <- Hd in *.
    rewrite pie_render_drawn; cbn [data options console]; [reflexivity | | exact Htotal].
    rewrite Hd. discriminate. }
  split; [apply Hupdate|]. now rewrite !Hupdate.
Qed.

(** X20. The guard on the total lets NaN through: when some value of the
    data is NaN the total is NaN, [totalValue <= 0] is false, and [render]
    draws the slices (and labels and legend) without writing the
    "zero or negative" error to the console. *)
Theorem pie_nan_value_is_drawn (this : State) (d : ChartData) :
  In d this.(data) ->
  PrimFloat.is_nan d.(value) = true ->
  PrimFloat.is_nan (totalValue this.(data)) = true
  /\ render this
     = mkState this.(data) this.(options)
         (slices this.(data)
          ++ (if this.(options).(labelsEnabled) then labelElements this.(data) else []))%list
         (if this.(options).(legend) then legendItems this.(data) else [])
         this.(console).
Proof.
  intros Hin Hn. pose proof (totalValue_nan _ _ Hin Hn) as Htotal.
  split; [exact Htotal|].
  apply pie_render_drawn; [|now apply nan_not_below_zero].
  intros Hnil. rewrite Hnil in Hin. destruct Hin.
Qed.
End PieProperties.

(** ** The two trend lines *)

Section TrendLines.
Import JS DOM.
Local Open Scope float_scope.

Lemma leb_not_nan (v : number) : (v <=? v) = true -> PrimFloat.is_nan v = false.
Proof.
  intros Hle. destruct (PrimFloat.is_nan v) eqn:Hn; [|reflexivity].
  rewrite leb_spec, (is_nan_Prim2SF v Hn) in Hle. discriminate.
Qed.

Lemma ltb_not_nan_l (v w : number) : (v <? w) = true -> PrimFloat.is_nan v = false.
Proof.
  intros Hlt. destruct (PrimFloat.is_nan v) eqn:Hn; [|reflexivity].
  rewrite ltb_spec, (is_nan_Prim2SF v Hn) in Hlt. discriminate.
Qed.

Lemma ltb_not_nan_r (v w : number) : (v <? w) = true -> PrimFloat.is_nan w = false.
Proof.
  intros Hlt. destruct (PrimFloat.is_nan w) eqn:Hn; [|reflexivity].
  rewrite ltb_spec, (is_nan_Prim2SF w Hn) in Hlt.
  destruct (Prim2SF v); discriminate.
Qed.

Lemma extent_step_numbers values lo hi :
  PrimFloat.is_nan lo = false -> PrimFloat.is_nan hi = false ->
  exists lo' hi',
    fold_left D3.extent_step values (Some (lo, hi)) = Some (lo', hi')
    /\ PrimFloat.is_nan lo' = false /\ PrimFloat.is_nan hi' = false.
Proof.
  revert lo hi. induction values as [|v values IH]; intros lo hi Hlo Hhi.
  - exists lo, hi. now repeat split.
  - cbn [fold_left D3.extent_step]. apply IH.
    + destruct (v <? lo) eqn:Hlt; [now apply ltb_not_nan_l in Hlt | exact Hlo].
    + destruct (hi <? v) eqn:Hlt; [now apply ltb_not_nan_r in Hlt | exact Hhi].
Qed.

(** [d3.extent] answers numbers as soon as one value is a number. *)
Lemma extent_numbers values :
  Exists (fun v => PrimFloat.is_nan v = false) values ->
  PrimFloat.is_nan (D3.extent values).1 = false
  /\ PrimFloat.is_nan (D3.extent values).2 = false.
Proof.
  unfold D3.extent. induction 1 as [v values Hv | v values _ IH].
  - cbn [fold_left D3.extent_step].
    assert ((v <=? v) = true) as ->.
    { rewrite leb_spec. unfold PrimFloat.is_nan in Hv. rewrite FloatAxioms.eqb_spec in Hv.
      apply negb_false_iff in Hv. unfold SFeqb in Hv. unfold SFleb.
      now destruct (SFcompare (Prim2SF v) (Prim2SF v)) as [[]|]. }
    cbv iota.
    destruct (extent_step_numbers values v v Hv Hv) as (lo & hi & Heq & Hlo & Hhi).
    unfold number in *. rewrite Heq. now split.
  - cbn [fold_left D3.extent_step]. destruct (v <=? v) eqn:Hle; [|exact IH].
    apply leb_not_nan in Hle. cbv iota.
    destruct (extent_step_numbers values v v Hle Hle) as (lo & hi & Heq & Hlo & Hhi).
    unfold number in *. rewrite Heq. now split.
Qed.

Lemma or_zero_number (v : number) :
  PrimFloat.is_nan v = false -> (PrimFloat.is_zero v = true -> v = 0) ->
  LegacyScatterPlot.or_zero v = v.
Proof.
  intros Hn Hz. unfold LegacyScatterPlot.or_zero. rewrite Hn. cbn [orb].
  destruct (PrimFloat.is_zero v); [symmetry; now apply Hz | reflexivity].
Qed.

(** X21. The older scatter plot and the enhanced one draw the same
    least-squares line: for at least two points of which one has a
    numeric [x], and whose smallest and largest [x] are not negative
    zero, the end points [calculateTrendLine] returns are the two points
    of [trendData] in [renderTrendLine], with the same slope and
    intercept computed in the same order.  (The two differ below two
    points, where only the older one draws nothing.) *)
Theorem legacy_trend_line_is_the_same_line (data : list ScatterPlot.ScatterData) :
  2 <= length data ->
  Exists (fun d => PrimFloat.is_nan d.(ScatterPlot.x) = false) data ->
  (PrimFloat.is_zero (D3.extent (map ScatterPlot.x data)).1 = true ->
   (D3.extent (map ScatterPlot.x data)).1 = 0) ->
  (PrimFloat.is_zero (D3.extent (map ScatterPlot.x data)).2 = true ->
   (D3.extent (map ScatterPlot.x data)).2 = 0) ->
  LegacyScatterPlot.calculateTrendLine data
  = Some (LegacyScatterPlot.mkTrendLine
            (ScatterPlot.trendData data).1.1 (ScatterPlot.trendData data).1.2
            (ScatterPlot.trendData data).2.1 (ScatterPlot.trendData data).2.2)
  /\ (ScatterPlot.trendData data).1.2
     = (ScatterPlot.regression data).1 * (D3.extent (map ScatterPlot.x data)).1
       + (ScatterPlot.regression data).2.
Proof.
  intros Hlen Hnum Hlo Hhi.
  assert (Exists (fun v => PrimFloat.is_nan v = false) (map ScatterPlot.x data)) as Hnum'.
  { apply Exists_exists in Hnum as (d & Hd & Hn). apply Exists_exists.
    exists (ScatterPlot.x d). split; [|exact Hn]. now apply (list_elem_of_fmap_2 ScatterPlot.x). }
  destruct (extent_numbers _ Hnum') as [Hn1 Hn2].
  unfold LegacyScatterPlot.calculateTrendLine.
  assert ((length data <? 2)%nat = false) as -> by (apply Nat.ltb_ge; lia).
  rewrite (or_zero_number _ Hn1 Hlo), (or_zero_number _ Hn2 Hhi).
  split; reflexivity.
Qed.
End TrendLines.

(** ** The properties above at concrete inputs *)


(** A file name, a black background and a subject change nothing. *)
Lemma exportPDF_reads_size_title_author_witness :
  ExportManager.exportPDF Examples.serialize Examples.pdf_titled Examples.working_browser
  = ExportManager.exportPDF Examples.serialize Examples.pdf_titled_black
                            Examples.working_browser.
Proof.
  exact (proj1 (exportPDF_reads_size_title_author Examples.serialize
                  Examples.pdf_titled Examples.pdf_titled_black
                  Examples.working_browser eq_refl eq_refl eq_refl eq_refl)).
Defined.

(** The two clusters found for [two_groups] hold the indices 0 to 3. *)
Lemma kmeans_partitions_the_points_witness :
  concat [[1; 3]; [0; 2]] ≡ₚ seq 0 (length Examples.two_groups)
  /\ 0 < 2.
Proof.
  assert (ScatterPlot.kmeans Examples.alternating 2 Examples.two_groups
          = DOM.Normal [[1; 3]; [0; 2]]) as Hrun by (vm_compute; reflexivity).
  destruct (kmeans_partitions_the_points Examples.alternating 2 Examples.two_groups _ Hrun)
    as (_ & Hperm & _ & Hk).
  split; [exact Hperm|]. apply Hk. discriminate.
Defined.

(** The last point of [two_groups] is looked up in one of the two clusters. *)
Lemma getClusterIndex_is_last_assignment_witness :
  exists after,
    ScatterPlot.performClustering Examples.alternating Examples.clustered
    = DOM.Normal after
    /\ ScatterPlot.getClusterIndex after 3 < 2.
Proof.
  assert (exists after,
             ScatterPlot.performClustering Examples.alternating Examples.clustered
             = DOM.Normal after) as [after Hrun]
      by (eexists; vm_compute; reflexivity).
  exists after. split; [exact Hrun|].
  destruct (getClusterIndex_is_last_assignment Examples.alternating Examples.clustered
              after Hrun) as (c0 & c9 & cl9 & _ & Hlookup).
  destruct (Hlookup 3 (ScatterPlot.mkScatterData 10%float 11%float None None) eq_refl)
    as (_ & Hlt & _).
  exact Hlt.
Defined.




(** A stray child of the chart group is gone after the next render. *)
Lemma render_forgets_previous_drawing_witness :
  ScatterPlot.render Examples.always_zero Examples.affine
    (ScatterPlot.with_chartGroup [DOM.mkElement "text" "stray" []] Examples.clustered)
  = ScatterPlot.render Examples.always_zero Examples.affine Examples.clustered.
Proof.
  assert (ScatterPlot.data Examples.clustered <> []) as Hne by discriminate.
  exact (proj1 (render_forgets_previous_drawing Examples.alternating Examples.always_zero
                  Examples.affine Examples.clustered
                  [DOM.mkElement "text" "stray" []] Hne)).
Defined.

(** [enableClustering(true)] with [maxClusters: 0]. *)
Lemma enableClustering_without_clusters_throws_witness :
  (ScatterPlot.enableClustering Examples.alternating Examples.affine true
     (ScatterPlot.mkState Examples.two_groups
        (ScatterPlot.getDefaultOptions Examples.no_clusters) [] [] [])).2
  = DOM.Throw "TypeError: Cannot read properties of undefined (reading 'push')".
Proof.
  refine (proj1 (enableClustering_without_clusters_throws Examples.alternating
                   Examples.affine
                   (ScatterPlot.mkState Examples.two_groups
                      (ScatterPlot.getDefaultOptions Examples.no_clusters) [] [] [])
                   (ScatterPlot.mkClustering (Some false) (Some 0) None [])
                   _ eq_refl (or_introl eq_refl))).
  discriminate.
Defined.

(** The trend line switched on and off again. *)
Lemma enableTrendLine_last_call_wins_witness :
  ScatterPlot.trendLines
    (ScatterPlot.enableTrendLine Examples.always_zero Examples.affine false
       (ScatterPlot.enableTrendLine Examples.alternating Examples.affine true
          (ScatterPlot.mkState Examples.diagonal
             (ScatterPlot.getDefaultOptions ScatterPlot.noOptions) [] [] [])).1).1
  = [].
Proof.
  assert (ScatterPlot.data
            (ScatterPlot.mkState Examples.diagonal
               (ScatterPlot.getDefaultOptions ScatterPlot.noOptions) [] [] []) <> [])
    as Hne by discriminate.
  destruct (enableTrendLine_last_call_wins Examples.alternating Examples.always_zero
              Examples.affine true false _ Hne) as (_ & _ & _ & Hoff).
  exact (Hoff eq_refl).
Defined.

(** [{trendLine: {enabled: true, color: '#000000'}}] shows no trend line. *)
Lemma trend_line_needs_linear_type_witness :
  exists this,
    ScatterPlot.new Examples.alternating Examples.affine Examples.diagonal
                    Examples.trend_untyped = DOM.Normal this
    /\ ScatterPlot.trendLines this = []
    /\ ScatterPlot.trendLines
         (ScatterPlot.enableTrendLine Examples.always_zero Examples.affine true this).1
       = [].
Proof.
  assert (exists this,
             ScatterPlot.new Examples.alternating Examples.affine Examples.diagonal
                             Examples.trend_untyped = DOM.Normal this) as [this Hnew]
      by (eexists; vm_compute; reflexivity).
  exists this. split; [exact Hnew|].
  refine (trend_line_needs_linear_type Examples.alternating Examples.always_zero
            Examples.affine Examples.diagonal Examples.trend_untyped
            (ScatterPlot.mkTrendLine (Some true) None (Some "#000000") None None)
            this true eq_refl _ Hnew).
  discriminate.
Defined.

(** The diagonal chart updated to the points of [two_groups]. *)
Lemma update_is_a_fresh_chart_witness :
  exists this fresh,
    ScatterPlot.new Examples.alternating Examples.affine Examples.diagonal
                    ScatterPlot.noOptions = DOM.Normal this
    /\ ScatterPlot.new Examples.always_zero Examples.affine Examples.two_groups
                       ScatterPlot.noOptions = DOM.Normal fresh
    /\ ScatterPlot.update Examples.always_zero Examples.affine Examples.two_groups this
       = (fresh, DOM.Normal tt).
Proof.
  assert (exists this,
             ScatterPlot.new Examples.alternating Examples.affine Examples.diagonal
                             ScatterPlot.noOptions = DOM.Normal this) as [this Hnew]
      by (eexists; vm_compute; reflexivity).
  assert (exists fresh,
             ScatterPlot.new Examples.always_zero Examples.affine Examples.two_groups
                             ScatterPlot.noOptions = DOM.Normal fresh) as [fresh Hfresh]
      by (eexists; vm_compute; reflexivity).
  exists this, fresh. split; [exact Hnew|]. split; [exact Hfresh|].
  assert (Examples.two_groups <> []) as Hne by discriminate.
  pose proof (update_is_a_fresh_chart Examples.alternating Examples.always_zero
                Examples.affine Examples.diagonal Examples.two_groups
                ScatterPlot.noOptions this Hnew Hne) as Hupdate.
  rewrite Hfresh in Hupdate. exact Hupdate.
Defined.

(** A click on point 2 with point 0 selected. *)
Lemma clickPoint_keeps_selection_valid_witness :
  Forall (fun p => is_Some p)
         (ScatterPlot.getSelectedPoints Examples.two_groups
            (ScatterPlot.clickPoint (Some true) [0] 2)).
Proof.
  refine (proj1 (proj2 (proj2 (clickPoint_keeps_selection_valid (Some true)
                                 Examples.two_groups [0] 2 _ _ _)))).
  - constructor; [intros [] | constructor].
  - constructor; [cbn; lia | constructor].
  - cbn; lia.
Defined.

(** Two clicks on point 1 of the selection [{0, 1}]. *)
Lemma clickPoint_twice_on_a_point_witness :
  ScatterPlot.clickPoint (Some true) (ScatterPlot.clickPoint (Some true) [0; 1] 1) 1
  ≡ₚ [0; 1].
Proof.
  refine (clickPoint_twice_on_a_point (Some true) [0; 1] 1 _).
  constructor; [intros [H | []]; discriminate H|].
  constructor; [intros [] | constructor].
Defined.

(** Updating with the two slices twice. *)
Lemma pie_update_replaces_drawing_witness :
  PieChart.update Examples.two_slices
    (PieChart.update Examples.two_slices
       (PieChart.mkState Examples.zero_slices PieChart.defaultOptions [] [] []))
  = PieChart.update Examples.two_slices
      (PieChart.mkState Examples.zero_slices PieChart.defaultOptions [] [] []).
Proof.
  refine (proj2 (pie_update_replaces_drawing Examples.two_slices
                   (PieChart.mkState Examples.zero_slices PieChart.defaultOptions
                                     [] [] [])
                   _ eq_refl)).
  discriminate.
Defined.

(** A NaN slice is drawn without a word on the console. *)
Lemma pie_nan_value_is_drawn_witness :
  PieChart.console
    (PieChart.render (PieChart.mkState Examples.nan_slices PieChart.defaultOptions
                                       [] [] []))
  = [].
Proof.
  destruct (pie_nan_value_is_drawn
              (PieChart.mkState Examples.nan_slices PieChart.defaultOptions [] [] [])
              (PieChart.mkChartData "a" nan None) (or_introl eq_refl) eq_refl)
    as [_ Hdrawn].
  rewrite Hdrawn. reflexivity.
Defined.

(** Both scatter plots draw the diagonal from (0, 0) to (2, 2). *)
Lemma legacy_trend_line_is_the_same_line_witness :
  LegacyScatterPlot.calculateTrendLine Examples.diagonal
  = Some (LegacyScatterPlot.mkTrendLine
            (ScatterPlot.trendData Examples.diagonal).1.1
            (ScatterPlot.trendData Examples.diagonal).1.2
            (ScatterPlot.trendData Examples.diagonal).2.1
            (ScatterPlot.trendData Examples.diagonal).2.2).
Proof.
  refine (proj1 (legacy_trend_line_is_the_same_line Examples.diagonal _ _ _ _)).
  - cbn; lia.
  - apply Exists_cons_hd. reflexivity.
  - intros _. vm_compute. reflexivity.
  - intros Hzero. vm_compute in Hzero. discriminate Hzero.
Defined.
